(** * transifex_api.jsonapi: a shallow embedding of the Resource model

    The development follows [src/transifex_api/jsonapi.py].  Python values
    that travel on the wire are JSON documents; Python dictionaries keep
    their insertion order and are association lists with unique keys;
    exceptions are values of [exn]; the class registry of [globals.py] is a
    finite map from type names to classes. *)

From Stdlib Require Import String ZArith List Bool Lia Ascii.
From stdpp Require Import gmap strings.
Import ListNotations.
Set Warnings "-register-all".
Set Default Proof Using "Type".
Local Open Scope string_scope.
Local Open Scope list_scope.

(** ** JSON documents and the Python operators the module applies to them *)

Inductive json : Type :=
| JNull
| JBool (b : bool)
| JNum (n : Z)
| JStr (s : string)
| JArr (l : list json)
| JObj (d : list (string * json)).

Abbreviation dict V := (list (string * V)).

Module Dict.
Section Ops.
Context {V : Type}.

(* d.get(k) *)
Fixpoint get (k : string) (d : dict V) : option V :=
  match d with
  | [] => None
  | (k', v) :: t => if String.eqb k k' then Some v else get k t
  end.

(* k in d *)
Definition has (k : string) (d : dict V) : bool :=
  match get k d with Some _ => true | None => false end.

(* d[k] = v : an existing key keeps its position, a new one goes last *)
Fixpoint set (k : string) (v : V) (d : dict V) : dict V :=
  match d with
  | [] => [(k, v)]
  | (k', v') :: t =>
      if String.eqb k k' then (k', v) :: t else (k', v') :: set k v t
  end.

(* del d[k] *)
Fixpoint del (k : string) (d : dict V) : dict V :=
  match d with
  | [] => []
  | (k', v') :: t =>
      if String.eqb k k' then del k t else (k', v') :: del k t
  end.

Definition keys (d : dict V) : list string := map fst d.

(* d.update(other) *)
Definition update (d other : dict V) : dict V :=
  fold_left (fun acc kv => set (fst kv) (snd kv) acc) other d.
End Ops.
End Dict.

(** Exceptions.  Interpreter errors carry what distinguishes them in a
    traceback; the module's own [raise] statements are one constructor
    each. *)
Inductive type_error : Type :=
| NotIterable (tyname : string)        (* argument of type X is not iterable *)
| NotSubscriptable (tyname : string)   (* X is not subscriptable / bad index type *)
| NotAMapping (tyname : string)        (* argument after ** must be a mapping *)
| UnexpectedKeyword (kw : string)      (* got an unexpected keyword argument *)
| MultipleValues (kw : string)         (* got multiple values for keyword argument *)
| Unhashable (tyname : string)         (* unhashable type *)
| CannotUnpack (tyname : string) (line : nat).
                                       (* cannot unpack non-iterable X object,
                                          with the source line that raised it *)

Inductive exn : Type :=
| ValueError_invalid_type                    (* ValueError("Invalid type") *)
| ValueError_no_relationship (name : string) (* "... doesn't have relationship 'name'" *)
| ValueError_id_supplied                     (* "'id' supplied as part of a new instance" *)
| ValueError_id_not_supplied                 (* "'id' not supplied as part of an update operation" *)
| ValueError_unpack                          (* too many / not enough values to unpack *)
| AttributeError_plural (attr cls : string)  (* "You can't set the 'attr' relationship ..." *)
| AttributeError (tyname attr : string)      (* 'X' object has no attribute 'attr' *)
| KeyError (key : string)
| TypeError (why : type_error)
| RecursionError                             (* maximum recursion depth exceeded *)
| TransportError (status : Z) (body : json)  (* raised by the Transport collaborator *)
| Untypable (what : string).
  (* the model's own: the Python value at hand lies outside the types of the
     data model (for instance a Resource stored among the attributes) *)

Inductive result (A : Type) : Type :=
| Ok (a : A)
| Raise (e : exn).
Arguments Ok {A} a.
Arguments Raise {A} e.

Definition rbind {A B} (r : result A) (k : A -> result B) : result B :=
  match r with Ok a => k a | Raise e => Raise e end.

Declare Scope py_scope.
Delimit Scope py_scope with py.
Notation "'try!' x := c 'in' k" := (rbind c (fun x => k))
  (at level 10, x name, c at level 100, k at level 200) : py_scope.
Local Open Scope py_scope.

Module Py.

(* type(x).__name__ *)
Definition type_name (v : json) : string :=
  match v with
  | JNull => "NoneType" | JBool _ => "bool" | JNum _ => "int"
  | JStr _ => "str" | JArr _ => "list" | JObj _ => "dict"
  end.

Definition is_none (v : json) : bool :=
  match v with JNull => true | _ => false end.

(* bool(x) *)
Definition truth (v : json) : bool :=
  match v with
  | JNull => false
  | JBool b => b
  | JNum n => negb (n =? 0)%Z
  | JStr s => negb (String.eqb s "")
  | JArr l => match l with [] => false | _ => true end
  | JObj d => match d with [] => false | _ => true end
  end.

(* x == y : booleans compare as the integers 0 and 1, lists pointwise,
   dictionaries by key regardless of order *)
Fixpoint eq (a b : json) {struct a} : bool :=
  match a, b with
  | JNull, JNull => true
  | JBool x, JBool y => Bool.eqb x y
  | JBool x, JNum y => ((if x then 1 else 0) =? y)%Z
  | JNum x, JBool y => (x =? (if y then 1 else 0))%Z
  | JNum x, JNum y => (x =? y)%Z
  | JStr x, JStr y => String.eqb x y
  | JArr xs, JArr ys =>
      (fix all2 (xs ys : list json) {struct xs} : bool :=
         match xs, ys with
         | [], [] => true
         | x :: xs', y :: ys' => eq x y && all2 xs' ys'
         | _, _ => false
         end) xs ys
  | JObj xs, JObj ys =>
      (length xs =? length ys)%nat &&
      (fix all (xs : list (string * json)) {struct xs} : bool :=
         match xs with
         | [] => true
         | (k, v) :: xs' =>
             match Dict.get k ys with
             | Some w => eq v w && all xs'
             | None => false
             end
         end) xs
  | _, _ => false
  end.

(* s in t for strings: t has s as a contiguous part *)
Fixpoint substring_of (s t : string) : bool :=
  String.prefix s t ||
  match t with
  | EmptyString => false
  | String _ t' => substring_of s t'
  end.

(* key in container *)
Definition contains (key : string) (c : json) : result bool :=
  match c with
  | JObj d => Ok (Dict.has key d)
  | JArr l => Ok (existsb (eq (JStr key)) l)
  | JStr s => Ok (substring_of key s)
  | _ => Raise (TypeError (NotIterable (type_name c)))
  end.

(* container[key] with a string key *)
Definition getitem (c : json) (key : string) : result json :=
  match c with
  | JObj d =>
      match Dict.get key d with
      | Some v => Ok v
      | None => Raise (KeyError key)
      end
  | _ => Raise (TypeError (NotSubscriptable (type_name c)))
  end.

(* container[key] = v with a string key *)
Definition setitem (c : json) (key : string) (v : json) : result json :=
  match c with
  | JObj d => Ok (JObj (Dict.set key v d))
  | _ => Raise (TypeError (NotSubscriptable (type_name c)))
  end.

(* x.get(key) with the default None *)
Definition get (c : json) (key : string) : result json :=
  match c with
  | JObj d => Ok (match Dict.get key d with Some v => v | None => JNull end)
  | _ => Raise (AttributeError (type_name c) "get")
  end.

Fixpoint chars (s : string) : list json :=
  match s with
  | EmptyString => []
  | String c t => JStr (String c EmptyString) :: chars t
  end.

(* iter(x) *)
Definition iter (c : json) : result (list json) :=
  match c with
  | JArr l => Ok l
  | JObj d => Ok (map (fun kv => JStr (fst kv)) d)
  | JStr s => Ok (chars s)
  | _ => Raise (TypeError (NotIterable (type_name c)))
  end.

(* hash(x) is defined *)
Definition hashable (v : json) : bool :=
  match v with JArr _ | JObj _ => false | _ => true end.

End Py.

(** ** Classes, the registry and the instances *)

(** A class statement: its name, its bases' effective TYPE and EDITABLE, and
    the names its body (and its bases' bodies) define beside them. *)
Record klass : Type := {
  cls_name : string;
  TYPE : option string;
  EDITABLE : option (list string);
  cls_members : list string
}.

(* class Resource(metaclass=_JsonApiMeta): TYPE = None; EDITABLE = None *)
Definition Resource_class : klass :=
  {| cls_name := "Resource"; TYPE := None; EDITABLE := None;
     cls_members := [] |}.

(** [_jsonapi_global.registry] lives in [globals.py]; it is used as a plain
    dictionary from type names to classes. *)
Abbreviation registry := (gmap string klass).

(** The body of a class statement, as the metaclass receives it in [dct]:
    [None] is a name the body does not bind. *)
Record class_body : Type := {
  dct_TYPE : option (option string);
  dct_EDITABLE : option (option (list string));
  dct_members : list string
}.

Module _JsonApiMeta.
(* klass = super().__new__(cls, name, bases, dct) *)
Definition type_new (name : string) (base : klass) (dct : class_body) : klass :=
  {| cls_name := name;
     TYPE := match dct_TYPE dct with Some t => t | None => TYPE base end;
     EDITABLE := match dct_EDITABLE dct with
                 | Some e => e | None => EDITABLE base end;
     cls_members := dct_members dct ++ cls_members base |}.

Definition __new__ (name : string) (base : klass) (dct : class_body)
           (reg : registry) : klass * registry :=
  let klass := type_new name base dct in
  match dct_TYPE dct with
  | Some (Some t) => (klass, <[t := klass]> reg)
  | _ => (klass, reg)
  end.
End _JsonApiMeta.

(** Modelled from the spec: the Queryset of [queryset.py], which is not among
    the sources.  Section 3 of the specification: a cursor holds its anchoring
    URL or raw page payload and the current page; it is unfetched until first
    accessed, "at which point it performs exactly one request and caches the
    page"; [from_data] seeds it as already fetched. *)
Record queryset : Type := {
  qs_url : json;
  qs_page : option json
}.

Definition Queryset (url : json) : queryset :=
  {| qs_url := url; qs_page := None |}.

Definition Queryset_from_data (body : json) : queryset :=
  {| qs_url := JNull; qs_page := Some body |}.

(** An instance: its class, the five structural fields, and whatever else
    was stored in its [__dict__] by an ordinary assignment.  The related
    cache holds raw values (among them [None]), instances and cursors. *)
Inductive resource : Type :=
| mkResource (cls : klass) (id : json) (attributes : json)
             (relationships : list (string * json))
             (related : list (string * value)) (links : json)
             (instance_dict : list (string * value))
with value : Type :=
| VJson (j : json)
| VRes (r : resource)
| VQs (q : queryset).

Definition cls (s : resource) : klass :=
  match s with mkResource c _ _ _ _ _ _ => c end.
Definition id (s : resource) : json :=
  match s with mkResource _ i _ _ _ _ _ => i end.
Definition attributes (s : resource) : json :=
  match s with mkResource _ _ a _ _ _ _ => a end.
Definition relationships (s : resource) : dict json :=
  match s with mkResource _ _ _ R _ _ _ => R end.
Definition related (s : resource) : dict value :=
  match s with mkResource _ _ _ _ r _ _ => r end.
Definition links (s : resource) : json :=
  match s with mkResource _ _ _ _ _ l _ => l end.
Definition instance_dict (s : resource) : dict value :=
  match s with mkResource _ _ _ _ _ _ d => d end.

(** What callers hand over where "a Resource or a dictionary describing one"
    is expected. *)
Inductive item : Type :=
| IRes (r : resource)
| IJson (j : json).

Definition value_of_item (it : item) : value :=
  match it with IRes r => VRes r | IJson j => VJson j end.

Definition json_of_option (o : option string) : json :=
  match o with Some s => JStr s | None => JNull end.

Definition set_id (v : json) (s : resource) : resource :=
  mkResource (cls s) v (attributes s) (relationships s) (related s) (links s)
             (instance_dict s).
Definition set_attributes (v : json) (s : resource) : resource :=
  mkResource (cls s) (id s) v (relationships s) (related s) (links s)
             (instance_dict s).
Definition set_relationships (v : dict json) (s : resource) : resource :=
  mkResource (cls s) (id s) (attributes s) v (related s) (links s)
             (instance_dict s).
Definition set_related (v : dict value) (s : resource) : resource :=
  mkResource (cls s) (id s) (attributes s) (relationships s) v (links s)
             (instance_dict s).
Definition set_links (v : json) (s : resource) : resource :=
  mkResource (cls s) (id s) (attributes s) (relationships s) (related s) v
             (instance_dict s).
Definition set_instance_dict (v : dict value) (s : resource) : resource :=
  mkResource (cls s) (id s) (attributes s) (relationships s) (related s)
             (links s) v.

(** Methods that run on [self] and may raise half way: the instance is
    threaded through, and what was written before the exception stays. *)
Definition method (A : Type) : Type := resource -> result A * resource.

Definition mret {A} (a : A) : method A := fun s => (Ok a, s).
Definition mraise {A} (e : exn) : method A := fun s => (Raise e, s).
Definition mlift {A} (r : result A) : method A := fun s => (r, s).
Definition mbind {A B} (m : method A) (k : A -> method B) : method B :=
  fun s => match m s with
           | (Ok a, s') => k a s'
           | (Raise e, s') => (Raise e, s')
           end.
Definition mget : method resource := fun s => (Ok s, s).
Definition mmodify (f : resource -> resource) : method unit :=
  fun s => (Ok tt, f s).

Notation "'do!' x := c 'in' k" := (mbind c (fun x => k))
  (at level 10, x name, c at level 100, k at level 200) : py_scope.
Notation "c ';;!' k" := (mbind c (fun _ => k))
  (at level 100, k at level 200, right associativity) : py_scope.

(* for x in l: body(x) *)
Fixpoint mfor {X} (l : list X) (body : X -> method unit) : method unit :=
  match l with
  | [] => mret tt
  | x :: t => body x ;;! mfor t body
  end.

(** ** Construction: [__init__], [_overwrite], [new], [as_resource] *)

(** The [relationships] argument: a raw value from a payload ([None], a
    dictionary of descriptors, or anything else), or a dictionary that holds
    Resource instances among its values. *)
Inductive relationships_arg : Type :=
| RelsJson (j : json)
| RelsObjs (d : dict item).

(* the keyword arguments of __init__, `data` and `type` apart *)
Record init_args : Type := {
  a_id : json;
  a_attributes : json;
  a_relationships : relationships_arg;
  a_links : json;
  a_related : option (dict value)
}.

Definition no_args : init_args :=
  {| a_id := JNull; a_attributes := JNull; a_relationships := RelsJson JNull;
     a_links := JNull; a_related := None |}.

(* the keyword arguments of _overwrite *)
Record overwrite_args : Type := {
  o_id : json;
  o_attributes : json;
  o_relationships : relationships_arg;
  o_links : json;
  o_related : option (dict value);
  o_included : json;
  o_type : json
}.

Definition overwrite_defaults : overwrite_args :=
  {| o_id := JNull; o_attributes := JNull; o_relationships := RelsJson JNull;
     o_links := JNull; o_related := None; o_included := JNull;
     o_type := JNull |}.

(** A [related] value that arrives inside a JSON payload. *)
Definition related_of_json (j : json) : result (option (dict value)) :=
  match j with
  | JNull => Ok None
  | JObj d => Ok (Some (map (fun kv => (fst kv, VJson (snd kv))) d))
  | _ => Raise (Untypable "related")
  end.

(** [f( **data)] for [f = _overwrite]: every key must be a parameter name,
    and none may repeat a keyword the call site already passes. *)
Fixpoint overwrite_kwargs (passed : list string) (data : dict json)
         (acc : overwrite_args) : result overwrite_args :=
  match data with
  | [] => Ok acc
  | (k, v) :: t =>
      if existsb (String.eqb k) passed
      then Raise (TypeError (MultipleValues k))
      else
        let upd (f : overwrite_args) := overwrite_kwargs passed t f in
        if String.eqb k "id" then
          upd {| o_id := v; o_attributes := o_attributes acc;
                 o_relationships := o_relationships acc;
                 o_links := o_links acc; o_related := o_related acc;
                 o_included := o_included acc; o_type := o_type acc |}
        else if String.eqb k "attributes" then
          upd {| o_id := o_id acc; o_attributes := v;
                 o_relationships := o_relationships acc;
                 o_links := o_links acc; o_related := o_related acc;
                 o_included := o_included acc; o_type := o_type acc |}
        else if String.eqb k "relationships" then
          upd {| o_id := o_id acc; o_attributes := o_attributes acc;
                 o_relationships := RelsJson v;
                 o_links := o_links acc; o_related := o_related acc;
                 o_included := o_included acc; o_type := o_type acc |}
        else if String.eqb k "links" then
          upd {| o_id := o_id acc; o_attributes := o_attributes acc;
                 o_relationships := o_relationships acc;
                 o_links := v; o_related := o_related acc;
                 o_included := o_included acc; o_type := o_type acc |}
        else if String.eqb k "related" then
          try! r := related_of_json v in
          upd {| o_id := o_id acc; o_attributes := o_attributes acc;
                 o_relationships := o_relationships acc;
                 o_links := o_links acc; o_related := r;
                 o_included := o_included acc; o_type := o_type acc |}
        else if String.eqb k "included" then
          upd {| o_id := o_id acc; o_attributes := o_attributes acc;
                 o_relationships := o_relationships acc;
                 o_links := o_links acc; o_related := o_related acc;
                 o_included := v; o_type := o_type acc |}
        else if String.eqb k "type" then
          upd {| o_id := o_id acc; o_attributes := o_attributes acc;
                 o_relationships := o_relationships acc;
                 o_links := o_links acc; o_related := o_related acc;
                 o_included := o_included acc; o_type := v |}
        else Raise (TypeError (UnexpectedKeyword k))
  end.

(** [klass( **kwargs)]: the keywords [new] forwards to [__init__]; [data]
    and [type] never reach this point, [new] binds them itself. *)
Fixpoint init_kwargs (kwargs : dict json) (acc : init_args)
  : result init_args :=
  match kwargs with
  | [] => Ok acc
  | (k, v) :: t =>
      if String.eqb k "id" then
        init_kwargs t {| a_id := v; a_attributes := a_attributes acc;
                         a_relationships := a_relationships acc;
                         a_links := a_links acc; a_related := a_related acc |}
      else if String.eqb k "attributes" then
        init_kwargs t {| a_id := a_id acc; a_attributes := v;
                         a_relationships := a_relationships acc;
                         a_links := a_links acc; a_related := a_related acc |}
      else if String.eqb k "relationships" then
        init_kwargs t {| a_id := a_id acc; a_attributes := a_attributes acc;
                         a_relationships := RelsJson v;
                         a_links := a_links acc; a_related := a_related acc |}
      else if String.eqb k "links" then
        init_kwargs t {| a_id := a_id acc; a_attributes := a_attributes acc;
                         a_relationships := a_relationships acc;
                         a_links := v; a_related := a_related acc |}
      else if String.eqb k "related" then
        try! r := related_of_json v in
        init_kwargs t {| a_id := a_id acc; a_attributes := a_attributes acc;
                         a_relationships := a_relationships acc;
                         a_links := a_links acc; a_related := r |}
      else Raise (TypeError (UnexpectedKeyword k))
  end.

(** The dictionary [{(item['type'], item['id']): item for item in included}]:
    keys are pairs, compared with [==]; a repeated key keeps the last item. *)
Module Included.
Definition key : Type := json * json.

Definition key_eq (a b : key) : bool :=
  Py.eq (fst a) (fst b) && Py.eq (snd a) (snd b).

(* hash((type, id)) *)
Definition hash (k : key) : result unit :=
  if negb (Py.hashable (fst k))
  then Raise (TypeError (Unhashable (Py.type_name (fst k))))
  else if negb (Py.hashable (snd k))
  then Raise (TypeError (Unhashable (Py.type_name (snd k))))
  else Ok tt.

Fixpoint get (k : key) (d : list (key * json)) : option json :=
  match d with
  | [] => None
  | (k', v) :: t => if key_eq k k' then Some v else get k t
  end.

Fixpoint set (k : key) (v : json) (d : list (key * json))
  : list (key * json) :=
  match d with
  | [] => [(k, v)]
  | (k', v') :: t =>
      if key_eq k k' then (k', v) :: t else (k', v') :: set k v t
  end.

Fixpoint index (items : list json) (acc : list (key * json))
  : result (list (key * json)) :=
  match items with
  | [] => Ok acc
  | item :: t =>
      try! ty := Py.getitem item "type" in
      try! i := Py.getitem item "id" in
      try! _ := hash (ty, i) in
      index t (set (ty, i) item acc)
  end.

Definition by_key (included : json) : result (list (key * json)) :=
  try! items := Py.iter included in
  index items [].
End Included.

(** ** Requests and the operations that issue them *)

Inductive http_method : Type := GET | POST | PATCH | DELETE.

(** A URL is a value taken from a payload, or one of the two f-strings
    ["/{TYPE}"] and ["/{TYPE}/{id}"], kept unformatted. *)
Inductive url : Type :=
| Url (u : json)
| CollectionUrl (type : option string)
| ItemUrl (type : option string) (id : json).

Record request : Type := {
  rq_method : http_method;
  rq_url : url;
  rq_json : option json;
  rq_params : option json;
  rq_bulk : bool
}.

(** Operations that run on [self] and may call the Transport. *)
Definition op (A : Type) : Type :=
  resource -> list request -> result A * resource * list request.

Definition oret {A} (a : A) : op A := fun s log => (Ok a, s, log).
Definition oraise {A} (e : exn) : op A := fun s log => (Raise e, s, log).
Definition olift {A} (r : result A) : op A := fun s log => (r, s, log).
Definition obind {A B} (m : op A) (k : A -> op B) : op B :=
  fun s log => match m s log with
               | (Ok a, s', log') => k a s' log'
               | (Raise e, s', log') => (Raise e, s', log')
               end.
Definition oget : op resource := fun s log => (Ok s, s, log).
Definition omodify (f : resource -> resource) : op unit :=
  fun s log => (Ok tt, f s, log).
Definition omethod {A} (m : method A) : op A :=
  fun s log => let (r, s') := m s in (r, s', log).

Notation "'op!' x := c 'in' k" := (obind c (fun x => k))
  (at level 10, x name, c at level 100, k at level 200) : py_scope.

(* for x in l: body(x) *)
Fixpoint ofor {X} (l : list X) (body : X -> op unit) : op unit :=
  match l with
  | [] => oret tt
  | x :: t => op! _ := body x in ofor t body
  end.

(* the result of a `try: ... except Exception: value = None` *)
Definition or_none (r : result json) : json :=
  match r with Ok v => v | Raise _ => JNull end.

Module Resource.

Definition as_resource_identifier (self : resource) : json :=
  JObj [("type", json_of_option (TYPE (cls self))); ("id", id self)].

Definition as_relationship (self : resource) : json :=
  JObj [("data", as_resource_identifier self)].

(* self.R[key] = v and self.r[key] = v *)
Definition set_R (key : string) (v : json) (s : resource) : resource :=
  set_relationships (Dict.set key v (relationships s)) s.
Definition set_r (key : string) (v : value) (s : resource) : resource :=
  set_related (Dict.set key v (related s)) s.

(* the object Python hands to __init__, before any field is written *)
Definition blank (k : klass) : resource :=
  mkResource k JNull JNull [] [] JNull [].

Section Construction.
(** [Resource.new(data)], the one call [_overwrite] makes. *)
Variable Resource_new : json -> result resource.

(* lines 194-200: self.relationships is filled from the argument *)
Definition store_relationships (relationships : relationships_arg)
  : method unit :=
  match relationships with
  | RelsJson JNull => mret tt
  | RelsJson (JObj d) =>
      mfor d (fun kv => mmodify (set_R (fst kv) (snd kv)))
  | RelsJson j => mraise (AttributeError (Py.type_name j) "items")
  | RelsObjs d =>
      mfor d (fun kv =>
                match snd kv with
                | IRes value => mmodify (set_R (fst kv) (as_relationship value))
                | IJson value => mmodify (set_R (fst kv) value)
                end)
  end.

(* lines 208-214: one cache entry per null or singular relationship *)
Definition link_related : method unit :=
  do! s := mget in
  mfor (relationships s)
       (fun kv =>
          let relationship_name := fst kv in
          let relationship := snd kv in
          if Py.is_none relationship
          then mmodify (set_r relationship_name (VJson JNull))
          else
            do! singular := mlift (Py.contains "data" relationship) in
            if singular
            then do! res := mlift (Resource_new relationship) in
                 mmodify (set_r relationship_name (VRes res))
            else mret tt).

(* lines 218-224: the body of the loop over self.R.items() *)
Definition link_included_one (included : list (Included.key * json))
           (kv : string * json) : method unit :=
  let relationship_name := fst kv in
  let relationship := snd kv in
  if Py.is_none relationship then mret tt
  else
    do! singular := mlift (Py.contains "data" relationship) in
    if negb singular then mret tt
    else
      do! d1 := mlift (Py.getitem relationship "data") in
      do! ty := mlift (Py.getitem d1 "type") in
      do! d2 := mlift (Py.getitem relationship "data") in
      do! i := mlift (Py.getitem d2 "id") in
      do! _ := mlift (Included.hash (ty, i)) in
      match Included.get (ty, i) included with
      | Some found =>
          do! res := mlift (Resource_new found) in
          mmodify (set_r relationship_name (VRes res))
      | None => mret tt
      end.

(* lines 216-224 *)
Definition link_included (included : json) : method unit :=
  if Py.is_none included then mret tt
  else
    do! by_key := mlift (Included.by_key included) in
    do! s := mget in
    mfor (relationships s) (link_included_one by_key).

Definition _overwrite (a : overwrite_args) : method unit :=
  mmodify (set_id (o_id a)) ;;!
  mmodify (set_attributes
             (if Py.is_none (o_attributes a) then JObj []
              else o_attributes a)) ;;!
  mmodify (set_relationships []) ;;!
  store_relationships (o_relationships a) ;;!
  mmodify (set_links
             (if Py.is_none (o_links a) then JObj [] else o_links a)) ;;!
  mmodify (set_related []) ;;!
  link_related ;;!
  link_included (o_included a) ;;!
  match o_related a with
  | Some rel =>
      mmodify (fun s => set_related (Dict.update (related s) rel) s)
  | None => mret tt
  end.

(* `if 'data' in data: data = data['data']` *)
Definition unwrap (data : json) : result json :=
  try! enveloped := Py.contains "data" data in
  if enveloped then Py.getitem data "data" else Ok data.

Definition __init__ (klass : klass) (data : json) (a : init_args)
           (type : json) : result resource :=
  if negb (Py.is_none type)
     && negb (Py.eq type (json_of_option (TYPE klass)))
  then Raise ValueError_invalid_type
  else
    let self := blank klass in
    if negb (Py.is_none data) then
      try! data' := unwrap data in
      match data' with
      | JObj d =>
          try! args := overwrite_kwargs [] d overwrite_defaults in
          match _overwrite args self with
          | (Ok _, self') => Ok self'
          | (Raise e, _) => Raise e
          end
      | _ => Raise (TypeError (NotAMapping (Py.type_name data')))
      end
    else
      match _overwrite {| o_id := a_id a;
                          o_attributes := a_attributes a;
                          o_relationships := a_relationships a;
                          o_links := a_links a;
                          o_related := a_related a;
                          o_included := JNull;
                          o_type := JNull |} self with
      | (Ok _, self') => Ok self'
      | (Raise e, _) => Raise e
      end.
End Construction.

(** *** Attribute reads *)

(** What an attribute read yields: a value, the related cache itself, or
    something found on the class (a method, a class constant). *)
Inductive attr_value : Type :=
| AValue (v : value)
| ARelated (d : dict value)
| AMember (name : string).

(* the names bound in the body of `class Resource` and in `object` *)
Definition Resource_members : list string :=
  ["TYPE"; "EDITABLE"; "__init__"; "_overwrite"; "new"; "as_resource";
   "__getattr__"; "__setattr__"; "reload"; "get"; "list";
   "_queryset_method"; "filter"; "page"; "include"; "sort"; "fields";
   "extra"; "fetch"; "save"; "_save_existing"; "_save_new"; "create";
   "delete"; "change"; "add"; "remove"; "reset"; "_edit_relationship";
   "_edit_plural_relationship"; "bulk_delete"; "bulk_create";
   "bulk_update"; "_extract_from_item"; "__eq__"; "__repr__"; "__copy__";
   "as_resource_identifier"; "as_relationship"; "_get_url";
   "__class__"; "__dict__"; "__doc__"; "__module__"; "__hash__";
   "__str__"; "__ne__"; "__new__"; "__getattribute__"; "__delattr__";
   "__dir__"; "__format__"; "__reduce__"; "__reduce_ex__"; "__sizeof__";
   "__init_subclass__"; "__subclasshook__"; "__weakref__";
   "__lt__"; "__le__"; "__gt__"; "__ge__"].

(** [object.__getattribute__(self, attr)]: the properties [a], [R], [r],
    then [self.__dict__], then the class; else AttributeError. *)
Definition object_getattribute (self : resource) (attr : string)
  : result attr_value :=
  if String.eqb attr "a" then Ok (AValue (VJson (attributes self)))
  else if String.eqb attr "R" then Ok (AValue (VJson (JObj (relationships self))))
  else if String.eqb attr "r" then Ok (ARelated (related self))
  else if String.eqb attr "id" then Ok (AValue (VJson (id self)))
  else if String.eqb attr "attributes" then Ok (AValue (VJson (attributes self)))
  else if String.eqb attr "relationships"
  then Ok (AValue (VJson (JObj (relationships self))))
  else if String.eqb attr "related" then Ok (ARelated (related self))
  else if String.eqb attr "links" then Ok (AValue (VJson (links self)))
  else
    match Dict.get attr (instance_dict self) with
    | Some v => Ok (AValue v)
    | None =>
        if existsb (String.eqb attr) (cls_members (cls self) ++ Resource_members)
        then Ok (AMember attr)
        else Raise (AttributeError (cls_name (cls self)) attr)
    end.

Definition __getattr__ (self : resource) (attr : string)
  : result attr_value :=
  if existsb (String.eqb attr)
             ["a"; "attributes"; "R"; "relationships"; "r"; "related";
              "id"; "links"]
  then object_getattribute self attr
  else
    try! in_a := Py.contains attr (attributes self) in
    if in_a
    then try! v := Py.getitem (attributes self) attr in Ok (AValue (VJson v))
    else
      match Dict.get attr (related self) with
      | Some v => Ok (AValue v)
      | None => object_getattribute self attr
      end.

(** [self.attr]: Python runs [__getattr__] only when the ordinary lookup
    raised AttributeError. *)
Definition getattr (self : resource) (attr : string) : result attr_value :=
  match object_getattribute self attr with
  | Raise (AttributeError _ _) => __getattr__ self attr
  | r => r
  end.

(** *** Bulk items *)

(* attributes, relationships, id = item  (line 783) *)
Definition unpack3 (item : json) : result (json * json * json) :=
  match Py.iter item with
  | Ok [a; b; c] => Ok (a, b, c)
  | Ok _ => Raise ValueError_unpack
  | Raise _ => Raise (TypeError (CannotUnpack (Py.type_name item) 783))
  end.

(* attributes, relationships = item  (line 786) *)
Definition unpack2 (item : json) : result (json * json) :=
  match Py.iter item with
  | Ok [a; b] => Ok (a, b)
  | Ok _ => Raise ValueError_unpack
  | Raise _ => Raise (TypeError (CannotUnpack (Py.type_name item) 786))
  end.

Definition _extract_from_item (item : item)
  : result (json * json * json) :=
  match item with
  | IRes r => Ok (attributes r, JObj (relationships r), id r)
  | IJson item =>
      match Py.get item "attributes" with
      | Ok attributes =>
          try! relationships := Py.get item "relationships" in
          try! id := Py.get item "id" in
          Ok (attributes, relationships, id)
      | Raise (AttributeError _ _) =>
          match unpack3 item with
          | Raise ValueError_unpack =>
              match unpack2 item with
              | Ok (attributes, relationships) =>
                  Ok (attributes, relationships, JNull)
              | Raise ValueError_unpack =>
                  (* attributes = item
                     relationships, id = None             (line 790) *)
                  Raise (TypeError (CannotUnpack "NoneType" 790))
              | Raise e => Raise e
              end
          | r => r
          end
      | Raise e => Raise e
      end
  end.

Section Registry.
Variable reg : registry.

(* _jsonapi_global.registry.get(type, Resource) *)
Definition registry_get (type : json) : result klass :=
  match type with
  | JStr t => Ok (default Resource_class (reg !! t))
  | JArr _ | JObj _ => Raise (TypeError (Unhashable (Py.type_name type)))
  | _ => Ok Resource_class
  end.

(** [new(cls, data=None, *, type=None, **kwargs)].  The calls nest as
    deep as the payload does; [depth] is the number of frames the
    interpreter still grants. *)
Fixpoint new (depth : nat) (data type : json) (kwargs : dict json)
  : result resource :=
  match depth with
  | O => Raise RecursionError
  | S depth' =>
      if negb (Py.is_none data) then
        try! data' := unwrap data in
        match data' with
        | JObj d =>
            new depth'
                (match Dict.get "data" d with Some v => v | None => JNull end)
                (match Dict.get "type" d with Some v => v | None => JNull end)
                (Dict.del "type" (Dict.del "data" d))
        | _ => Raise (TypeError (NotAMapping (Py.type_name data')))
        end
      else
        try! klass := registry_get type in
        try! args := init_kwargs kwargs no_args in
        __init__ (fun d => new depth' d JNull []) klass JNull args JNull
  end.

(* Resource.as_resource(data): try new(data), on any exception data *)
Definition as_resource (depth : nat) (data : item) : item :=
  match data with
  | IRes r => IRes r   (* 'data' in <Resource> raises TypeError *)
  | IJson j =>
      match new depth j JNull [] with
      | Ok r => IRes r
      | Raise _ => IJson j
      end
  end.

(* Resource.as_resource(item).as_resource_identifier() *)
Definition identifier_of (depth : nat) (data : item) : result json :=
  match as_resource depth data with
  | IRes r => Ok (as_resource_identifier r)
  | IJson j => Raise (AttributeError (Py.type_name j) "as_resource_identifier")
  end.

(* Resource.as_resource(value).as_relationship() *)
Definition relationship_of (depth : nat) (data : item) : result json :=
  match as_resource depth data with
  | IRes r => Ok (as_relationship r)
  | IJson j => Raise (AttributeError (Py.type_name j) "as_relationship")
  end.

Definition __eq__ (depth : nat) (self : resource) (other : item)
  : result bool :=
  try! theirs := identifier_of depth other in
  Ok (Py.eq (as_resource_identifier self) theirs).

(** *** Attribute writes *)

(** [object.__setattr__] on one of the five structural names: the value
    has to fit the field. *)
Definition set_structural (attr : string) (value : item)
  : method unit :=
  match value with
  | IJson j =>
      if String.eqb attr "id" then mmodify (set_id j)
      else if String.eqb attr "attributes" then mmodify (set_attributes j)
      else if String.eqb attr "links" then mmodify (set_links j)
      else
        match j with
        | JObj d =>
            if String.eqb attr "relationships"
            then mmodify (set_relationships d)
            else mmodify (set_related
                            (map (fun kv => (fst kv, VJson (snd kv))) d))
        | _ => mraise (Untypable attr)
        end
  | IRes _ => mraise (Untypable attr)
  end.

Definition __setattr__ (depth : nat) (attr : string) (value : item)
  : method unit :=
  if existsb (String.eqb attr)
             ["id"; "attributes"; "relationships"; "related"; "links"]
  then set_structural attr value
  else
    do! self := mget in
    do! in_a := mlift (Py.contains attr (attributes self)) in
    if in_a then
      match value with
      | IJson j =>
          do! a' := mlift (Py.setitem (attributes self) attr j) in
          mmodify (set_attributes a')
      | IRes _ => mraise (Untypable attr)
      end
    else
      match Dict.get attr (relationships self) with
      | Some relationship =>
          do! singular :=
            mlift (if Py.is_none relationship then Ok true
                   else Py.contains "data" relationship) in
          if singular then
            match as_resource depth value with
            | IRes value' =>
                mmodify (set_R attr (as_relationship value')) ;;!
                mmodify (set_r attr (VRes value'))
            | IJson j =>
                mraise (AttributeError (Py.type_name j) "as_relationship")
            end
          else mraise (AttributeError_plural attr (cls_name (cls self)))
      | None =>
          if existsb (String.eqb attr) ["a"; "R"; "r"]
          then mraise (AttributeError (cls_name (cls self)) attr)
          else mmodify (fun s => set_instance_dict
                                   (Dict.set attr (value_of_item value)
                                             (instance_dict s)) s)
      end.
End Registry.

(** *** The Transport collaborator

    [_jsonapi_request] lives in [requests.py] and talks to the network.
    Here it is a function of the request and of everything sent before,
    and every call is appended to a log. *)
Section Operations.
Variable reg : registry.
Variable transport : list request -> request -> result json.

(* _jsonapi_request(method, url, json=..., params=..., bulk=...) *)
Definition _jsonapi_request (rq : request) : op json :=
  fun s log => (transport log rq, s, log ++ [rq]).

(* Resource.new(data) *)
Definition new1 (depth : nat) (data : json) : result resource :=
  new reg depth data JNull [].

Definition _get_url (self : resource) : result url :=
  try! has := Py.contains "self" (links self) in
  if has
  then try! u := Py.getitem (links self) "self" in Ok (Url u)
  else Ok (ItemUrl (TYPE (cls self)) (id self)).

(** *** Fetching *)

Definition reload (depth : nat) (include : option (list string)) : op unit :=
  op! self := oget in
  op! url := olift (_get_url self) in
  let params :=
    match include with
    | Some names => Some (JObj [("include", JStr (String.concat "," names))])
    | None => None
    end in
  op! response_body :=
    _jsonapi_request {| rq_method := GET; rq_url := url; rq_json := None;
                        rq_params := params; rq_bulk := false |} in
  op! included := olift (Py.get response_body "included") in
  op! data := olift (Py.getitem response_body "data") in
  match data with
  | JObj d =>
      op! args := olift (overwrite_kwargs ["included"] d
                           {| o_id := JNull; o_attributes := JNull;
                              o_relationships := RelsJson JNull;
                              o_links := JNull; o_related := None;
                              o_included := included; o_type := JNull |}) in
      omethod (_overwrite (new1 depth) args)
  | _ => oraise (TypeError (NotAMapping (Py.type_name data)))
  end.

(* self.r[name].reload(): the related instance is overwritten in place *)
Definition reload_related (depth : nat) (name : string) : op unit :=
  fun self log =>
    match Dict.get name (related self) with
    | None => (Raise (KeyError name), self, log)
    | Some (VRes rel) =>
        match reload depth None rel log with
        | (res, rel', log') => (res, set_r name (VRes rel') self, log')
        end
    | Some (VJson j) =>
        (Raise (AttributeError (Py.type_name j) "reload"), self, log)
    | Some (VQs _) => (Raise (AttributeError "Queryset" "reload"), self, log)
    end.

(* isinstance(self.r.get(name), Resource) and
   (self.r[name].a or self.r[name].R) *)
Definition is_singular_fetched (cached : option value) : bool :=
  match cached with
  | Some (VRes rel) =>
      Py.truth (attributes rel)
      || match relationships rel with [] => false | _ => true end
  | _ => false
  end.

(* isinstance(self.r.get(name), Queryset) *)
Definition is_plural_fetched (cached : option value) : bool :=
  match cached with Some (VQs _) => true | _ => false end.

Definition fetch_one (depth : nat) (force : bool)
           (relationship_name : string) : op unit :=
  op! self := oget in
  match Dict.get relationship_name (relationships self) with
  | None => oraise (ValueError_no_relationship relationship_name)
  | Some relationship =>
      if Py.is_none relationship then oret tt
      else
        let cached := Dict.get relationship_name (related self) in
        if (is_singular_fetched cached || is_plural_fetched cached)
           && negb force
        then oret tt                       (* Has been fetched already *)
        else
          op! singular := olift (Py.contains "data" relationship) in
          if singular
          then reload_related depth relationship_name
          else
            op! lnks := olift (Py.getitem relationship "links") in
            op! url := olift (Py.getitem lnks "related") in
            omodify (set_r relationship_name (VQs (Queryset url)))
  end.

Definition fetch (depth : nat) (relationship_names : list string)
           (force : bool) : op unit :=
  ofor relationship_names (fetch_one depth force).

(** Modelled from the spec: the first access to a Queryset (length, index
    or iteration), which "performs exactly one request and caches the
    page"; a fetched cursor answers from its cache. *)
Definition Queryset_evaluate (q : queryset) (log : list request)
  : result json * queryset * list request :=
  match qs_page q with
  | Some page => (Ok page, q, log)
  | None =>
      let rq := {| rq_method := GET; rq_url := Url (qs_url q);
                   rq_json := None; rq_params := None; rq_bulk := false |} in
      match transport log rq with
      | Ok page =>
          (Ok page, {| qs_url := qs_url q; qs_page := Some page |}, log ++ [rq])
      | Raise e => (Raise e, q, log ++ [rq])
      end
  end.


(** *** Editing *)

(* payload.setdefault(section, {})[field] = v *)
Definition setdefault_set (section field : string) (v : json)
           (payload : dict json) : result (dict json) :=
  let inner := match Dict.get section payload with
               | Some d => d | None => JObj [] end in
  try! inner' := Py.setitem inner field v in
  Ok (Dict.set section inner' payload).

Fixpoint editable_payload (self : resource) (editable_fields : list string)
         (payload : dict json) : result (dict json) :=
  match editable_fields with
  | [] => Ok payload
  | field :: rest =>
      try! in_a := Py.contains field (attributes self) in
      if in_a then
        try! v := Py.getitem (attributes self) field in
        try! payload' := setdefault_set "attributes" field v payload in
        editable_payload self rest payload'
      else
        match Dict.get field (relationships self) with
        | Some v =>
            try! payload' := setdefault_set "relationships" field v payload in
            editable_payload self rest payload'
        | None => editable_payload self rest payload
        end
  end.

(* the payload when neither `fields` nor EDITABLE is given *)
Definition full_payload (self : resource) (payload : dict json) : dict json :=
  let payload := if Py.truth (attributes self)
                 then Dict.set "attributes" (attributes self) payload
                 else payload in
  match relationships self with
  | [] => payload
  | R => Dict.set "relationships" (JObj R) payload
  end.

(* fields or self.EDITABLE *)
Definition editable_fields_of (self : resource) (fields : list string)
  : option (list string) :=
  match fields with
  | [] => EDITABLE (cls self)
  | _ => Some fields
  end.

Definition existing_payload (self : resource) (fields : list string)
  : result (dict json) :=
  let payload := [("type", json_of_option (TYPE (cls self)));
                  ("id", id self)] in
  match editable_fields_of self fields with
  | Some editable_fields => editable_payload self editable_fields payload
  | None => Ok (full_payload self payload)
  end.

Definition _save_existing (fields : list string) : op json :=
  op! self := oget in
  op! payload := olift (existing_payload self fields) in
  op! url := olift (_get_url self) in
  _jsonapi_request {| rq_method := PATCH; rq_url := url;
                      rq_json := Some (JObj [("data", JObj payload)]);
                      rq_params := None; rq_bulk := false |}.

Definition _save_new : op json :=
  op! self := oget in
  let url := CollectionUrl (TYPE (cls self)) in
  let payload := full_payload self
                   [("type", json_of_option (TYPE (cls self)))] in
  _jsonapi_request {| rq_method := POST; rq_url := url;
                      rq_json := Some (JObj [("data", JObj payload)]);
                      rq_params := None; rq_bulk := false |}.

(* the loop of `save` over list(related.items()) *)
Fixpoint reconcile_related (depth : nat) (data : json)
         (entries : list (string * value)) (related : dict value)
  : result (dict value) :=
  match entries with
  | [] => Ok related
  | (relationship_name, related_instance) :: rest =>
      match related_instance with
      | VQs _ => reconcile_related depth data rest related
      | _ =>
          let current_id :=
            match related_instance with
            | VRes r => id r
            | _ => JNull
            end in
          let descriptor :=
            try! rels := Py.getitem data "relationships" in
            Py.getitem rels relationship_name in
          let new_id :=
            or_none (try! d := descriptor in
                     try! dd := Py.getitem d "data" in
                     Py.getitem dd "id") in
          if negb (Py.eq current_id new_id) then
            if negb (Py.is_none new_id) then
              try! d := descriptor in
              try! res := new1 depth d in
              reconcile_related depth data rest
                                (Dict.set relationship_name (VRes res) related)
            else
              reconcile_related depth data rest
                                (Dict.del relationship_name related)
          else reconcile_related depth data rest related
      end
  end.

Definition save (depth : nat) (fields : list string) : op unit :=
  op! self := oget in
  op! response_body :=
    (if Py.truth (id self) then _save_existing fields else _save_new) in
  op! data := olift (Py.getitem response_body "data") in
  op! related' :=
    olift (reconcile_related depth data (related self) (related self)) in
  match data with
  | JObj d =>
      op! args := olift (overwrite_kwargs ["related"] d
                           {| o_id := JNull; o_attributes := JNull;
                              o_relationships := RelsJson JNull;
                              o_links := JNull; o_related := Some related';
                              o_included := JNull; o_type := JNull |}) in
      omethod (_overwrite (new1 depth) args)
  | _ => oraise (TypeError (NotAMapping (Py.type_name data)))
  end.

(** *** Editing relationships *)

Definition _edit_relationship (method : http_method) (field : string)
           (value : json) : op unit :=
  op! self := oget in
  op! descriptor :=
    olift (match Dict.get field (relationships self) with
           | Some d => Ok d
           | None => Raise (KeyError field)
           end) in
  op! lnks := olift (Py.getitem descriptor "links") in
  op! url := olift (Py.getitem lnks "self") in
  op! _ := _jsonapi_request {| rq_method := method; rq_url := Url url;
                               rq_json := Some (JObj [("data", value)]);
                               rq_params := None; rq_bulk := false |} in
  oret tt.

Fixpoint identifiers (depth : nat) (values : list item)
  : result (list json) :=
  match values with
  | [] => Ok []
  | item :: rest =>
      try! i := identifier_of reg depth item in
      try! others := identifiers depth rest in
      Ok (i :: others)
  end.





(** *** Bulk actions *)

(* x.items() *)
Definition dict_items (x : json) : result (dict json) :=
  match x with
  | JObj d => Ok d
  | _ => Raise (AttributeError (Py.type_name x) "items")
  end.

(* {key: Resource.as_resource(value).as_relationship()
    for key, value in relationships.items()} *)
Fixpoint as_relationships (depth : nat) (entries : dict json)
  : result (dict json) :=
  match entries with
  | [] => Ok []
  | (key, value) :: rest =>
      try! r := relationship_of reg depth (IJson value) in
      try! others := as_relationships depth rest in
      Ok ((key, r) :: others)
  end.

(* the loop of bulk_create *)
Fixpoint bulk_create_payload (depth : nat) (cls : klass) (items : list item)
  : result (list json) :=
  match items with
  | [] => Ok []
  | item :: rest =>
      try! extracted := _extract_from_item item in
      let attributes := fst (fst extracted) in
      let relationships := snd (fst extracted) in
      let id := snd extracted in
      if negb (Py.is_none id) then Raise ValueError_id_supplied
      else
        let entry := [("type", json_of_option (TYPE cls))] in
        let entry := if negb (Py.is_none attributes)
                     then Dict.set "attributes" attributes entry
                     else entry in
        try! entry :=
          (if negb (Py.is_none relationships) then
             try! entries := dict_items relationships in
             try! rels := as_relationships depth entries in
             Ok (Dict.set "relationships" (JObj rels) entry)
           else Ok entry) in
        try! others := bulk_create_payload depth cls rest in
        Ok (JObj entry :: others)
  end.

Definition bulk_create (depth : nat) (cls : klass) (items : list item)
           (log : list request) : result queryset * list request :=
  match bulk_create_payload depth cls items with
  | Raise e => (Raise e, log)
  | Ok payload =>
      let rq := {| rq_method := POST; rq_url := CollectionUrl (TYPE cls);
                   rq_json := Some (JObj [("data", JArr payload)]);
                   rq_params := None; rq_bulk := true |} in
      match transport log rq with
      | Ok response_body => (Ok (Queryset_from_data response_body), log ++ [rq])
      | Raise e => (Raise e, log ++ [rq])
      end
  end.

(* {key: value for key, value in x.items() if key in fields} *)
Definition restrict (fields : list string) (x : json) : result json :=
  try! entries := dict_items x in
  Ok (JObj (List.filter (fun kv => existsb (String.eqb (fst kv)) fields)
                        entries)).

(* the loop of bulk_update *)
Fixpoint bulk_update_payload (depth : nat) (cls : klass)
         (fields : option (list string)) (items : list item)
  : result (list json) :=
  match items with
  | [] => Ok []
  | item :: rest =>
      try! extracted := _extract_from_item item in
      let attributes := fst (fst extracted) in
      let relationships := snd (fst extracted) in
      let id := snd extracted in
      if Py.is_none id then Raise ValueError_id_not_supplied
      else
        let filtering := match fields with
                         | Some (_ :: _) => true | _ => false end in
        let chosen := match fields with Some f => f | None => [] end in
        try! attributes :=
          (if filtering && negb (Py.is_none attributes)
           then restrict chosen attributes else Ok attributes) in
        try! relationships :=
          (if filtering && negb (Py.is_none relationships)
           then restrict chosen relationships else Ok relationships) in
        let entry := [("type", json_of_option (TYPE cls)); ("id", id)] in
        let entry := if Py.truth attributes
                     then Dict.set "attributes" attributes entry
                     else entry in
        try! entry :=
          (if Py.truth relationships then
             try! entries := dict_items relationships in
             try! rels := as_relationships depth entries in
             Ok (Dict.set "relationships" (JObj rels) entry)
           else Ok entry) in
        try! others := bulk_update_payload depth cls fields rest in
        Ok (JObj entry :: others)
  end.

Definition bulk_update (depth : nat) (cls : klass) (items : list item)
           (fields : option (list string)) (log : list request)
  : result queryset * list request :=
  let fields := match fields with
                | None => EDITABLE cls
                | Some f => Some f
                end in
  match bulk_update_payload depth cls fields items with
  | Raise e => (Raise e, log)
  | Ok payload =>
      let rq := {| rq_method := PATCH; rq_url := CollectionUrl (TYPE cls);
                   rq_json := Some (JObj [("data", JArr payload)]);
                   rq_params := None; rq_bulk := true |} in
      match transport log rq with
      | Ok response_body => (Ok (Queryset_from_data response_body), log ++ [rq])
      | Raise e => (Raise e, log ++ [rq])
      end
  end.

(** *** The remaining operations *)

(* cached != value, with value a Resource: `!=` is `not ==`; on a raw cached
   value Python falls back on the reflected value.__ne__(cached) *)
Definition differs (depth : nat) (cached : value) (value : resource)
  : result bool :=
  match cached with
  | VRes c => try! e := __eq__ reg depth c (IRes value) in Ok (negb e)
  | VJson j => try! e := __eq__ reg depth value (IJson j) in Ok (negb e)
  | VQs _ => Raise (Untypable "Queryset")
  end.

Definition change (depth : nat) (field : string) (value : item) : op unit :=
  match as_resource reg depth value with
  | IJson j => oraise (AttributeError (Py.type_name j) "as_resource_identifier")
  | IRes value =>
      op! _ := _edit_relationship PATCH field (as_resource_identifier value) in
      op! self := oget in
      op! descriptor :=
        olift (match Dict.get field (relationships self) with
               | Some d => Ok d
               | None => Raise (KeyError field)
               end) in
      op! descriptor' :=
        olift (Py.setitem descriptor "data" (as_resource_identifier value)) in
      op! _ := omodify (set_R field descriptor') in
      op! self := oget in
      match Dict.get field (related self) with
      | None => oraise (KeyError field)
      | Some cached =>
          op! changed := olift (differs depth cached value) in
          if changed then omodify (set_r field (VRes value)) else oret tt
      end
  end.

Definition delete : op unit :=
  op! self := oget in
  op! url := olift (_get_url self) in
  op! _ := _jsonapi_request {| rq_method := DELETE; rq_url := url;
                               rq_json := None; rq_params := None;
                               rq_bulk := false |} in
  omodify (set_id JNull).




Definition get (depth : nat) (cls : klass) (id type : json)
           (include : option (list string)) (log : list request)
  : result resource * list request :=
  let made :=
    if negb (Py.is_none type)
       && match TYPE cls with None => true | Some _ => false end
    then new reg depth JNull type [("id", id)]
    else __init__ (new1 depth) cls JNull
                  {| a_id := id; a_attributes := JNull;
                     a_relationships := RelsJson JNull; a_links := JNull;
                     a_related := None |} JNull in
  match made with
  | Raise e => (Raise e, log)
  | Ok instance =>
      match reload depth include instance log with
      | (Ok _, instance', log') => (Ok instance', log')
      | (Raise e, _, log') => (Raise e, log')
      end
  end.

Definition bulk_delete (depth : nat) (cls : klass) (items : list item)
           (log : list request) : result unit * list request :=
  match identifiers depth items with
  | Raise e => (Raise e, log)
  | Ok payload =>
      let rq := {| rq_method := DELETE; rq_url := CollectionUrl (TYPE cls);
                   rq_json := Some (JObj [("data", JArr payload)]);
                   rq_params := None; rq_bulk := true |} in
      match transport log rq with
      | Ok _ => (Ok tt, log ++ [rq])
      | Raise e => (Raise e, log ++ [rq])
      end
  end.

(* relationships=self.r : the related cache handed over as relationships *)
Fixpoint related_as_relationships (entries : dict value)
  : result (dict item) :=
  match entries with
  | [] => Ok []
  | (name, v) :: rest =>
      try! others := related_as_relationships rest in
      match v with
      | VRes r => Ok ((name, IRes r) :: others)
      | VJson j => Ok ((name, IJson j) :: others)
      | VQs _ => Raise (Untypable "Queryset")
      end
  end.

Definition __copy__ (depth : nat) (self : resource) : result resource :=
  try! rels := related_as_relationships (related self) in
  __init__ (new1 depth) (cls self) JNull
           {| a_id := id self; a_attributes := attributes self;
              a_relationships := RelsObjs rels; a_links := links self;
              a_related := Some (related self) |} JNull.

End Operations.

End Resource.

(** * Vocabulary of the properties *)

(* an id as the data model has it: a string or None *)
Definition is_id (j : json) : bool :=
  match j with JNull | JStr _ => true | _ => false end.

(* a bulk item with a `.get`: a dictionary *)
Definition is_mapping (j : json) : bool :=
  match j with JObj _ => true | _ => false end.

(* a bulk item that unpacks into exactly two or exactly three elements *)
Definition unpackable (j : json) : bool :=
  match Py.iter j with
  | Ok l => (length l =? 2)%nat || (length l =? 3)%nat
  | Raise _ => false
  end.

(* iter(j) works *)
Definition iterable (j : json) : bool :=
  match Py.iter j with Ok _ => true | Raise _ => false end.


(* the request `_edit_relationship` sends *)
Definition edit_request (method : http_method) (u : json) (value : json)
  : request :=
  {| rq_method := method; rq_url := Url u;
     rq_json := Some (JObj [("data", value)]);
     rq_params := None; rq_bulk := false |}.

(* the names __setattr__ and __getattr__ treat as structural *)
Definition structural_for_write (attr : string) : bool :=
  existsb (String.eqb attr)
          ["id"; "attributes"; "relationships"; "related"; "links"].

Definition structural_for_read (attr : string) : bool :=
  existsb (String.eqb attr)
          ["a"; "attributes"; "R"; "relationships"; "r"; "related";
           "id"; "links"].

(* a descriptor that is not None and has no 'data' key *)
Definition plural (descriptor : json) : Prop :=
  Py.is_none descriptor = false /\ Py.contains "data" descriptor = Ok false.

(* the keys a request payload carries under 'attributes' or 'relationships' *)
Definition section_keys (section : string) (payload : dict json)
  : list string :=
  match Dict.get section payload with
  | Some (JObj d) => Dict.keys d
  | _ => []
  end.

(* the fields a resource object transmits *)
Definition transmitted_fields (payload : dict json) : list string :=
  section_keys "attributes" payload ++ section_keys "relationships" payload.

(* a payload whose two sections, when present, are dictionaries *)
Definition section_ok (section : string) (payload : dict json) : Prop :=
  match Dict.get section payload with
  | Some (JObj _) | None => True
  | Some _ => False
  end.

(* the request `_save_existing` sends *)
Definition save_request (u : url) (payload : dict json) : request :=
  {| rq_method := PATCH; rq_url := u;
     rq_json := Some (JObj [("data", JObj payload)]);
     rq_params := None; rq_bulk := false |}.

(* the explicit fields, else EDITABLE, else everything that is set *)
Definition chosen_fields (self : resource) (fields : list string)
           (a : dict json) : list string :=
  match fields with
  | _ :: _ => fields
  | [] => match EDITABLE (cls self) with
          | Some editable => editable
          | None => Dict.keys a ++ Dict.keys (relationships self)
          end
  end.

(* the request `reload` and a cursor's first access send *)
Definition get_request (u : url) : request :=
  {| rq_method := GET; rq_url := u; rq_json := None; rq_params := None;
     rq_bulk := false |}.

(* a descriptor that is None or has a 'data' key *)
Definition null_or_singular (descriptor : json) : Prop :=
  Py.is_none descriptor = true \/ Py.contains "data" descriptor = Ok true.

(* every entry of the related cache belongs to a relationship that is null
   or singular *)
Definition cache_of_singulars (s : resource) : Prop :=
  forall name v,
    Dict.get name (related s) = Some v ->
    exists d, In (name, d) (relationships s) /\ null_or_singular d.

(* the relationships have one entry per name *)
Definition unique_names (s : resource) : Prop :=
  NoDup (Dict.keys (relationships s)).

(** When the method returns from a state in [P], its result and the state
    it leaves satisfy [Q]. *)
Definition triple {A} (P : resource -> Prop) (m : method A)
           (Q : A -> resource -> Prop) : Prop :=
  forall s a s', P s -> m s = (Ok a, s') -> Q a s'.

(* the relationship [name], with descriptor [d], is resolved in the related
   cache of [s] from the included objects indexed in [by_key]: if [d] is
   singular and its identifier is a key of the index, the cache holds the
   Resource that [new] builds from the object under that key *)
Definition resolved_from_included (new1 : json -> result resource)
           (by_key : list (Included.key * json)) (name : string) (d : json)
           (s : resource) : Prop :=
  forall ident ty i found,
    Py.is_none d = false ->
    Py.contains "data" d = Ok true ->
    Py.getitem d "data" = Ok ident ->
    Py.getitem ident "type" = Ok ty ->
    Py.getitem ident "id" = Ok i ->
    Included.get (ty, i) by_key = Some found ->
    exists res,
      new1 found = Ok res /\ Dict.get name (related s) = Some (VRes res).

(* every class sits in the registry under its own TYPE *)
Definition registry_consistent (reg : registry) : Prop :=
  forall t k, reg !! t = Some k -> TYPE k = Some t.

(* the class of the instance is the one the registry has for its TYPE, or
   the instance is of a class without TYPE *)
Definition registered (reg : registry) (p : resource) : Prop :=
  match TYPE (cls p) with
  | Some t => exists k, reg !! t = Some k
  | None => True
  end.

(* an instance with an id and nothing else *)
Definition bare (k : klass) (i : json) : resource :=
  mkResource k i (JObj []) [] [] (JObj []) [].

(* `x if x is not None else {}` *)
Definition or_empty (j : json) : json :=
  if Py.is_none j then JObj [] else j.

(* the request `_save_new` sends *)
Definition create_request (self : resource) : request :=
  {| rq_method := POST; rq_url := CollectionUrl (TYPE (cls self));
     rq_json :=
       Some (JObj [("data",
                    JObj (Resource.full_payload
                            self [("type", json_of_option (TYPE (cls self)))]))]);
     rq_params := None; rq_bulk := false |}.

(* the request `delete` sends *)
Definition delete_request (u : url) : request :=
  {| rq_method := DELETE; rq_url := u; rq_json := None; rq_params := None;
     rq_bulk := false |}.

(* data['relationships'][name] of a response *)
Definition response_descriptor (data : json) (name : string) : result json :=
  try! rels := Py.getitem data "relationships" in
  Py.getitem rels name.

(* data['relationships'][name]['data']['id'], or None when any step fails *)
Definition response_id (data : json) (name : string) : json :=
  or_none (try! d := response_descriptor data name in
           try! dd := Py.getitem d "data" in
           Py.getitem dd "id").

(* related_instance.id, or None when there is no such attribute *)
Definition cached_id (v : value) : json :=
  match v with VRes r => id r | _ => JNull end.

(** What [save] does to the cache entry of one relationship, given the
    entry before the request and the data of the response: a Queryset and
    an entry whose id the response repeats are kept; an entry whose id
    became None is dropped; an entry whose id changed is replaced by what
    [new] builds from the descriptor of the response. *)
Definition reconciled (new1 : json -> result resource) (data : json)
           (name : string) (entry before after : option value) : Prop :=
  match entry with
  | None | Some (VQs _) => after = before
  | Some v =>
      if Py.eq (cached_id v) (response_id data name) then after = before
      else if Py.is_none (response_id data name) then after = None
      else exists d res,
          response_descriptor data name = Ok d
          /\ new1 d = Ok res /\ after = Some (VRes res)
  end.

(* a method that leaves the class of [self] alone *)
Definition keeps_cls {A} (m : method A) : Prop :=
  forall s, cls (snd (m s)) = cls s.

(* the one request of a bulk action *)
Definition bulk_request (method : http_method) (cls : klass)
           (payload : list json) : request :=
  {| rq_method := method; rq_url := CollectionUrl (TYPE cls);
     rq_json := Some (JObj [("data", JArr payload)]);
     rq_params := None; rq_bulk := true |}.

(* a resource object of the class whose 'id' entry is [i] *)
Definition entry_of (cls : klass) (i : option json) (e : json) : Prop :=
  exists d, e = JObj d
            /\ Dict.get "type" d = Some (json_of_option (TYPE cls))
            /\ Dict.get "id" d = i.

(* a dictionary with none of the keys [_extract_from_item] looks up *)
Definition bare_mapping (it : item) : Prop :=
  exists d, it = IJson (JObj d)
            /\ Dict.get "attributes" d = None
            /\ Dict.get "relationships" d = None
            /\ Dict.get "id" d = None.

(* the fields [bulk_update] filters with: its argument, else EDITABLE *)
Definition bulk_fields (cls : klass) (fields : option (list string))
  : option (list string) :=
  match fields with None => EDITABLE cls | Some f => Some f end.

(* a section after the filter: None, or a dictionary with chosen keys only *)
Definition within (fields : list string) (section : json) : Prop :=
  section = JNull
  \/ exists d, section = JObj d /\ incl (Dict.keys d) fields.

(* the request [reload] sends to a URL *)
Definition reload_request (u : url) (include : option (list string))
  : request :=
  {| rq_method := GET; rq_url := u; rq_json := None;
     rq_params :=
       match include with
       | Some names => Some (JObj [("include", JStr (String.concat "," names))])
       | None => None
       end;
     rq_bulk := false |}.

(* what [_overwrite] stores under a name for a value of its
   [relationships] argument (lines 197-200) *)
Definition descriptor_of (it : item) : json :=
  match it with
  | IRes r => Resource.as_relationship r
  | IJson j => j
  end.

(* the dictionary lines 196-200 write into self.R, in order *)
Definition descriptors (rels : dict item) : dict json :=
  map (fun kv => (fst kv, descriptor_of (snd kv))) rels.

(* the keyword arguments of _overwrite with the [type] one replaced *)
Definition with_type (t : json) (a : overwrite_args) : overwrite_args :=
  {| o_id := o_id a; o_attributes := o_attributes a;
     o_relationships := o_relationships a; o_links := o_links a;
     o_related := o_related a; o_included := o_included a; o_type := t |}.

(* two bindings of a payload to the parameters of _overwrite that fail alike
   or differ in the [type] parameter at most *)
Definition agree_but_type (x y : result overwrite_args) : Prop :=
  match x, y with
  | Ok a, Ok b => with_type JNull a = with_type JNull b
  | Raise e, Raise e' => e = e'
  | _, _ => False
  end.

(** "Already resolved", in the words of the specification rather than of
    the code: a singular relationship is resolved if the cached related
    object carries any attributes or any relationships, a plural one if the
    cache holds a Queryset. *)
Definition spec_carries_fields (rel : resource) : bool :=
  match attributes rel with JObj (_ :: _) => true | _ => false end
  || match relationships rel with _ :: _ => true | [] => false end.

Definition spec_already_resolved (cached : option value) : bool :=
  match cached with
  | Some (VRes rel) => spec_carries_fields rel
  | Some (VQs _) => true
  | _ => false
  end.

(* the attributes of a cached instance are a mapping, as in the data model *)
Definition cached_attributes_mapping (cached : option value) : bool :=
  match cached with
  | Some (VRes rel) => is_mapping (attributes rel)
  | _ => true
  end.

(* the related cache of [s] has the entry due to the relationship [name]
   with descriptor [d]: None when the descriptor is None, an instance that
   [new] built when the descriptor is singular *)
Definition cached_entry (new1 : json -> result resource) (name : string)
           (d : json) (s : resource) : Prop :=
  (Py.is_none d = true -> Dict.get name (related s) = Some (VJson JNull))
  /\ (Py.is_none d = false -> Py.contains "data" d = Ok true ->
      exists src res,
        new1 src = Ok res /\ Dict.get name (related s) = Some (VRes res)).

(* every relationship has its entry, as far as one is due *)
Definition cache_complete (new1 : json -> result resource) (s : resource)
  : Prop :=
  forall name d, In (name, d) (relationships s) -> cached_entry new1 name d s.

(** Classes and payloads of the test-suite ([tests/test_relationships.py]). *)
Module Examples.
Definition declare (name type : string) (reg : registry) : klass * registry :=
  _JsonApiMeta.__new__ name Resource_class
                       {| dct_TYPE := Some (Some type); dct_EDITABLE := None;
                          dct_members := [] |} reg.

Definition Child : klass := fst (declare "Child" "children" ∅).
Definition Parent : klass := fst (declare "Parent" "parents" ∅).
Definition reg : registry :=
  snd (declare "Parent" "parents" (snd (declare "Child" "children" ∅))).

(* child_payloads[1] *)
Definition child1 : json :=
  JObj [("type", JStr "children"); ("id", JStr "1");
        ("attributes", JObj [("name", JStr "child 1")]);
        ("relationships",
         JObj [("parent",
                JObj [("data", JObj [("type", JStr "parents");
                                     ("id", JStr "1")]);
                      ("links",
                       JObj [("self", JStr "/children/1/relationships/parent");
                             ("related", JStr "/parents/1")])])])].

(* parent_payloads[1] *)
Definition parent1 : json :=
  JObj [("type", JStr "parents"); ("id", JStr "1");
        ("attributes", JObj [("name", JStr "parent 1")]);
        ("relationships",
         JObj [("children",
                JObj [("links",
                       JObj [("self", JStr "/parents/1/relationships/children");
                             ("related", JStr "/parents/1/children")])])])].

(* Parent(id="1") and what Parent.get("1") turns it into *)
Definition bare_parent : resource :=
  mkResource Parent (JStr "1") (JObj []) [] [] (JObj []) [].
Definition full_parent : resource :=
  mkResource Parent (JStr "1") (JObj [("name", JStr "parent 1")])
             [("children",
               JObj [("links",
                      JObj [("self", JStr "/parents/1/relationships/children");
                            ("related", JStr "/parents/1/children")])])]
             [] (JObj []) [].

(* a parent that happens to carry an attribute named like its plural
   relationship *)
Definition odd_parent : resource :=
  mkResource Parent (JStr "1") (JObj [("children", JNum 2)])
             [("children",
               JObj [("links",
                      JObj [("self", JStr "/parents/1/relationships/children");
                            ("related", JStr "/parents/1/children")])])]
             [] (JObj []) [].


(* Child(child_payloads[1]) *)
Definition child : resource :=
  mkResource Child (JStr "1") (JObj [("name", JStr "child 1")])
             [("parent",
               JObj [("data", JObj [("type", JStr "parents");
                                    ("id", JStr "1")]);
                     ("links",
                      JObj [("self", JStr "/children/1/relationships/parent");
                            ("related", JStr "/parents/1")])])]
             [("parent", VRes bare_parent)] (JObj []) [].

(* the body of GET /children/1?include=parent: child 1 with its parent
   side-loaded *)
Definition child_envelope : json :=
  JObj [("data", child1); ("included", JArr [parent1])].

(* Child(child_payloads[1]) after the parent was resolved *)
Definition child_with_parent : resource :=
  mkResource Child (JStr "1") (JObj [("name", JStr "child 1")])
             (relationships child)
             [("parent", VRes full_parent)] (JObj []) [].

(* Child(id="1") *)
Definition bare_child : resource :=
  mkResource Child (JStr "1") (JObj []) [] [] (JObj []) [].

(* a server that answers every request with that body *)
Definition transport_included (log : list request) (rq : request)
  : result json := Ok child_envelope.

(* a server that answers every GET with parent 1 and everything else
   with an empty document *)
Definition transport (log : list request) (rq : request) : result json :=
  match rq_method rq with
  | GET => Ok (JObj [("data", parent1)])
  | _ => Ok (JObj [("data", child1)])
  end.
End Examples.

(** * Properties *)

(** ** Dictionaries *)

Section DictFacts.
Context {V : Type}.
Implicit Types (d : dict V) (k : string) (v : V).

Lemma get_set_eq k v d : Dict.get k (Dict.set k v d) = Some v.
Proof.
  induction d as [|[k' v'] t IH]; simpl.
  - now rewrite String.eqb_refl.
  - destruct (String.eqb k k') eqn:E; simpl; rewrite E; auto.
Qed.

Lemma get_set_ne k k' v d :
  k <> k' -> Dict.get k (Dict.set k' v d) = Dict.get k d.
Proof.
  intros Hne. induction d as [|[k0 v0] t IH]; simpl.
  - destruct (String.eqb k k') eqn:E; auto.
    apply String.eqb_eq in E. contradiction.
  - destruct (String.eqb k' k0) eqn:E; simpl.
    + apply String.eqb_eq in E. subst k0.
      destruct (String.eqb k k') eqn:E'; auto.
      apply String.eqb_eq in E'. contradiction.
    + destruct (String.eqb k k0); auto.
Qed.

Lemma has_keys k d : Dict.has k d = true <-> In k (Dict.keys d).
Proof.
  unfold Dict.has, Dict.keys.
  induction d as [|[k' v'] t IH]; simpl.
  - split; [discriminate | tauto].
  - destruct (String.eqb k k') eqn:E.
    + apply String.eqb_eq in E. subst. tauto.
    + rewrite IH. apply String.eqb_neq in E.
      split; [tauto | intros [H|H]; [congruence | auto]].
Qed.

Lemma keys_set k v d f :
  In f (Dict.keys (Dict.set k v d)) <-> f = k \/ In f (Dict.keys d).
Proof.
  unfold Dict.keys.
  induction d as [|[k' v'] t IH]; simpl.
  - intuition.
  - destruct (String.eqb k k') eqn:E; simpl.
    + apply String.eqb_eq in E. subst. intuition.
    + rewrite IH. intuition.
Qed.
End DictFacts.

(** ** Python equality on identifiers *)

Lemma eq_ids a b : is_id a = true -> is_id b = true ->
  (Py.eq a b = true <-> a = b).
Proof.
  destruct a, b; simpl; try discriminate; intros _ _;
    try (split; [discriminate | congruence]).
  - tauto.
  - rewrite String.eqb_eq. split; congruence.
Qed.

Lemma eq_types (a b : option string) :
  Py.eq (json_of_option a) (json_of_option b) = true <-> a = b.
Proof.
  destruct a, b; simpl; try (split; [discriminate | congruence]).
  - rewrite String.eqb_eq. split; congruence.
  - tauto.
Qed.

(** C2.  [x == y] on two instances compares their resource identifiers
    and nothing else: it is the Python equality of the two (type, id)
    pairs, and for ids that are strings or None it holds exactly when the
    pairs are the same, whatever the attributes, relationships, related
    cache and links of either side. *)
Theorem C2_eq_iff_type_and_id (reg : registry) (depth : nat) (x y : resource) :
  Resource.__eq__ reg depth x (IRes y)
  = Ok (Py.eq (JArr [json_of_option (TYPE (cls x)); id x])
              (JArr [json_of_option (TYPE (cls y)); id y]))
  /\ (is_id (id x) = true -> is_id (id y) = true ->
      (Resource.__eq__ reg depth x (IRes y) = Ok true
       <-> (TYPE (cls x), id x) = (TYPE (cls y), id y))).
Proof.
  assert (E : Resource.__eq__ reg depth x (IRes y)
              = Ok (Py.eq (json_of_option (TYPE (cls x)))
                          (json_of_option (TYPE (cls y)))
                    && Py.eq (id x) (id y))).
  { unfold Resource.__eq__, Resource.identifier_of; simpl.
    now rewrite !andb_true_r. }
  split.
  - rewrite E. simpl. now rewrite andb_true_r.
  - intros Hx Hy. rewrite E. split.
    + intros H. injection H as H. apply andb_true_iff in H as [Ht Hi].
      apply eq_types in Ht. apply (eq_ids _ _ Hx Hy) in Hi. congruence.
    + intros H. injection H as Ht Hi. f_equal.
      apply andb_true_iff. split.
      * now apply eq_types.
      * now apply eq_ids.
Qed.

Lemma C2_eq_iff_type_and_id_witness :
  Resource.__eq__ Examples.reg 3 Examples.bare_parent (IRes Examples.full_parent)
  = Ok true
  <-> (TYPE (cls Examples.bare_parent), id Examples.bare_parent)
      = (TYPE (cls Examples.full_parent), id Examples.full_parent).
Proof.
  apply (proj2 (C2_eq_iff_type_and_id Examples.reg 3 Examples.bare_parent
                                      Examples.full_parent)); reflexivity.
Defined.

(** ** Construction keeps the class *)

Section KeepsCls.
Lemma keeps_ret {A} (a : A) : keeps_cls (mret a).
Proof. now intros s. Qed.

Lemma keeps_raise {A} e : keeps_cls (@mraise A e).
Proof. now intros s. Qed.

Lemma keeps_lift {A} (r : result A) : keeps_cls (mlift r).
Proof. now intros s. Qed.

Lemma keeps_get : keeps_cls mget.
Proof. now intros s. Qed.

Lemma keeps_modify f :
  (forall s, cls (f s) = cls s) -> keeps_cls (mmodify f).
Proof. intros H s. apply H. Qed.

Lemma keeps_bind {A B} (m : method A) (k : A -> method B) :
  keeps_cls m -> (forall a, keeps_cls (k a)) -> keeps_cls (mbind m k).
Proof.
  intros Hm Hk s. unfold mbind. specialize (Hm s).
  destruct (m s) as [[a|e] s']; simpl in *.
  - now rewrite Hk.
  - assumption.
Qed.

Lemma keeps_for {X} (l : list X) (body : X -> method unit) :
  (forall x, keeps_cls (body x)) -> keeps_cls (mfor l body).
Proof.
  intros Hb. induction l as [|x t IH]; simpl.
  - apply keeps_ret.
  - apply keeps_bind; auto.
Qed.
End KeepsCls.

Create HintDb keeps discriminated.
#[local] Hint Resolve keeps_ret keeps_raise keeps_lift keeps_get : keeps.
#[local] Hint Extern 2 (keeps_cls (mmodify _)) =>
  (apply keeps_modify; intros [? ? ? ? ? ? ?]; reflexivity) : keeps.
#[local] Hint Extern 3 (keeps_cls (mbind _ _)) =>
  (apply keeps_bind; [ | intros ? ]) : keeps.
#[local] Hint Extern 3 (keeps_cls (mfor _ _)) =>
  (apply keeps_for; intros ?) : keeps.
#[local] Hint Extern 4 (keeps_cls (match ?x with _ => _ end)) =>
  destruct x : keeps.
#[local] Hint Extern 4 (keeps_cls (if ?x then _ else _)) =>
  destruct x : keeps.

Lemma overwrite_keeps_cls new1 a : keeps_cls (Resource._overwrite new1 a).
Proof.
  unfold Resource._overwrite, Resource.store_relationships,
    Resource.link_related, Resource.link_included, Resource.link_included_one.
  auto 40 with keeps.
Qed.

Lemma init_cls new1 klass data a type r :
  Resource.__init__ new1 klass data a type = Ok r -> cls r = klass.
Proof.
  unfold Resource.__init__.
  destruct (_ && _); [discriminate|].
  assert (K : forall args, match Resource._overwrite new1 args (Resource.blank klass) with
                           | (Ok _, self') => Ok self'
                           | (Raise e, _) => Raise e
                           end = Ok r -> cls r = klass).
  { intros args. pose proof (overwrite_keeps_cls new1 args (Resource.blank klass)) as H.
    destruct (Resource._overwrite _ _ _) as [[u|e] s']; simpl in *; [|discriminate].
    intros [= <-]. exact H. }
  destruct (negb (Py.is_none data)).
  - destruct (Resource.unwrap data) as [data'|]; simpl; [|discriminate].
    destruct data'; try discriminate.
    destruct (overwrite_kwargs _ _ _); simpl; [|discriminate]. apply K.
  - apply K.
Qed.

(** ** The registry and [new] *)

Lemma new_cls reg depth t kwargs r :
  Resource.new reg depth JNull (JStr t) kwargs = Ok r ->
  cls r = default Resource_class (reg !! t).
Proof.
  destruct depth as [|depth]; simpl; [discriminate|].
  destruct (init_kwargs kwargs no_args) as [args|]; simpl; [|discriminate].
  apply init_cls.
Qed.

(** C7 (as amended).  A class statement with a TYPE puts the class in the
    registry under that name; [new] with a registered type name builds an
    instance of the registered class, and with an unregistered one an
    instance of the generic [Resource] class.  The generic instance does
    not keep the type name: its TYPE is None, and so is the type of its
    resource identifier. *)
Theorem C7_new_registered_or_generic (reg : registry) (t : string) :
  (forall name base dct,
      dct_TYPE dct = Some (Some t) ->
      snd (_JsonApiMeta.__new__ name base dct reg) !! t
      = Some (fst (_JsonApiMeta.__new__ name base dct reg)))
  /\ (forall depth kwargs r,
         Resource.new reg depth JNull (JStr t) kwargs = Ok r ->
         (forall klass, reg !! t = Some klass -> cls r = klass)
         /\ (reg !! t = None ->
             cls r = Resource_class
             /\ Resource.as_resource_identifier r
                = JObj [("type", JNull); ("id", id r)]))
  /\ (forall depth i,
         Resource.new reg (S depth) JNull (JStr t) [("id", i)]
         = Ok (mkResource (default Resource_class (reg !! t)) i (JObj []) [] []
                          (JObj []) [])).
Proof.
  split; [|split].
  - intros name base dct H. unfold _JsonApiMeta.__new__. rewrite H. simpl.
    apply lookup_insert_eq.
  - intros depth kwargs r H. apply new_cls in H. split.
    + intros klass Hk. now rewrite H, Hk.
    + intros Hn. rewrite Hn in H. simpl in H. split; [assumption|].
      unfold Resource.as_resource_identifier. now rewrite H.
  - intros depth i. reflexivity.
Qed.

Lemma C7_new_registered_or_generic_witness :
  (forall klass, Examples.reg !! "parents" = Some klass ->
                 cls Examples.bare_parent = klass)
  /\ (Examples.reg !! "parents" = None ->
      cls Examples.bare_parent = Resource_class
      /\ Resource.as_resource_identifier Examples.bare_parent
         = JObj [("type", JNull); ("id", id Examples.bare_parent)]).
Proof.
  apply (proj1 (proj2 (C7_new_registered_or_generic Examples.reg "parents"))
               2 [("id", JStr "1")] Examples.bare_parent).
  reflexivity.
Defined.

(** C7 as stated fails: for the unregistered name "widgets" the fallback
    instance carries no type tag, and its resource identifier has type
    None instead of "widgets". *)
Lemma C7_counterexample :
  Examples.reg !! "widgets" = None
  /\ exists r,
      Resource.new Examples.reg 2 JNull (JStr "widgets") [("id", JStr "1")] = Ok r
      /\ TYPE (cls r) = None
      /\ Resource.as_resource_identifier r
         = JObj [("type", JNull); ("id", JStr "1")]
      /\ Resource.as_resource_identifier r
         <> JObj [("type", JStr "widgets"); ("id", JStr "1")].
Proof.
  split; [reflexivity|].
  eexists. split; [reflexivity|]. repeat split. discriminate.
Qed.

(** ** Type checks at construction *)



Lemma agree_refl x : agree_but_type x x.
Proof. now destruct x. Qed.







(** ** Bulk items *)

Lemma get_not_mapping j key :
  is_mapping j = false ->
  Py.get j key = Raise (AttributeError (Py.type_name j) "get").
Proof. destruct j; simpl; congruence. Qed.

Lemma unpack_wrong_length j :
  iterable j = true -> unpackable j = false ->
  Resource.unpack3 j = Raise ValueError_unpack
  /\ Resource.unpack2 j = Raise ValueError_unpack.
Proof.
  unfold iterable, unpackable, Resource.unpack3, Resource.unpack2.
  destruct (Py.iter j) as [l|]; [|discriminate]. intros _ H.
  destruct l as [|a [|b [|c [|d l]]]]; simpl in H; try discriminate; auto.
Qed.

Lemma unpack_not_iterable j :
  iterable j = false ->
  Resource.unpack3 j = Raise (TypeError (CannotUnpack (Py.type_name j) 783)).
Proof.
  unfold iterable, Resource.unpack3.
  destruct (Py.iter j); [discriminate|reflexivity].
Qed.

Lemma extract_wrong_length j :
  is_mapping j = false -> iterable j = true -> unpackable j = false ->
  Resource._extract_from_item (IJson j)
  = Raise (TypeError (CannotUnpack "NoneType" 790)).
Proof.
  intros Hm Hi Hu. unfold Resource._extract_from_item.
  rewrite (get_not_mapping _ _ Hm).
  destruct (unpack_wrong_length j Hi Hu) as [-> ->]. reflexivity.
Qed.

Lemma extract_not_iterable j :
  is_mapping j = false -> iterable j = false ->
  Resource._extract_from_item (IJson j)
  = Raise (TypeError (CannotUnpack (Py.type_name j) 783)).
Proof.
  intros Hm Hi. unfold Resource._extract_from_item.
  rewrite (get_not_mapping _ _ Hm), (unpack_not_iterable _ Hi). reflexivity.
Qed.

Lemma bulk_create_payload_raises reg depth cls pre bad post p e :
  Resource.bulk_create_payload reg depth cls pre = Ok p ->
  Resource._extract_from_item bad = Raise e ->
  Resource.bulk_create_payload reg depth cls (pre ++ bad :: post) = Raise e.
Proof.
  intros Hp He. revert p Hp.
  induction pre as [|x pre IH]; intros p Hp; simpl.
  - now rewrite He.
  - simpl in Hp.
    destruct (Resource._extract_from_item x) as [[[a r] i]|]; simpl in *;
      [|discriminate].
    destruct (negb (Py.is_none i)); [discriminate|].
    match goal with
    | |- rbind ?c _ = _ => destruct c; simpl in *; [|discriminate]
    end.
    destruct (Resource.bulk_create_payload reg depth cls pre) as [p'|];
      simpl in *; [|discriminate].
    now rewrite (IH p' eq_refl).
Qed.

Lemma bulk_update_payload_raises reg depth cls fields pre bad post p e :
  Resource.bulk_update_payload reg depth cls fields pre = Ok p ->
  Resource._extract_from_item bad = Raise e ->
  Resource.bulk_update_payload reg depth cls fields (pre ++ bad :: post)
  = Raise e.
Proof.
  intros Hp He. revert p Hp.
  induction pre as [|x pre IH]; intros p Hp; simpl.
  - now rewrite He.
  - simpl in Hp.
    destruct (Resource._extract_from_item x) as [[[a r] i]|]; simpl in *;
      [|discriminate].
    destruct (Py.is_none i); [discriminate|].
    repeat match goal with
    | |- rbind ?c _ = _ => destruct c; simpl in *; [|discriminate]
    end.
    destruct (Resource.bulk_update_payload reg depth cls fields pre) as [p'|];
      simpl in *; [|discriminate].
    now rewrite (IH p' eq_refl).
Qed.

(** C10 (as amended).  A bulk item that is neither a Resource nor a
    dictionary and does not unpack into two or three elements makes
    [_extract_from_item] raise TypeError: from the final fallback
    [relationships, id = None] (line 790) when the item is iterable, and
    from the first unpacking statement (line 783) when it is not iterable,
    which [except ValueError] does not catch.  [bulk_create] and
    [bulk_update] raise the same exception, before any request, when the
    items ahead of it were accepted. *)
Theorem C10_extract_from_item_TypeError (j : json) :
  is_mapping j = false -> unpackable j = false ->
  exists e,
    Resource._extract_from_item (IJson j) = Raise e
    /\ e = (if iterable j then TypeError (CannotUnpack "NoneType" 790)
            else TypeError (CannotUnpack (Py.type_name j) 783))
    /\ (forall reg transport depth cls pre post p log,
           Resource.bulk_create_payload reg depth cls pre = Ok p ->
           Resource.bulk_create reg transport depth cls
                                (pre ++ IJson j :: post) log
           = (Raise e, log))
    /\ (forall reg transport depth cls fields pre post p log,
           Resource.bulk_update_payload
             reg depth cls
             (match fields with None => EDITABLE cls | Some f => Some f end)
             pre = Ok p ->
           Resource.bulk_update reg transport depth cls
                                (pre ++ IJson j :: post) fields log
           = (Raise e, log)).
Proof.
  intros Hm Hu.
  assert (E : Resource._extract_from_item (IJson j)
              = Raise (if iterable j
                       then TypeError (CannotUnpack "NoneType" 790)
                       else TypeError (CannotUnpack (Py.type_name j) 783))).
  { destruct (iterable j) eqn:Hi.
    - now apply extract_wrong_length.
    - now apply extract_not_iterable. }
  eexists. split; [exact E|]. split; [reflexivity|]. split.
  - intros reg transport depth cls pre post p log Hp.
    unfold Resource.bulk_create.
    now rewrite (bulk_create_payload_raises _ _ _ _ _ post _ _ Hp E).
  - intros reg transport depth cls fields pre post p log Hp.
    unfold Resource.bulk_update.
    now rewrite (bulk_update_payload_raises _ _ _ _ _ _ post _ _ Hp E).
Qed.

Lemma C10_extract_from_item_TypeError_witness :
  exists e,
    Resource._extract_from_item (IJson (JArr [JObj [("name", JStr "a")]]))
    = Raise e
    /\ e = TypeError (CannotUnpack "NoneType" 790).
Proof.
  destruct (C10_extract_from_item_TypeError
              (JArr [JObj [("name", JStr "a")]]) eq_refl eq_refl)
    as [e [He [Hk _]]].
  exists e. split; [exact He | exact Hk].
Defined.

(** C10 as stated fails for an item that is not iterable: for the scalar 5
    the TypeError comes from [attributes, relationships, id = item]
    (line 783); the final fallback (line 790) is never reached. *)
Lemma C10_counterexample :
  is_mapping (JNum 5) = false
  /\ unpackable (JNum 5) = false
  /\ Resource._extract_from_item (IJson (JNum 5))
     = Raise (TypeError (CannotUnpack "int" 783))
  /\ Resource._extract_from_item (IJson (JNum 5))
     <> Raise (TypeError (CannotUnpack "NoneType" 790)).
Proof. repeat split. discriminate. Qed.

(** ** Editing plural relationships *)




(** ** Attribute writes and reads *)

Lemma relationships_set_attributes a s :
  relationships (set_attributes a s) = relationships s.
Proof. now destruct s. Qed.

(** C5 (as amended).  For a name that is not structural and whose
    relationship descriptor is plural, an assignment never touches the
    relationships; and when the name is not also a key of the attributes
    the assignment raises the AttributeError that points to add, remove and
    reset, and leaves the instance as it was. *)
Theorem C5_plural_assignment_rejected
        (reg : registry) (depth : nat) (self : resource) (attr : string)
        (value : item) (descriptor : json) :
  structural_for_write attr = false ->
  Dict.get attr (relationships self) = Some descriptor ->
  plural descriptor ->
  relationships (snd (Resource.__setattr__ reg depth attr value self))
  = relationships self
  /\ (Py.contains attr (attributes self) = Ok false ->
      Resource.__setattr__ reg depth attr value self
      = (Raise (AttributeError_plural attr (cls_name (cls self))), self)).
Proof.
  intros Hs Hd [Hn Hp]. unfold Resource.__setattr__.
  unfold structural_for_write in Hs. rewrite Hs.
  unfold mbind, mget, mlift, mraise, mmodify.
  destruct (Py.contains attr (attributes self)) as [[|]|e]; simpl.
  - split; [|discriminate].
    destruct value as [r|j]; simpl; [reflexivity|].
    destruct (Py.setitem (attributes self) attr j); simpl;
      rewrite ?relationships_set_attributes; reflexivity.
  - rewrite Hd, Hn, Hp. simpl. split; reflexivity.
  - split; [reflexivity|discriminate].
Qed.

Lemma C5_plural_assignment_rejected_witness :
  Resource.__setattr__ Examples.reg 3 "children" (IJson (JArr []))
                       Examples.full_parent
  = (Raise (AttributeError_plural "children" "Parent"), Examples.full_parent).
Proof.
  apply (proj2 (C5_plural_assignment_rejected
                  Examples.reg 3 Examples.full_parent "children"
                  (IJson (JArr [])) _ eq_refl eq_refl (conj eq_refl eq_refl))).
  reflexivity.
Defined.

(** C5 as stated fails when the name of the plural relationship is also a
    key of the attributes: the assignment is taken for the attribute and
    nothing is raised. *)
Lemma C5_counterexample :
  (exists descriptor,
      Dict.get "children" (relationships Examples.odd_parent) = Some descriptor
      /\ plural descriptor)
  /\ Resource.__setattr__ Examples.reg 3 "children" (IJson (JArr []))
                          Examples.odd_parent
     = (Ok tt, set_attributes (JObj [("children", JArr [])]) Examples.odd_parent).
Proof.
  split; [|reflexivity].
  eexists. split; [reflexivity|]. split; reflexivity.
Qed.

(** ** Saving an existing instance *)

Lemma has_get {V} k (d : dict V) :
  Dict.has k d = true -> exists v, Dict.get k d = Some v.
Proof. unfold Dict.has. destruct (Dict.get k d); [eauto|discriminate]. Qed.

Lemma  setdefault_set_spec section other field v payload :
  section <> other ->
  section_ok section payload ->
  exists payload',
    Resource.setdefault_set section field v payload = Ok payload'
    /\ section_ok section payload'
    /\ Dict.get other payload' = Dict.get other payload
    /\ (forall f, In f (section_keys section payload')
                  <-> f = field \/ In f (section_keys section payload)).
Proof.
  intros Hne Hok. unfold Resource.setdefault_set, section_ok, section_keys in *.
  destruct (Dict.get section payload) as [[| | | | |d]|] eqn:E; try contradiction;
    simpl; eexists; (split; [reflexivity|]);
    rewrite get_set_eq, (get_set_ne other section) by congruence;
    (split; [exact I|]); (split; [reflexivity|]); intros f.
  - apply keys_set.
  - simpl. intuition.
Qed.

Lemma editable_payload_spec self a fields :
  attributes self = JObj a ->
  forall payload,
    section_ok "attributes" payload -> section_ok "relationships" payload ->
    exists payload',
      Resource.editable_payload self fields payload = Ok payload'
      /\ (forall f, In f (transmitted_fields payload')
                    <-> In f (transmitted_fields payload)
                        \/ (In f fields
                            /\ (Dict.has f a = true
                                \/ Dict.has f (relationships self) = true))).
Proof.
  intros Ha. induction fields as [|field rest IH]; intros payload Hoa Hor; simpl.
  - eexists. split; [reflexivity|]. intuition.
  - rewrite Ha. simpl.
    destruct (Dict.has field a) eqn:Hin.
    + destruct (has_get _ _ Hin) as [v Hv]. rewrite Hv. simpl.
      destruct (setdefault_set_spec "attributes" "relationships" field v payload)
        as [p1 [E1 [Hoa1 [Hr1 Hk1]]]]; [discriminate|assumption|].
      rewrite E1. simpl.
      assert (Hor1 : section_ok "relationships" p1).
      { unfold section_ok in *. now rewrite Hr1. }
      destruct (IH p1 Hoa1 Hor1) as [p2 [E2 H2]].
      exists p2. split; [exact E2|]. intros f. rewrite H2.
      unfold transmitted_fields. rewrite !in_app_iff, Hk1.
      unfold section_keys at 2 3. rewrite Hr1.
      fold (section_keys "relationships" payload).
      intuition (subst; auto).
    + destruct (Dict.get field (relationships self)) as [v|] eqn:Hr.
      * destruct (setdefault_set_spec "relationships" "attributes" field v payload)
          as [p1 [E1 [Hor1 [Ha1 Hk1]]]]; [discriminate|assumption|].
        rewrite E1. simpl.
        assert (Hoa1 : section_ok "attributes" p1).
        { unfold section_ok in *. now rewrite Ha1. }
        destruct (IH p1 Hoa1 Hor1) as [p2 [E2 H2]].
        exists p2. split; [exact E2|]. intros f. rewrite H2.
        unfold transmitted_fields. rewrite !in_app_iff, Hk1.
        unfold section_keys at 1 3. rewrite Ha1.
        fold (section_keys "attributes" payload).
        assert (Hh : Dict.has field (relationships self) = true).
        { unfold Dict.has. now rewrite Hr. }
        intuition (subst; auto).
      * destruct (IH payload Hoa Hor) as [p2 [E2 H2]].
        exists p2. split; [exact E2|]. intros f. rewrite H2.
        assert (Hh : Dict.has field (relationships self) = false).
        { unfold Dict.has. now rewrite Hr. }
        intuition (subst; auto; congruence).
Qed.

Lemma full_payload_fields self a :
  attributes self = JObj a ->
  forall f,
    In f (transmitted_fields
            (Resource.full_payload
               self [("type", json_of_option (TYPE (cls self))); ("id", id self)]))
    <-> In f (Dict.keys a ++ Dict.keys (relationships self)).
Proof.
  intros Ha f. unfold Resource.full_payload. rewrite Ha.
  destruct a as [|[k v] a], (relationships self) as [|[k' v'] R];
    cbn; reflexivity.
Qed.

Lemma existing_payload_spec self a fields :
  attributes self = JObj a ->
  exists payload,
    Resource.existing_payload self fields = Ok payload
    /\ (forall f, In f (transmitted_fields payload)
                  <-> In f (chosen_fields self fields a)
                      /\ (Dict.has f a = true
                          \/ Dict.has f (relationships self) = true)).
Proof.
  intros Ha. unfold Resource.existing_payload.
  set (payload0 := [("type", json_of_option (TYPE (cls self))); ("id", id self)]).
  assert (Hedit : forall l,
             exists payload,
               Resource.editable_payload self l payload0 = Ok payload
               /\ (forall f, In f (transmitted_fields payload)
                             <-> In f l
                                 /\ (Dict.has f a = true
                                     \/ Dict.has f (relationships self) = true))).
  { intros l.
    destruct (editable_payload_spec self a l Ha payload0 I I) as [p [E H]].
    exists p. split; [exact E|]. intros f. rewrite H. cbn. tauto. }
  unfold Resource.editable_fields_of, chosen_fields.
  destruct fields as [|f0 fields].
  - destruct (EDITABLE (cls self)) as [editable|].
    + apply Hedit.
    + subst payload0. eexists. split; [reflexivity|]. intros f.
      rewrite (full_payload_fields self a Ha), in_app_iff, <- !has_keys.
      tauto.
  - apply Hedit.
Qed.

Lemma save_log reg transport depth fields self log url payload :
  Py.truth (id self) = true ->
  Resource.existing_payload self fields = Ok payload ->
  Resource._get_url self = Ok url ->
  snd (Resource.save reg transport depth fields self log)
  = log ++ [save_request url payload].
Proof.
  intros Hid Hp Hu.
  unfold Resource.save, Resource._save_existing, Resource._jsonapi_request,
    obind, oget, olift, oraise, omethod.
  rewrite Hid, Hp, Hu. fold (save_request url payload).
  destruct (transport log (save_request url payload)) as [body|]; [|reflexivity].
  destruct (Py.getitem body "data") as [data|]; [|reflexivity].
  destruct (Resource.reconcile_related _ _ _ _ _); [|reflexivity].
  destruct data; try reflexivity.
  destruct (overwrite_kwargs _ _ _); [|reflexivity].
  now destruct (Resource._overwrite _ _ _).
Qed.

(** C4 (as amended).  On an instance whose id is truthy, [save] issues
    exactly one request, a PATCH to the instance's URL, and the fields it
    transmits are those members of the chosen list (the explicit fields if
    any were given, else EDITABLE if the class declares it, else every
    attribute and relationship that is set) that are keys of the attributes
    or of the relationships at that moment; a listed name that is not set
    is left out.  So [save('name')] transmits nothing but the name. *)
Theorem C4_save_existing_transmits_chosen_fields
        (reg : registry) (transport : list request -> request -> result json)
        (depth : nat) (self : resource) (fields : list string)
        (log : list request) (a : dict json) (u : url) :
  Py.truth (id self) = true ->
  attributes self = JObj a ->
  Resource._get_url self = Ok u ->
  exists payload,
    snd (Resource.save reg transport depth fields self log)
    = log ++ [save_request u payload]
    /\ (forall f, In f (transmitted_fields payload)
                  <-> In f (chosen_fields self fields a)
                      /\ (Dict.has f a = true
                          \/ Dict.has f (relationships self) = true))
    /\ (fields = ["name"] ->
        forall f, In f (transmitted_fields payload) -> f = "name").
Proof.
  intros Hid Ha Hu.
  destruct (existing_payload_spec self a fields Ha) as [payload [Hp Hf]].
  exists payload. split; [|split].
  - now apply save_log.
  - exact Hf.
  - intros -> f Hin. apply Hf in Hin as [[<-|[]] _]. reflexivity.
Qed.

Lemma C4_save_existing_transmits_chosen_fields_witness :
  exists payload,
    snd (Resource.save Examples.reg Examples.transport 3 ["name"]
                       Examples.child [])
    = [] ++ [save_request (ItemUrl (Some "children") (JStr "1")) payload]
    /\ (forall f, In f (transmitted_fields payload)
                  <-> In f (chosen_fields Examples.child ["name"]
                                          [("name", JStr "child 1")])
                      /\ (Dict.has f [("name", JStr "child 1")] = true
                          \/ Dict.has f (relationships Examples.child) = true))
    /\ (["name"] = ["name"] ->
        forall f, In f (transmitted_fields payload) -> f = "name").
Proof.
  apply (C4_save_existing_transmits_chosen_fields
           Examples.reg Examples.transport 3 Examples.child ["name"] []
           [("name", JStr "child 1")] (ItemUrl (Some "children") (JStr "1")));
    reflexivity.
Defined.

(** C4 as stated fails when a listed field is not set on the instance:
    [save('name')] on a Parent without attributes sends a PATCH whose
    resource object has a type and an id and no field at all, so the
    transmitted field set is empty and not {name}. *)
Lemma C4_counterexample :
  Py.is_none (id Examples.bare_parent) = false
  /\ snd (Resource.save Examples.reg Examples.transport 3 ["name"]
                        Examples.bare_parent [])
     = [save_request (ItemUrl (Some "parents") (JStr "1"))
                     [("type", JStr "parents"); ("id", JStr "1")]]
  /\ transmitted_fields [("type", JStr "parents"); ("id", JStr "1")] = []
  /\ ~ In "name"
         (transmitted_fields [("type", JStr "parents"); ("id", JStr "1")]).
Proof. repeat split. intros []. Qed.

(** ** Fetching relationships *)

Lemma reload_log reg transport depth include self log u :
  Resource._get_url self = Ok u ->
  exists rq,
    snd (Resource.reload reg transport depth include self log) = log ++ [rq]
    /\ rq_method rq = GET /\ rq_url rq = u
    /\ (include = None -> rq = get_request u).
Proof.
  intros Hu.
  unfold Resource.reload, Resource._jsonapi_request, obind, oget, olift,
    oraise, omethod.
  rewrite Hu.
  match goal with
  | |- context [transport log ?r] => exists r; set (rq := r)
  end.
  split; [|split; [reflexivity|split; [reflexivity|]]].
  - destruct (transport log rq) as [body|]; [|reflexivity].
    destruct (Py.get body "included"); [|reflexivity].
    destruct (Py.getitem body "data") as [data|]; [|reflexivity].
    destruct data; try reflexivity.
    destruct (overwrite_kwargs _ _ _); [|reflexivity].
    now destruct (Resource._overwrite _ _ _).
  - intros ->. reflexivity.
Qed.

Lemma reload_cls reg transport depth include self log u s' log' :
  Resource.reload reg transport depth include self log = (Ok u, s', log') ->
  cls s' = cls self.
Proof.
  unfold Resource.reload, Resource._jsonapi_request, obind, oget, olift,
    oraise, omethod.
  destruct (Resource._get_url self); [|discriminate].
  destruct (transport log _) as [body|]; [|discriminate].
  destruct (Py.get body "included"); [|discriminate].
  destruct (Py.getitem body "data") as [data|]; [|discriminate].
  destruct data; try discriminate.
  destruct (overwrite_kwargs _ _ _) as [args|]; [|discriminate].
  pose proof (overwrite_keeps_cls (Resource.new1 reg depth) args self) as K.
  destruct (Resource._overwrite _ _ _) as [[?|?] s'']; [|discriminate].
  intros [= _ <- _]. exact K.
Qed.

Lemma spec_resolved_skips cached :
  spec_already_resolved cached = true ->
  Resource.is_singular_fetched cached || Resource.is_plural_fetched cached
  = true.
Proof.
  destruct cached as [[j|rel|q]|]; try discriminate; [|reflexivity].
  cbn. unfold spec_carries_fields.
  destruct (attributes rel) as [| | | | |[|kv a]], (relationships rel);
    cbn; intros H; try discriminate H; rewrite ?orb_true_r; reflexivity.
Qed.

Lemma resolved_refines_spec cached :
  cached_attributes_mapping cached = true ->
  Resource.is_singular_fetched cached || Resource.is_plural_fetched cached
  = spec_already_resolved cached.
Proof.
  destruct cached as [[j|rel|q]|]; try reflexivity.
  cbn. unfold spec_carries_fields.
  destruct (attributes rel) as [| | | | |[|kv a]]; try discriminate;
    intros _; now rewrite orb_false_r.
Qed.

(** C3 (as amended).  For a name known to the relationships, [fetch]
    does nothing when the descriptor is None, and nothing when the
    relationship is already resolved, in the words of the specification,
    and [force] is absent.  Otherwise, the attributes of a cached instance
    being a mapping, a singular relationship is resolved by reloading the
    cached instance: exactly one GET goes to the URL of that instance, and
    the cache entry becomes the instance as [reload] leaves it, of the same
    class.  A plural one is resolved without any request: the cache entry
    is replaced by a fresh, unfetched Queryset anchored at the [related]
    link, and the one request is issued by the first access to that
    Queryset. *)
Theorem C3_fetch_requests
        (reg : registry) (transport : list request -> request -> result json)
        (depth : nat) (self : resource) (name : string) (force : bool)
        (log : list request) (descriptor : json) :
  Dict.get name (relationships self) = Some descriptor ->
  let cached := Dict.get name (related self) in
  let out := Resource.fetch reg transport depth [name] force self log in
  (Py.is_none descriptor = true -> out = (Ok tt, self, log))
  /\ (spec_already_resolved cached = true -> force = false ->
      out = (Ok tt, self, log))
  /\ (Py.is_none descriptor = false ->
      cached_attributes_mapping cached = true ->
      spec_already_resolved cached && negb force = false ->
      Py.contains "data" descriptor = Ok true ->
      forall rel u,
        cached = Some (VRes rel) ->
        Resource._get_url rel = Ok u ->
        exists res rel',
          Resource.reload reg transport depth None rel log
          = (res, rel', log ++ [get_request u])
          /\ out = (res, Resource.set_r name (VRes rel') self,
                    log ++ [get_request u])
          /\ (res = Ok tt -> cls rel' = cls rel))
  /\ (Py.is_none descriptor = false ->
      cached_attributes_mapping cached = true ->
      spec_already_resolved cached && negb force = false ->
      Py.contains "data" descriptor = Ok false ->
      snd out = log
      /\ forall lnks u,
          Py.getitem descriptor "links" = Ok lnks ->
          Py.getitem lnks "related" = Ok u ->
          out = (Ok tt, Resource.set_r name (VQs (Queryset u)) self, log)
          /\ qs_page (Queryset u) = None
          /\ forall log',
              snd (Resource.Queryset_evaluate transport (Queryset u) log')
              = log' ++ [get_request (Url u)]).
Proof.
  intros Hd cached out.
  assert (E : out = match Resource.fetch_one reg transport depth force name self log with
                    | (Ok _, s', log') => (Ok tt, s', log')
                    | (Raise e, s', log') => (Raise e, s', log')
                    end).
  { subst out. unfold Resource.fetch. simpl. unfold obind, oret.
    destruct (Resource.fetch_one _ _ _ _ _ _ _) as [[[[]|e] s'] log']; reflexivity. }
  rewrite E. clear E out.
  unfold Resource.fetch_one, obind, oget, oret, olift, omodify.
  rewrite Hd. fold cached.
  split; [|split; [|split]].
  - intros ->. reflexivity.
  - intros Hr ->. rewrite (spec_resolved_skips cached Hr).
    destruct (Py.is_none descriptor); reflexivity.
  - intros -> Hm Hr -> rel u Hc Hu.
    rewrite (resolved_refines_spec cached Hm), Hr.
    unfold Resource.reload_related. fold cached. rewrite Hc.
    destruct (reload_log reg transport depth None rel log u Hu)
      as [rq [Hl [_ [_ Hrq]]]].
    rewrite (Hrq eq_refl) in Hl.
    destruct (Resource.reload reg transport depth None rel log)
      as [[res rel'] log'] eqn:R; simpl in Hl. subst log'.
    exists res, rel'. split; [reflexivity|]. split.
    + now destruct res as [[]|e].
    + intros ->. exact (reload_cls _ _ _ _ _ _ _ _ _ R).
  - intros -> Hm Hr ->.
    rewrite (resolved_refines_spec cached Hm), Hr. split.
    + destruct (Py.getitem descriptor "links") as [lnks|]; [|reflexivity].
      destruct (Py.getitem lnks "related"); reflexivity.
    + intros lnks u -> ->. split; [reflexivity|]. split; [reflexivity|].
      intros log'. unfold Resource.Queryset_evaluate. simpl.
      fold (get_request (Url u)).
      now destruct (transport log' (get_request (Url u))).
Qed.

Lemma C3_fetch_requests_witness :
  exists res rel',
    Resource.reload Examples.reg Examples.transport 3 None
                    Examples.bare_parent []
    = (res, rel', [] ++ [get_request (ItemUrl (Some "parents") (JStr "1"))])
    /\ Resource.fetch Examples.reg Examples.transport 3 ["parent"] false
                      Examples.child []
       = (res, Resource.set_r "parent" (VRes rel') Examples.child,
          [] ++ [get_request (ItemUrl (Some "parents") (JStr "1"))])
    /\ (res = Ok tt -> cls rel' = cls Examples.bare_parent).
Proof.
  exact (proj1 (proj2 (proj2
           (C3_fetch_requests Examples.reg Examples.transport 3 Examples.child
                              "parent" false [] _ eq_refl)))
           eq_refl eq_refl eq_refl eq_refl _ _ eq_refl eq_refl).
Defined.

(** C3 as stated fails for plural relationships: [fetch('children')] on a
    parent whose children were never fetched issues no request at all, and
    neither does [fetch('children', force=True)] afterwards; each only
    installs an unfetched Queryset. *)
Lemma C3_counterexample :
  Resource.is_plural_fetched
    (Dict.get "children" (related Examples.full_parent)) = false
  /\ Resource.fetch Examples.reg Examples.transport 3 ["children"] false
                    Examples.full_parent []
     = (Ok tt,
        Resource.set_r "children" (VQs (Queryset (JStr "/parents/1/children")))
                       Examples.full_parent,
        [])
  /\ snd (Resource.fetch Examples.reg Examples.transport 3 ["children"] true
                         (Resource.set_r "children"
                            (VQs (Queryset (JStr "/parents/1/children")))
                            Examples.full_parent) [])
     = [].
Proof. repeat split. Qed.

(** ** What [_overwrite] leaves in the related cache *)

Section Triples.
Context {A B : Type}.

Lemma triple_ret (P : resource -> Prop) (a : A) :
  triple P (mret a) (fun _ s => P s).
Proof. intros s a' s' HP [= <- <-]. exact HP. Qed.

Lemma triple_lift (P : resource -> Prop) (r : result A) :
  triple P (mlift r) (fun a s => r = Ok a /\ P s).
Proof. intros s a s' HP [= -> <-]. auto. Qed.

Lemma triple_raise (P : resource -> Prop) e (Q : A -> resource -> Prop) :
  triple P (mraise e) Q.
Proof. intros s a s' _ [=]. Qed.

Lemma triple_bind (P : resource -> Prop) (Q : A -> resource -> Prop)
      (R : B -> resource -> Prop) (m : method A) (k : A -> method B) :
  triple P m Q -> (forall a, triple (Q a) (k a) R) -> triple P (mbind m k) R.
Proof.
  intros Hm Hk s b s' HP. unfold mbind.
  destruct (m s) as [[a|e] s1] eqn:E; [|discriminate].
  intros Hb. exact (Hk a s1 b s' (Hm s a s1 HP E) Hb).
Qed.

Lemma triple_weaken (P P' : resource -> Prop) (Q Q' : A -> resource -> Prop)
      (m : method A) :
  triple P' m Q' -> (forall s, P s -> P' s) ->
  (forall a s, Q' a s -> Q a s) -> triple P m Q.
Proof. intros H HP HQ s a s' Hs E. eauto. Qed.
End Triples.

Lemma triple_skip {A} (P : resource -> Prop) (Q : A -> resource -> Prop) a :
  (forall s, P s -> Q a s) -> triple P (mret a) Q.
Proof. intros H s a' s' HP E. injection E as <- <-. auto. Qed.

Lemma triple_get (P : resource -> Prop) :
  triple P mget (fun a s => a = s /\ P s).
Proof. intros s a s' HP [= <- <-]. auto. Qed.

Lemma triple_modify (P Q : resource -> Prop) f :
  (forall s, P s -> Q (f s)) -> triple P (mmodify f) (fun _ s => Q s).
Proof. intros H s a s' HP E. injection E as _ <-. auto. Qed.

(* a loop whose body, on any element of the list, keeps the invariant *)
Lemma triple_for {X} (I : resource -> Prop) (l : list X)
      (body : X -> method unit) :
  (forall x, In x l -> triple I (body x) (fun _ s => I s)) ->
  triple I (mfor l body) (fun _ s => I s).
Proof.
  induction l as [|x t IH]; intros Hb; simpl.
  - apply triple_ret.
  - eapply triple_bind.
    + apply Hb. now left.
    + intros ?. apply IH. intros y Hy. apply Hb. now right.
Qed.

Lemma get_set {V} k k' (v : V) d :
  Dict.get k (Dict.set k' v d)
  = if String.eqb k k' then Some v else Dict.get k d.
Proof.
  destruct (String.eqb k k') eqn:E.
  - apply String.eqb_eq in E. subst. apply get_set_eq.
  - apply String.eqb_neq in E. now apply get_set_ne.
Qed.

Lemma nodup_keys_set {V} k (v : V) d :
  NoDup (Dict.keys d) -> NoDup (Dict.keys (Dict.set k v d)).
Proof.
  unfold Dict.keys. induction d as [|[k' v'] t IH]; simpl; intros H.
  - apply NoDup_singleton.
  - apply NoDup_cons in H as [Hn Ht].
    destruct (String.eqb k k') eqn:E; simpl; apply NoDup_cons.
    + auto.
    + split; [|auto].
      intros Hin. apply list_elem_of_In, (keys_set k v t k') in Hin as [->|Hin].
      * now rewrite String.eqb_refl in E.
      * apply Hn, list_elem_of_In, Hin.
Qed.

Lemma in_get_nodup {V} k (v : V) d :
  NoDup (Dict.keys d) -> In (k, v) d -> Dict.get k d = Some v.
Proof.
  unfold Dict.keys. induction d as [|[k' v'] t IH]; simpl; intros H; [intros []|].
  apply NoDup_cons in H as [Hn Ht].
  intros [[= -> ->]|Hin].
  - now rewrite String.eqb_refl.
  - destruct (String.eqb k k') eqn:E.
    + apply String.eqb_eq in E. subst k'. exfalso. apply Hn, list_elem_of_In.
      change k with (fst (k, v)). now apply in_map.
    + auto.
Qed.

Lemma relationships_set_R k v s :
  relationships (Resource.set_R k v s) = Dict.set k v (relationships s).
Proof. now destruct s. Qed.

Lemma relationships_set_r k v s :
  relationships (Resource.set_r k v s) = relationships s.
Proof. now destruct s. Qed.

Lemma related_set_r k v s :
  related (Resource.set_r k v s) = Dict.set k v (related s).
Proof. now destruct s. Qed.

Lemma set_R_unique k v s : unique_names s -> unique_names (Resource.set_R k v s).
Proof.
  unfold unique_names. rewrite relationships_set_R. apply nodup_keys_set.
Qed.

Lemma store_relationships_unique r :
  triple unique_names (Resource.store_relationships r)
         (fun _ s => unique_names s).
Proof.
  unfold Resource.store_relationships.
  destruct r as [[| | | | |d]|d]; try apply triple_raise; try apply triple_ret.
  - apply triple_for. intros kv _. apply triple_modify.
    intros s. apply set_R_unique.
  - apply triple_for. intros [k [r|j]] _; simpl; apply triple_modify;
      intros s; apply set_R_unique.
Qed.

Lemma set_r_cache name d v s :
  In (name, d) (relationships s) -> null_or_singular d ->
  cache_of_singulars s -> cache_of_singulars (Resource.set_r name v s).
Proof.
  intros Hin Hd Hc name' v'.
  rewrite related_set_r, relationships_set_r, get_set.
  destruct (String.eqb name' name) eqn:E.
  - apply String.eqb_eq in E. subst name'. intros _. eauto.
  - apply Hc.
Qed.

(* what both loops over self.R.items() keep true *)
Lemma set_r_invariant R name d v s :
  In (name, d) R -> null_or_singular d ->
  relationships s = R /\ unique_names s /\ cache_of_singulars s ->
  relationships (Resource.set_r name v s) = R
  /\ unique_names (Resource.set_r name v s)
  /\ cache_of_singulars (Resource.set_r name v s).
Proof.
  intros Hin Hd [HR [Hu Hc]]. split; [|split].
  - now rewrite relationships_set_r.
  - unfold unique_names. now rewrite relationships_set_r.
  - eapply set_r_cache; eauto. now rewrite HR.
Qed.

Lemma link_related_cache new1 :
  triple (fun s => unique_names s /\ cache_of_singulars s)
         (Resource.link_related new1)
         (fun _ s => unique_names s /\ cache_of_singulars s).
Proof.
  unfold Resource.link_related.
  eapply triple_bind; [apply triple_get|]. intros s0. cbv beta.
  eapply (triple_weaken _ (fun s => relationships s = relationships s0
                                     /\ unique_names s /\ cache_of_singulars s)
                        _ (fun _ s => relationships s = relationships s0
                                      /\ unique_names s /\ cache_of_singulars s)).
  - apply triple_for. intros [name d] Hin. cbn [fst snd].
    destruct (Py.is_none d) eqn:Hn.
    + apply triple_modify. intros s.
      apply (set_r_invariant _ name d); [assumption|now left].
    + eapply triple_bind; [apply triple_lift|]. intros [|]; cbv beta.
      * eapply triple_bind; [apply triple_lift|]. intros res. cbv beta.
        apply triple_modify. intros s [_ [Hc H]].
        apply (set_r_invariant _ name d); [assumption|now right|assumption].
      * apply triple_skip; intros; tauto.
  - intros s [-> H]. tauto.
  - cbv beta. tauto.
Qed.

Lemma link_included_cache new1 included :
  triple (fun s => unique_names s /\ cache_of_singulars s)
         (Resource.link_included new1 included)
         (fun _ s => unique_names s /\ cache_of_singulars s).
Proof.
  unfold Resource.link_included.
  destruct (Py.is_none included); [apply triple_ret|].
  eapply triple_bind; [apply triple_lift|]. intros by_key. cbv beta.
  eapply triple_bind; [apply triple_get|]. intros s0. cbv beta.
  eapply (triple_weaken _ (fun s => relationships s = relationships s0
                                     /\ unique_names s /\ cache_of_singulars s)
                        _ (fun _ s => relationships s = relationships s0
                                      /\ unique_names s /\ cache_of_singulars s)).
  - apply triple_for. intros [name d] Hin.
    unfold Resource.link_included_one. cbn [fst snd].
    destruct (Py.is_none d) eqn:Hn; [apply triple_ret|].
    eapply triple_bind; [apply triple_lift|]. intros [|]; cbv beta; simpl.
    2:{ apply triple_skip; intros; tauto. }
    repeat (eapply triple_bind; [apply triple_lift|]; intros ?; cbv beta).
    destruct (Included.get _ _).
    + eapply triple_bind; [apply triple_lift|]. intros res. cbv beta.
      apply triple_modify. intros s H.
      apply (set_r_invariant _ name d); [assumption|right; tauto|tauto].
    + apply triple_skip; intros; tauto.
  - intros s [-> [_ H]]. tauto.
  - cbv beta. tauto.
Qed.

(* everything in _overwrite up to the included objects *)
Lemma overwrite_via_included new1 a (Q : unit -> resource -> Prop) :
  o_related a = None ->
  triple (fun s => unique_names s /\ cache_of_singulars s)
         (Resource.link_included new1 (o_included a)) Q ->
  triple (fun _ => True) (Resource._overwrite new1 a) Q.
Proof.
  intros Hrel HQ. unfold Resource._overwrite. rewrite Hrel.
  eapply triple_bind; [apply (triple_modify _ (fun _ => True)); auto|].
  intros ?; cbv beta.
  eapply triple_bind; [apply (triple_modify _ (fun _ => True)); auto|].
  intros ?; cbv beta.
  eapply triple_bind.
  { apply (triple_modify _ unique_names). intros [? ? ? ? ? ? ?] _.
    apply NoDup_nil_2. }
  intros ?; cbv beta.
  eapply triple_bind; [apply store_relationships_unique|].
  intros ?; cbv beta.
  eapply triple_bind.
  { apply (triple_modify _ unique_names). now intros [? ? ? ? ? ? ?]. }
  intros ?; cbv beta.
  eapply triple_bind.
  { apply (triple_modify _ (fun s => unique_names s /\ cache_of_singulars s)).
    intros [? ? ? ? ? ? ?] H. split; [exact H|]. intros name v [=]. }
  intros ?; cbv beta.
  eapply triple_bind; [apply link_related_cache|].
  intros ?; cbv beta.
  eapply triple_bind; [exact HQ|].
  intros []; cbv beta.
  apply triple_skip. auto.
Qed.

Lemma overwrite_cache new1 a :
  o_related a = None ->
  triple (fun _ => True) (Resource._overwrite new1 a)
         (fun _ s => unique_names s /\ cache_of_singulars s).
Proof.
  intros Hrel. apply overwrite_via_included; [exact Hrel|].
  apply link_included_cache.
Qed.

(** After [_overwrite] without a [related] argument, a plural relationship
    has no entry in the related cache. *)
Lemma overwrite_plural_uncached new1 a s u s' name d :
  o_related a = None ->
  Resource._overwrite new1 a s = (Ok u, s') ->
  Dict.get name (relationships s') = Some d -> plural d ->
  Dict.get name (related s') = None.
Proof.
  intros Hrel Ho Hd [Hn Hp].
  destruct (overwrite_cache new1 a Hrel s u s' I Ho) as [Hu Hc].
  destruct (Dict.get name (related s')) as [v|] eqn:E; [|reflexivity].
  destruct (Hc name v E) as [d' [Hin Hd']].
  apply (in_get_nodup _ _ _ Hu) in Hin. rewrite Hd in Hin. injection Hin as <-.
  destruct Hd' as [H|H]; congruence.
Qed.

(** ** Included objects *)

(* a loop whose body extends the invariant to the element it has seen *)
Lemma triple_for_prefix {X} (I : list X -> resource -> Prop) (l : list X)
      (body : X -> method unit) :
  (forall seen x rest,
      l = seen ++ x :: rest ->
      triple (I seen) (body x) (fun _ s => I (seen ++ [x]) s)) ->
  triple (I []) (mfor l body) (fun _ s => I l s).
Proof.
  assert (G : forall t seen,
             (forall d x r, t = d ++ x :: r ->
                            triple (I (seen ++ d)) (body x)
                                   (fun _ s => I (seen ++ d ++ [x]) s)) ->
             triple (I seen) (mfor t body) (fun _ s => I (seen ++ t) s)).
  { induction t as [|x t IH]; intros seen Hb; simpl.
    - rewrite app_nil_r. apply triple_ret.
    - eapply triple_bind.
      + specialize (Hb [] x t eq_refl). rewrite app_nil_r in Hb. exact Hb.
      + intros ?. cbv beta. simpl.
        replace (seen ++ x :: t) with ((seen ++ [x]) ++ t)
          by now rewrite <- app_assoc.
        apply IH. intros d y r ->.
        specialize (Hb (x :: d) y r eq_refl).
        now rewrite <- !app_assoc. }
  intros Hb. apply (G l []). exact Hb.
Qed.

Lemma get_in {V} k (v : V) d : Dict.get k d = Some v -> In (k, v) d.
Proof.
  induction d as [|[k' v'] t IH]; simpl; [discriminate|].
  destruct (String.eqb k k') eqn:E.
  - apply String.eqb_eq in E. subst. intros [= ->]. now left.
  - auto.
Qed.

Lemma nodup_app_fresh {V} (seen : dict V) x rest name d :
  NoDup (Dict.keys (seen ++ x :: rest)) -> In (name, d) seen -> name <> fst x.
Proof.
  unfold Dict.keys. rewrite map_app. simpl. intros H Hin ->.
  apply NoDup_app in H as [_ [H _]].
  apply (H (fst x)).
  - apply list_elem_of_In. change (fst x) with (fst (fst x, d)). now apply in_map.
  - apply list_elem_of_here.
Qed.

Lemma resolved_set_r_other new1 by_key name d name' v s :
  name <> name' ->
  resolved_from_included new1 by_key name d s ->
  resolved_from_included new1 by_key name d (Resource.set_r name' v s).
Proof.
  intros Hne H ident ty i found H1 H2 H3 H4 H5 H6.
  rewrite related_set_r, get_set_ne by assumption. eauto.
Qed.

Lemma link_included_one_resolves new1 by_key R seen name d rest :
  R = seen ++ (name, d) :: rest -> NoDup (Dict.keys R) ->
  triple (fun s => relationships s = R
                   /\ forall n' d', In (n', d') seen ->
                                    resolved_from_included new1 by_key n' d' s)
         (Resource.link_included_one new1 by_key (name, d))
         (fun _ s => relationships s = R
                     /\ forall n' d', In (n', d') (seen ++ [(name, d)]) ->
                                      resolved_from_included new1 by_key n' d' s).
Proof.
  intros HR Hnd s u s' [Hrel Hseen] E.
  assert (Skip : forall st,
             relationships st = R ->
             (forall n' d', In (n', d') seen ->
                            resolved_from_included new1 by_key n' d' st) ->
             resolved_from_included new1 by_key name d st ->
             relationships st = R
             /\ forall n' d', In (n', d') (seen ++ [(name, d)]) ->
                              resolved_from_included new1 by_key n' d' st).
  { intros st H1 H2 H3. split; [exact H1|].
    intros n' d' Hin. apply in_app_or in Hin as [Hin|[[= <- <-]|[]]]; auto. }
  unfold Resource.link_included_one, mbind, mlift, mret, mmodify in E.
  cbn [fst snd] in E.
  destruct (Py.is_none d) eqn:Hn.
  { injection E as _ <-. apply Skip; auto. intros ? ? ? ? H. congruence. }
  destruct (Py.contains "data" d) as [[|]|] eqn:Hc; simpl in E;
    try discriminate.
  2:{ injection E as _ <-. apply Skip; auto. intros ? ? ? ? _ H. congruence. }
  destruct (Py.getitem d "data") as [d1|] eqn:Hd1; simpl in E; try discriminate.
  destruct (Py.getitem d1 "type") as [ty|] eqn:Hty; simpl in E; try discriminate.
  destruct (Py.getitem d1 "id") as [i|] eqn:Hi; simpl in E; try discriminate.
  destruct (Included.hash (ty, i)) eqn:Hh; simpl in E; try discriminate.
  destruct (Included.get (ty, i) by_key) as [found|] eqn:Hg.
  - destruct (new1 found) as [res|] eqn:Hnew; simpl in E; try discriminate.
    injection E as _ <-. apply Skip.
    + now rewrite relationships_set_r.
    + intros n' d' Hin. apply resolved_set_r_other; [|auto].
      rewrite HR in Hnd. exact (nodup_app_fresh seen (name, d) rest n' d' Hnd Hin).
    + intros ident ty' i' found' _ _ Hd' Hty' Hi' Hg'.
      rewrite Hd1 in Hd'. injection Hd' as <-.
      rewrite Hty in Hty'. injection Hty' as <-.
      rewrite Hi in Hi'. injection Hi' as <-.
      rewrite Hg in Hg'. injection Hg' as <-.
      exists res. split; [exact Hnew|].
      rewrite related_set_r. apply get_set_eq.
  - injection E as _ <-. apply Skip; auto.
    intros ident ty' i' found' _ _ Hd' Hty' Hi' Hg'.
    rewrite Hd1 in Hd'. injection Hd' as <-.
    rewrite Hty in Hty'. injection Hty' as <-.
    rewrite Hi in Hi'. injection Hi' as <-.
    congruence.
Qed.

Lemma link_included_resolves new1 included by_key :
  Py.is_none included = false ->
  Included.by_key included = Ok by_key ->
  triple (fun s => unique_names s /\ cache_of_singulars s)
         (Resource.link_included new1 included)
         (fun _ s => forall name d,
              Dict.get name (relationships s) = Some d ->
              resolved_from_included new1 by_key name d s).
Proof.
  intros Hn Hk. unfold Resource.link_included. rewrite Hn, Hk.
  intros s u s' [Hu _] E. unfold mbind, mlift, mget in E. simpl in E.
  pose proof (triple_for_prefix
                (fun seen st =>
                   relationships st = relationships s
                   /\ forall n' d', In (n', d') seen ->
                                    resolved_from_included new1 by_key n' d' st)
                (relationships s)
                (Resource.link_included_one new1 by_key)) as L.
  assert (Hbody : forall seen x rest,
             relationships s = seen ++ x :: rest ->
             triple (fun st =>
                       relationships st = relationships s
                       /\ forall n' d', In (n', d') seen ->
                                        resolved_from_included new1 by_key n' d' st)
                    (Resource.link_included_one new1 by_key x)
                    (fun _ st =>
                       relationships st = relationships s
                       /\ forall n' d', In (n', d') (seen ++ [x]) ->
                                        resolved_from_included new1 by_key n' d' st)).
  { intros seen [name d] rest Hsplit.
    exact (link_included_one_resolves new1 by_key (relationships s) seen name d
                                      rest Hsplit Hu). }
  specialize (L Hbody s u s').
  destruct L as [HR Hall]; [split; [reflexivity|intros ? ? []]|exact E|].
  intros name d Hd. apply Hall. rewrite <- HR. now apply get_in.
Qed.

(** [_overwrite] with an [included] list and no [related] argument: every
    singular relationship whose identifier is the key of an included object
    ends up, in the related cache, with the Resource built from that
    object. *)
Lemma overwrite_resolves_included new1 a by_key s u s' :
  o_related a = None ->
  Py.is_none (o_included a) = false ->
  Included.by_key (o_included a) = Ok by_key ->
  Resource._overwrite new1 a s = (Ok u, s') ->
  forall name d,
    Dict.get name (relationships s') = Some d ->
    resolved_from_included new1 by_key name d s'.
Proof.
  intros Hrel Hn Hk E.
  exact (overwrite_via_included new1 a _ Hrel
           (link_included_resolves new1 (o_included a) by_key Hn Hk)
           s u s' I E).
Qed.

(* the keywords a payload cannot touch: `related` when it has no such key,
   and `included` when the call site passes it *)
Lemma overwrite_kwargs_keeps passed d :
  forall acc args,
    overwrite_kwargs passed d acc = Ok args ->
    (Dict.has "related" d = false -> o_related args = o_related acc)
    /\ (In "included" passed -> o_included args = o_included acc).
Proof.
  induction d as [|[k v] t IH]; intros acc args; simpl.
  - intros [= <-]. auto.
  - destruct (existsb (String.eqb k) passed) eqn:Hp; [discriminate|].
    assert (Hrel : Dict.has "related" ((k, v) :: t) = false ->
                   String.eqb k "related" = false /\ Dict.has "related" t = false).
    { unfold Dict.has.
      change (Dict.get "related" ((k, v) :: t))
        with (if String.eqb "related" k then Some v else Dict.get "related" t).
      rewrite (String.eqb_sym "related" k).
      destruct (String.eqb k "related"); [discriminate|auto]. }
    assert (Hinc : In "included" passed -> String.eqb k "included" = false).
    { intros Hin. destruct (String.eqb k "included") eqn:E; [|reflexivity].
      apply String.eqb_eq in E. subst k.
      assert (existsb (String.eqb "included") passed = true).
      { apply existsb_exists. exists "included". split; [assumption|].
        apply String.eqb_refl. }
      congruence. }
    repeat match goal with
           | |- (if String.eqb k ?n then _ else _) = _ -> _ =>
               destruct (String.eqb k n) eqn:?
           end;
      try (intros H; apply IH in H as [H1 H2]; simpl in *; split;
           [intros Hr; apply Hrel in Hr as [? ?]; try congruence; auto
           |intros Hi; pose proof (Hinc Hi); try congruence; auto]);
      try discriminate.
    destruct (related_of_json v); simpl; [|discriminate].
    intros H; apply IH in H as [H1 H2]; simpl in *; split;
      [intros Hr; apply Hrel in Hr as [? ?]; congruence
      |intros Hi; auto].
Qed.

(** [reload], on a response that carries an [included] list: one GET, and
    every singular relationship whose identifier is the key of an included
    object is resolved from that object. *)
Lemma reload_resolves_included reg transport depth self log s' log' u body inc
      data by_key :
  Resource._get_url self = Ok u ->
  transport log (get_request u) = Ok body ->
  Py.get body "included" = Ok inc ->
  Py.is_none inc = false ->
  Included.by_key inc = Ok by_key ->
  Py.getitem body "data" = Ok (JObj data) ->
  Dict.has "related" data = false ->
  Resource.reload reg transport depth None self log = (Ok tt, s', log') ->
  log' = log ++ [get_request u]
  /\ forall name d,
      Dict.get name (relationships s') = Some d ->
      resolved_from_included (Resource.new1 reg depth) by_key name d s'.
Proof.
  intros Hu Ht Hi Hn Hk Hd Hrel.
  unfold Resource.reload, Resource._jsonapi_request, obind, oget, olift,
    omethod.
  rewrite Hu. fold (get_request u). rewrite Ht, Hi, Hd.
  destruct (overwrite_kwargs _ _ _) as [args|] eqn:Ea; [|discriminate].
  destruct (overwrite_kwargs_keeps _ _ _ _ Ea) as [Hr Hinc].
  specialize (Hr Hrel). specialize (Hinc (or_introl eq_refl)). simpl in Hr, Hinc.
  destruct (Resource._overwrite _ _ _) as [[[]|e] s1] eqn:Eo; [|discriminate].
  intros [= <- <-]. split; [reflexivity|].
  apply (overwrite_resolves_included _ args by_key self tt s1); auto.
  - now rewrite Hinc.
  - now rewrite Hinc.
Qed.

(** ** Reading a relationship *)

Lemma cached_entry_set_r_other new1 name d name' v s :
  name <> name' ->
  cached_entry new1 name d s ->
  cached_entry new1 name d (Resource.set_r name' v s).
Proof.
  intros Hne [H1 H2]. unfold cached_entry.
  rewrite related_set_r, get_set_ne by assumption. now split.
Qed.

Lemma link_related_one_complete new1 R seen name d rest :
  R = seen ++ (name, d) :: rest -> NoDup (Dict.keys R) ->
  triple (fun s => relationships s = R
                   /\ forall n' d', In (n', d') seen ->
                                    cached_entry new1 n' d' s)
         (if Py.is_none d
          then mmodify (Resource.set_r name (VJson JNull))
          else
            do! singular := mlift (Py.contains "data" d) in
            if singular
            then do! res := mlift (new1 d) in
                 mmodify (Resource.set_r name (VRes res))
            else mret tt)
         (fun _ s => relationships s = R
                     /\ forall n' d', In (n', d') (seen ++ [(name, d)]) ->
                                      cached_entry new1 n' d' s).
Proof.
  intros HR Hnd s u s' [Hrel Hseen] E.
  assert (Step : forall st,
             relationships st = R ->
             (forall n' d', In (n', d') seen -> cached_entry new1 n' d' st) ->
             cached_entry new1 name d st ->
             relationships st = R
             /\ forall n' d', In (n', d') (seen ++ [(name, d)]) ->
                              cached_entry new1 n' d' st).
  { intros st H1 H2 H3. split; [exact H1|].
    intros n' d' Hin. apply in_app_or in Hin as [Hin|[[= <- <-]|[]]]; auto. }
  assert (Others : forall v n' d',
             In (n', d') seen ->
             cached_entry new1 n' d' (Resource.set_r name v s)).
  { intros v n' d' Hin. apply cached_entry_set_r_other; [|auto].
    rewrite HR in Hnd.
    exact (nodup_app_fresh seen (name, d) rest n' d' Hnd Hin). }
  unfold mbind, mlift, mret, mmodify in E.
  destruct (Py.is_none d) eqn:Hn.
  - injection E as _ <-. apply Step.
    + now rewrite relationships_set_r.
    + apply Others.
    + split; [|congruence]. intros _. rewrite related_set_r. apply get_set_eq.
  - destruct (Py.contains "data" d) as [[|]|] eqn:Hc; simpl in E;
      try discriminate.
    + destruct (new1 d) as [res|] eqn:Hnew; simpl in E; try discriminate.
      injection E as _ <-. apply Step.
      * now rewrite relationships_set_r.
      * apply Others.
      * split; [congruence|]. intros _ _. exists d, res.
        split; [exact Hnew|]. rewrite related_set_r. apply get_set_eq.
    + injection E as _ <-. apply Step; auto.
      split; congruence.
Qed.

Lemma link_related_complete new1 :
  triple unique_names (Resource.link_related new1)
         (fun _ s => unique_names s /\ cache_complete new1 s).
Proof.
  unfold Resource.link_related.
  intros s u s' Hu E. unfold mbind, mget in E. simpl in E.
  pose proof (triple_for_prefix
                (fun seen st =>
                   relationships st = relationships s
                   /\ forall n' d', In (n', d') seen ->
                                    cached_entry new1 n' d' st)
                (relationships s)
                (fun kv =>
                   let relationship_name := fst kv in
                   let relationship := snd kv in
                   if Py.is_none relationship
                   then mmodify (Resource.set_r relationship_name (VJson JNull))
                   else
                     do! singular := mlift (Py.contains "data" relationship) in
                     if singular
                     then do! res := mlift (new1 relationship) in
                          mmodify (Resource.set_r relationship_name (VRes res))
                     else mret tt)) as L.
  cbv zeta in L.
  assert (Hbody : forall seen x rest,
             relationships s = seen ++ x :: rest ->
             triple (fun st =>
                       relationships st = relationships s
                       /\ forall n' d', In (n', d') seen ->
                                        cached_entry new1 n' d' st)
                    (if Py.is_none (snd x)
                     then mmodify (Resource.set_r (fst x) (VJson JNull))
                     else
                       do! singular := mlift (Py.contains "data" (snd x)) in
                       if singular
                       then do! res := mlift (new1 (snd x)) in
                            mmodify (Resource.set_r (fst x) (VRes res))
                       else mret tt)
                    (fun _ st =>
                       relationships st = relationships s
                       /\ forall n' d', In (n', d') (seen ++ [x]) ->
                                        cached_entry new1 n' d' st)).
  { intros seen [name d] rest Hsplit. cbn [fst snd].
    exact (link_related_one_complete new1 (relationships s) seen name d rest
                                     Hsplit Hu). }
  specialize (L Hbody s u s').
  destruct L as [HR Hall]; [split; [reflexivity|intros ? ? []]|exact E|].
  split.
  - unfold unique_names. now rewrite HR.
  - intros name d Hin. apply Hall. now rewrite <- HR.
Qed.

Lemma link_included_complete new1 included :
  triple (fun s => unique_names s /\ cache_complete new1 s)
         (Resource.link_included new1 included)
         (fun _ s => unique_names s /\ cache_complete new1 s).
Proof.
  unfold Resource.link_included.
  destruct (Py.is_none included); [apply triple_ret|].
  eapply triple_bind; [apply triple_lift|]. intros by_key. cbv beta.
  eapply triple_bind; [apply triple_get|]. intros s0. cbv beta.
  eapply (triple_weaken _ (fun s => relationships s = relationships s0
                                     /\ unique_names s /\ cache_complete new1 s)
                        _ (fun _ s => relationships s = relationships s0
                                      /\ unique_names s
                                      /\ cache_complete new1 s)).
  - apply triple_for. intros [name d] Hin.
    intros s u s' [HR [Hu Hc]] E.
    unfold Resource.link_included_one, mbind, mlift, mret, mmodify in E.
    cbn [fst snd] in E.
    destruct (Py.is_none d) eqn:Hn; [injection E as _ <-; auto|].
    destruct (Py.contains "data" d) as [[|]|] eqn:Hd; simpl in E;
      try discriminate.
    2:{ injection E as _ <-. auto. }
    destruct (Py.getitem d "data") as [d1|]; simpl in E; try discriminate.
    destruct (Py.getitem d1 "type") as [ty|]; simpl in E; try discriminate.
    destruct (Py.getitem d1 "id") as [i|]; simpl in E; try discriminate.
    destruct (Included.hash (ty, i)); simpl in E; try discriminate.
    destruct (Included.get (ty, i) by_key) as [found|].
    2:{ injection E as _ <-. auto. }
    destruct (new1 found) as [res|] eqn:Hnew; simpl in E; try discriminate.
    injection E as _ <-.
    split; [now rewrite relationships_set_r|].
    split; [unfold unique_names; now rewrite relationships_set_r|].
    intros n' d'. rewrite relationships_set_r. intros Hin'.
    destruct (String.eqb n' name) eqn:En.
    + apply String.eqb_eq in En. subst n'.
      assert (d' = d).
      { rewrite <- HR in Hin.
        pose proof (in_get_nodup _ _ _ Hu Hin) as G1.
        pose proof (in_get_nodup _ _ _ Hu Hin') as G2. congruence. }
      subst d'. split; [congruence|]. intros _ _. exists found, res.
      split; [exact Hnew|]. rewrite related_set_r. apply get_set_eq.
    + apply cached_entry_set_r_other; [|auto].
      intros ->. now rewrite String.eqb_refl in En.
  - intros s [-> [_ H]]. tauto.
  - cbv beta. tauto.
Qed.

(** After [_overwrite] without a [related] argument, every relationship
    that is None or singular has its entry in the related cache. *)
Lemma overwrite_complete new1 a :
  o_related a = None ->
  triple (fun _ => True) (Resource._overwrite new1 a)
         (fun _ s => unique_names s /\ cache_complete new1 s).
Proof.
  intros Hrel. unfold Resource._overwrite. rewrite Hrel.
  eapply triple_bind; [apply (triple_modify _ (fun _ => True)); auto|].
  intros ?; cbv beta.
  eapply triple_bind; [apply (triple_modify _ (fun _ => True)); auto|].
  intros ?; cbv beta.
  eapply triple_bind.
  { apply (triple_modify _ unique_names). intros [? ? ? ? ? ? ?] _.
    apply NoDup_nil_2. }
  intros ?; cbv beta.
  eapply triple_bind; [apply store_relationships_unique|].
  intros ?; cbv beta.
  eapply triple_bind.
  { apply (triple_modify _ unique_names). now intros [? ? ? ? ? ? ?]. }
  intros ?; cbv beta.
  eapply triple_bind.
  { apply (triple_modify _ unique_names). now intros [? ? ? ? ? ? ?]. }
  intros ?; cbv beta.
  eapply triple_bind; [apply link_related_complete|].
  intros ?; cbv beta.
  eapply triple_bind; [apply link_included_complete|].
  intros []; cbv beta.
  apply triple_skip. auto.
Qed.

(** C6 (as amended).  For a name the ordinary lookup does not find (not a
    structural field, nothing of that name in the instance or on the class)
    and that is not a key of the attributes, a read returns the entry of
    the related cache under that name when there is one, null and
    unresolved placeholders included; when there is none the read raises
    AttributeError.  On an instance that [_overwrite] has just written
    without a [related] argument, as construction and [reload] do, the
    cache has an entry for every relationship that is None or singular, so
    the read returns None for the former and an instance that [new] built
    for the latter; it has none for a plural relationship, so there the
    read raises AttributeError. *)
Theorem C6_read_returns_related_entry (self : resource) (attr : string) :
  Resource.object_getattribute self attr
  = Raise (AttributeError (cls_name (cls self)) attr) ->
  Py.contains attr (attributes self) = Ok false ->
  (forall v, Dict.get attr (related self) = Some v ->
             Resource.getattr self attr = Ok (Resource.AValue v))
  /\ (Dict.get attr (related self) = None ->
      Resource.getattr self attr
      = Raise (AttributeError (cls_name (cls self)) attr))
  /\ (forall new1 a s0 u d,
         o_related a = None ->
         Resource._overwrite new1 a s0 = (Ok u, self) ->
         Dict.get attr (relationships self) = Some d ->
         plural d ->
         Resource.getattr self attr
         = Raise (AttributeError (cls_name (cls self)) attr))
  /\ (forall new1 a s0 u d,
         o_related a = None ->
         Resource._overwrite new1 a s0 = (Ok u, self) ->
         Dict.get attr (relationships self) = Some d ->
         (Py.is_none d = true ->
          Resource.getattr self attr = Ok (Resource.AValue (VJson JNull)))
         /\ (Py.is_none d = false ->
             Py.contains "data" d = Ok true ->
             exists src res,
               new1 src = Ok res
               /\ Dict.get attr (related self) = Some (VRes res)
               /\ Resource.getattr self attr
                  = Ok (Resource.AValue (VRes res)))).
Proof.
  intros Ho Ha.
  assert (Hnone : Dict.get attr (related self) = None ->
                  Resource.getattr self attr
                  = Raise (AttributeError (cls_name (cls self)) attr)).
  { unfold Resource.getattr. rewrite Ho.
    assert (Hs : structural_for_read attr = false).
    { unfold structural_for_read. simpl.
      unfold Resource.object_getattribute in Ho.
      repeat match type of Ho with
             | (if String.eqb attr ?n then _ else _) = _ =>
                 destruct (String.eqb attr n) eqn:?; [discriminate|]
             end.
      repeat match goal with
             | H : String.eqb attr _ = false |- _ => rewrite H; clear H
             end.
      reflexivity. }
    unfold Resource.__getattr__. unfold structural_for_read in Hs.
    rewrite Hs, Ha. simpl. intros ->. exact Ho. }
  assert (Hsome : forall v, Dict.get attr (related self) = Some v ->
                            Resource.getattr self attr
                            = Ok (Resource.AValue v)).
  { intros v Hv. unfold Resource.getattr. rewrite Ho.
    unfold Resource.__getattr__.
    destruct (existsb _ _) eqn:Hs.
    + unfold Resource.object_getattribute in Ho. simpl in Hs.
      repeat match type of Ho with
             | (if String.eqb attr ?n then _ else _) = _ =>
                 destruct (String.eqb attr n) eqn:?; [discriminate|]
             end.
      discriminate.
    + rewrite Ha. simpl. now rewrite Hv. }
  split; [|split; [|split]].
  - exact Hsome.
  - exact Hnone.
  - intros new1 a s0 u d Hrel Hov Hd Hp. apply Hnone.
    exact (overwrite_plural_uncached new1 a s0 u self attr d Hrel Hov Hd Hp).
  - intros new1 a s0 u d Hrel Hov Hd.
    destruct (overwrite_complete new1 a Hrel s0 u self I Hov) as [_ Hc].
    destruct (Hc attr d (get_in _ _ _ Hd)) as [H1 H2].
    split.
    + intros Hn. apply Hsome. now apply H1.
    + intros Hn Hs. destruct (H2 Hn Hs) as [src [res [Hnew Hg]]].
      exists src, res. split; [exact Hnew|]. split; [exact Hg|].
      now apply Hsome.
Qed.

Lemma C6_read_returns_related_entry_witness :
  exists src res,
    Resource.new1 Examples.reg 3 src = Ok res
    /\ Dict.get "parent" (related Examples.child) = Some (VRes res)
    /\ Resource.getattr Examples.child "parent"
       = Ok (Resource.AValue (VRes res)).
Proof.
  refine (proj2 (proj2 (proj2 (proj2
                    (C6_read_returns_related_entry Examples.child "parent"
                                                   eq_refl eq_refl)))
                  (Resource.new1 Examples.reg 3)
                  {| o_id := JStr "1";
                     o_attributes := JObj [("name", JStr "child 1")];
                     o_relationships :=
                       RelsJson (JObj (relationships Examples.child));
                     o_links := JNull; o_related := None; o_included := JNull;
                     o_type := JStr "children" |}
                  (Resource.blank Examples.Child) tt
                  _ eq_refl eq_refl eq_refl) eq_refl eq_refl).
Defined.

(** C6 as stated fails for a plural relationship that was not fetched:
    construction leaves no entry for it in the related cache, and the read
    raises AttributeError instead of returning an entry. *)
Lemma C6_counterexample :
  Resource.__init__ (Resource.new1 Examples.reg 3) Examples.Parent
                    Examples.parent1 no_args JNull
  = Ok Examples.full_parent
  /\ structural_for_read "children" = false
  /\ Py.contains "children" (attributes Examples.full_parent) = Ok false
  /\ Dict.has "children" (relationships Examples.full_parent) = true
  /\ Resource.getattr Examples.full_parent "children"
     = Raise (AttributeError "Parent" "children").
Proof. repeat split. Qed.

(** ** Construction and the included objects *)

(** C1, on the code: [reload] resolves the parent of child 1 from the
    [included] list of the response, with the one GET of the reload and no
    other request; [__init__], handed the very same document, unwraps
    [data], drops the sibling [included] list, and leaves a bare
    Parent(id="1") without attributes in the related cache. *)
Theorem C1_init_drops_included :
  Resource.new1 Examples.reg 3 Examples.parent1 = Ok Examples.full_parent
  /\ Resource.reload Examples.reg Examples.transport_included 3 None
                     Examples.bare_child []
     = (Ok tt, Examples.child_with_parent,
        [get_request (ItemUrl (Some "children") (JStr "1"))])
  /\ Dict.get "parent" (related Examples.child_with_parent)
     = Some (VRes Examples.full_parent)
  /\ Resource.__init__ (Resource.new1 Examples.reg 3) Examples.Child
                       Examples.child_envelope no_args JNull
     = Ok Examples.child
  /\ Dict.get "parent" (related Examples.child)
     = Some (VRes Examples.bare_parent)
  /\ attributes Examples.bare_parent = JObj []
  /\ Examples.bare_parent <> Examples.full_parent.
Proof. repeat split. discriminate. Qed.

(** * Further properties *)

(** ** The registry *)

(** X1.  Class statements keep the registry consistent: a class is
    registered under its own TYPE and under no other name; a class whose
    body binds no TYPE (or binds it to None) is not registered; a second
    class with the same TYPE replaces the first and leaves every other
    name alone. *)
Theorem X1_registry_declarations (reg : registry) (name : string)
        (base : klass) (dct : class_body) :
  let klass := fst (_JsonApiMeta.__new__ name base dct reg) in
  let reg' := snd (_JsonApiMeta.__new__ name base dct reg) in
  (registry_consistent reg -> registry_consistent reg')
  /\ (forall t, dct_TYPE dct = Some (Some t) ->
                 TYPE klass = Some t
                 /\ reg' !! t = Some klass
                 /\ forall t', t' <> t -> reg' !! t' = reg !! t')
  /\ (dct_TYPE dct = None \/ dct_TYPE dct = Some None -> reg' = reg).
Proof.
  unfold _JsonApiMeta.__new__. cbv zeta.
  split; [|split].
  - intros Hc. destruct (dct_TYPE dct) as [[t|]|] eqn:E; simpl; auto.
    intros t' k. rewrite lookup_insert. case_decide.
    + subst t'. intros [= <-]. simpl. now rewrite E.
    + apply Hc.
  - intros t E. rewrite E. simpl. rewrite E. split; [reflexivity|]. split.
    + apply lookup_insert_eq.
    + intros t' Hne. now apply lookup_insert_ne.
  - intros [E|E]; now rewrite E.
Qed.

Lemma X1_registry_declarations_witness :
  registry_consistent Examples.reg.
Proof.
  apply (proj1 (X1_registry_declarations
                  (snd (Examples.declare "Child" "children" ∅)) "Parent"
                  Resource_class
                  {| dct_TYPE := Some (Some "parents"); dct_EDITABLE := None;
                     dct_members := [] |})).
  apply (proj1 (X1_registry_declarations
                  ∅ "Child" Resource_class
                  {| dct_TYPE := Some (Some "children"); dct_EDITABLE := None;
                     dct_members := [] |})).
  intros t k H. rewrite lookup_empty in H. discriminate.
Defined.

Lemma examples_registry_consistent : registry_consistent Examples.reg.
Proof.
  intros t k. unfold Examples.reg, Examples.declare, _JsonApiMeta.__new__.
  simpl. rewrite !lookup_insert.
  repeat case_decide; subst; try (intros [= <-]; reflexivity);
    try (rewrite lookup_empty; discriminate).
Qed.

(** ** Encoding an instance and decoding it again *)

Lemma registry_get_type reg (o : option string) :
  Resource.registry_get reg (json_of_option o)
  = Ok (match o with
        | Some t => default Resource_class (reg !! t)
        | None => Resource_class
        end).
Proof. now destruct o. Qed.

(** X2.  [Resource.new] undoes [as_relationship] and
    [as_resource_identifier] as far as identity goes: from either encoding
    of an instance it builds a bare instance (the id, no attributes, no
    relationships, no links) of the class the registry holds for the
    instance's TYPE, and when the registry is consistent and that TYPE is
    registered (or the instance is generic) the result has the very
    resource identifier the instance has. *)
Theorem X2_new_decodes_identifier (reg : registry) (depth : nat) (p : resource) :
  let klass := match TYPE (cls p) with
               | Some t => default Resource_class (reg !! t)
               | None => Resource_class
               end in
  Resource.new reg (S (S depth)) (Resource.as_relationship p) JNull []
  = Ok (bare klass (id p))
  /\ Resource.new reg (S (S depth)) (Resource.as_resource_identifier p) JNull []
     = Ok (bare klass (id p))
  /\ (registry_consistent reg -> registered reg p ->
      Resource.as_resource_identifier (bare klass (id p))
      = Resource.as_resource_identifier p).
Proof.
  cbv zeta. split; [|split].
  - unfold Resource.as_relationship, Resource.as_resource_identifier.
    cbn -[Resource.registry_get Resource.__init__].
    rewrite registry_get_type. reflexivity.
  - unfold Resource.as_resource_identifier.
    cbn -[Resource.registry_get Resource.__init__].
    rewrite registry_get_type. reflexivity.
  - intros Hc Hr. unfold registered in Hr.
    unfold Resource.as_resource_identifier, bare. simpl.
    destruct (TYPE (cls p)) as [t|] eqn:E; [|reflexivity].
    destruct Hr as [k Hk]. rewrite Hk. simpl. now rewrite (Hc t k Hk).
Qed.

Lemma X2_new_decodes_identifier_witness :
  Resource.as_resource_identifier
    (bare (match TYPE (cls Examples.full_parent) with
           | Some t => default Resource_class (Examples.reg !! t)
           | None => Resource_class
           end) (id Examples.full_parent))
  = Resource.as_resource_identifier Examples.full_parent.
Proof.
  apply (proj2 (proj2 (X2_new_decodes_identifier Examples.reg 0
                                                 Examples.full_parent))).
  - apply examples_registry_consistent.
  - exists Examples.Parent. reflexivity.
Defined.


(** ** What construction leaves behind *)

Lemma is_none_true j : Py.is_none j = true -> j = JNull.
Proof. destruct j; simpl; congruence. Qed.

(** X3.  After a construction that was given no [related] value, the keys
    of the related cache are keys of the relationships, each of a null or
    singular relationship, and the relationships have one entry per
    name. *)
Theorem X3_cache_keys_are_singular_relationships
        (new1 : json -> result resource) (klass : klass) (data : json)
        (a : init_args) (type : json) (r : resource) :
  Resource.__init__ new1 klass data a type = Ok r ->
  (Py.is_none data = true -> a_related a = None) ->
  (forall d, Resource.unwrap data = Ok (JObj d) ->
             Dict.has "related" d = false) ->
  unique_names r
  /\ forall name v,
      Dict.get name (related r) = Some v ->
      exists d, Dict.get name (relationships r) = Some d /\ null_or_singular d.
Proof.
  intros Hinit Hkw Hdata.
  assert (K : forall args,
             o_related args = None ->
             match Resource._overwrite new1 args (Resource.blank klass) with
             | (Ok _, self') => Ok self'
             | (Raise e, _) => Raise e
             end = Ok r ->
             unique_names r
             /\ forall name v,
                 Dict.get name (related r) = Some v ->
                 exists d, Dict.get name (relationships r) = Some d
                           /\ null_or_singular d).
  { intros args Hrel.
    destruct (Resource._overwrite new1 args (Resource.blank klass))
      as [[u|e] s'] eqn:E; [|discriminate].
    intros [= ->].
    destruct (overwrite_cache new1 args Hrel _ _ _ I E) as [Hu Hc].
    split; [exact Hu|]. intros name v Hv.
    destruct (Hc name v Hv) as [d [Hin Hd]].
    exists d. split; [|exact Hd]. now apply in_get_nodup. }
  unfold Resource.__init__ in Hinit.
  destruct (_ && _); [discriminate|].
  destruct (Py.is_none data) eqn:Hn; simpl in Hinit.
  - refine (K _ _ Hinit). exact (Hkw eq_refl).
  - destruct (Resource.unwrap data) as [[| | | | |d]|] eqn:Hu; simpl in Hinit;
      try discriminate.
    destruct (overwrite_kwargs [] d overwrite_defaults) as [args|] eqn:Ea;
      simpl in Hinit; [|discriminate].
    destruct (overwrite_kwargs_keeps _ _ _ _ Ea) as [Hr _].
    apply (K args); [|exact Hinit].
    rewrite Hr; [reflexivity|]. now apply Hdata.
Qed.

Lemma X3_cache_keys_are_singular_relationships_witness :
  unique_names Examples.child
  /\ forall name v,
      Dict.get name (related Examples.child) = Some v ->
      exists d, Dict.get name (relationships Examples.child) = Some d
                /\ null_or_singular d.
Proof.
  apply (X3_cache_keys_are_singular_relationships
           (Resource.new1 Examples.reg 3) Examples.Child Examples.child1
           no_args JNull Examples.child).
  - reflexivity.
  - discriminate.
  - intros d [= <-]. reflexivity.
Defined.

(* the loops of _overwrite touch the relationships and the related cache
   and nothing else *)
Section Frames.
Variable Q : resource -> Prop.
Hypothesis Q_set_R : forall k v s, Q s -> Q (Resource.set_R k v s).
Hypothesis Q_set_r : forall k v s, Q s -> Q (Resource.set_r k v s).

Lemma store_relationships_frame r :
  triple Q (Resource.store_relationships r) (fun _ s => Q s).
Proof using Q_set_R.
  unfold Resource.store_relationships.
  destruct r as [[| | | | |d]|d]; try apply triple_raise; try apply triple_ret.
  - apply triple_for. intros kv _. apply triple_modify. intros s. apply Q_set_R.
  - apply triple_for. intros [k [r|j]] _; simpl; apply triple_modify;
      intros s; apply Q_set_R.
Qed.

Lemma link_related_frame new1 :
  triple Q (Resource.link_related new1) (fun _ s => Q s).
Proof using Q_set_r.
  unfold Resource.link_related.
  eapply triple_bind; [apply triple_get|]. intros s0. cbv beta.
  eapply (triple_weaken _ Q _ (fun _ s => Q s)); [|tauto|auto].
  apply triple_for. intros [name d] _. cbn [fst snd].
  destruct (Py.is_none d).
  - apply triple_modify. intros s. apply Q_set_r.
  - eapply triple_bind; [apply triple_lift|]. intros [|]; cbv beta.
    + eapply triple_bind; [apply triple_lift|]. intros res. cbv beta.
      apply triple_modify. intros s [_ [_ H]]. now apply Q_set_r.
    + apply triple_skip; intros; tauto.
Qed.

Lemma link_included_frame new1 included :
  triple Q (Resource.link_included new1 included) (fun _ s => Q s).
Proof using Q_set_r.
  unfold Resource.link_included.
  destruct (Py.is_none included); [apply triple_ret|].
  eapply triple_bind; [apply triple_lift|]. intros by_key. cbv beta.
  eapply triple_bind; [apply triple_get|]. intros s0. cbv beta.
  eapply (triple_weaken _ Q _ (fun _ s => Q s)); [|tauto|auto].
  apply triple_for. intros [name d] _.
  unfold Resource.link_included_one. cbn [fst snd].
  destruct (Py.is_none d); [apply triple_ret|].
  eapply triple_bind; [apply triple_lift|]. intros [|]; cbv beta; simpl.
  2:{ apply triple_skip; intros; tauto. }
  repeat (eapply triple_bind; [apply triple_lift|]; intros ?; cbv beta).
  destruct (Included.get _ _).
  - eapply triple_bind; [apply triple_lift|]. intros res. cbv beta.
    apply triple_modify. intros s H. apply Q_set_r. tauto.
  - apply triple_skip; intros; tauto.
Qed.
End Frames.

Lemma overwrite_fields new1 a c i :
  triple (fun s => cls s = c /\ instance_dict s = i)
         (Resource._overwrite new1 a)
         (fun _ s => (cls s = c /\ instance_dict s = i)
                     /\ id s = o_id a
                     /\ attributes s = or_empty (o_attributes a)
                     /\ links s = or_empty (o_links a)).
Proof.
  unfold Resource._overwrite.
  set (Q1 := fun s => (cls s = c /\ instance_dict s = i) /\ id s = o_id a).
  set (Q2 := fun s => Q1 s /\ attributes s = or_empty (o_attributes a)).
  set (Q3 := fun s => Q2 s /\ links s = or_empty (o_links a)).
  eapply triple_bind.
  { apply (triple_modify _ Q1). unfold Q1. now intros [? ? ? ? ? ? ?]. }
  intros ?; cbv beta.
  eapply triple_bind.
  { apply (triple_modify _ Q2). unfold Q2, Q1. now intros [? ? ? ? ? ? ?]. }
  intros ?; cbv beta.
  eapply triple_bind.
  { apply (triple_modify _ Q2). unfold Q2, Q1. now intros [? ? ? ? ? ? ?]. }
  intros ?; cbv beta.
  eapply triple_bind.
  { apply (store_relationships_frame Q2). unfold Q2, Q1.
    now intros ? ? [? ? ? ? ? ? ?]. }
  intros ?; cbv beta.
  eapply triple_bind.
  { apply (triple_modify _ Q3). unfold Q3, Q2, Q1. now intros [? ? ? ? ? ? ?]. }
  intros ?; cbv beta.
  eapply triple_bind.
  { apply (triple_modify _ Q3). unfold Q3, Q2, Q1. now intros [? ? ? ? ? ? ?]. }
  intros ?; cbv beta.
  eapply triple_bind.
  { apply (link_related_frame Q3). unfold Q3, Q2, Q1.
    now intros ? ? [? ? ? ? ? ? ?]. }
  intros ?; cbv beta.
  eapply triple_bind.
  { apply (link_included_frame Q3). unfold Q3, Q2, Q1.
    now intros ? ? [? ? ? ? ? ? ?]. }
  intros ?; cbv beta.
  destruct (o_related a).
  - eapply triple_weaken.
    + apply (triple_modify Q3 Q3). unfold Q3, Q2, Q1. now intros [? ? ? ? ? ? ?].
    + auto.
    + unfold Q3, Q2, Q1. cbv beta. tauto.
  - apply triple_skip. unfold Q3, Q2, Q1. tauto.
Qed.

Lemma or_empty_not_none j : or_empty j <> JNull.
Proof. unfold or_empty. destruct j; simpl; discriminate. Qed.

(** X4.  [_overwrite] overwrites, it does not merge: when it returns, the
    id is the one given, the attributes and the links are the ones given,
    or an empty dictionary where none were given, and never None, whatever
    the instance held before; the class and the ordinary fields of the
    instance are left alone. *)
Theorem X4_overwrite_replaces_fields
        (new1 : json -> result resource) (a : overwrite_args)
        (s s' : resource) (u : unit) :
  Resource._overwrite new1 a s = (Ok u, s') ->
  id s' = o_id a
  /\ attributes s' = or_empty (o_attributes a)
  /\ links s' = or_empty (o_links a)
  /\ attributes s' <> JNull /\ links s' <> JNull
  /\ cls s' = cls s /\ instance_dict s' = instance_dict s.
Proof.
  intros E.
  destruct (overwrite_fields new1 a (cls s) (instance_dict s) s u s'
                             (conj eq_refl eq_refl) E)
    as [[Hc Hi] [Hid [Ha Hl]]].
  repeat split; auto.
  - rewrite Ha. apply or_empty_not_none.
  - rewrite Hl. apply or_empty_not_none.
Qed.

Lemma X4_overwrite_replaces_fields_witness :
  id Examples.child_with_parent = JStr "1"
  /\ attributes Examples.child_with_parent
     = or_empty (JObj [("name", JStr "child 1")])
  /\ links Examples.child_with_parent = or_empty JNull
  /\ attributes Examples.child_with_parent <> JNull
  /\ links Examples.child_with_parent <> JNull
  /\ cls Examples.child_with_parent = cls Examples.child
  /\ instance_dict Examples.child_with_parent = instance_dict Examples.child.
Proof.
  apply (X4_overwrite_replaces_fields
           (Resource.new1 Examples.reg 3)
           {| o_id := JStr "1";
              o_attributes := JObj [("name", JStr "child 1")];
              o_relationships := RelsJson (JObj (relationships Examples.child));
              o_links := JNull; o_related := None;
              o_included := JArr [Examples.parent1]; o_type := JNull |}
           Examples.child Examples.child_with_parent tt).
  reflexivity.
Defined.


(** ** Writing attributes and singular relationships *)

Lemma lookup_fails_not_structural self attr e :
  Resource.object_getattribute self attr = Raise e ->
  structural_for_read attr = false.
Proof.
  intros Ho. unfold structural_for_read. simpl.
  unfold Resource.object_getattribute in Ho.
  repeat match type of Ho with
         | (if String.eqb attr ?n then _ else _) = _ =>
             destruct (String.eqb attr n) eqn:?; [discriminate|]
         end.
  repeat match goal with
         | H : String.eqb attr _ = false |- _ => rewrite H; clear H
         end.
  reflexivity.
Qed.

(* the ordinary lookup of a name that is not structural sees the class and
   the instance's own fields only *)
Lemma object_getattribute_frame s1 s2 attr :
  structural_for_read attr = false ->
  cls s1 = cls s2 -> instance_dict s1 = instance_dict s2 ->
  Resource.object_getattribute s1 attr = Resource.object_getattribute s2 attr.
Proof.
  unfold structural_for_read. simpl. intros Hs Hc Hi.
  unfold Resource.object_getattribute.
  repeat match type of Hs with
         | (String.eqb attr ?n || _) = false =>
             apply orb_false_iff in Hs as [? Hs]
         end.
  repeat match goal with
         | H : String.eqb attr _ = false |- _ => rewrite H; clear H
         end.
  now rewrite Hc, Hi.
Qed.

(** X5.  Assigning to a name that is a key of the attributes stores the
    value there and touches neither the relationships nor the related
    cache.  Reading the name back yields the value just written when the
    ordinary lookup does not know the name; when the class has a member of
    that name (an attribute called [save], say) the write still lands in
    the attributes, but the read returns the member. *)
Theorem X5_attribute_write_then_read
        (reg : registry) (depth : nat) (self : resource) (attr : string)
        (j : json) (a : dict json) :
  structural_for_write attr = false ->
  attributes self = JObj a ->
  Dict.has attr a = true ->
  let self' := set_attributes (JObj (Dict.set attr j a)) self in
  Resource.__setattr__ reg depth attr (IJson j) self = (Ok tt, self')
  /\ relationships self' = relationships self
  /\ related self' = related self
  /\ (Resource.object_getattribute self attr
      = Raise (AttributeError (cls_name (cls self)) attr) ->
      Resource.getattr self' attr = Ok (Resource.AValue (VJson j)))
  /\ (structural_for_read attr = false ->
      Dict.get attr (instance_dict self) = None ->
      existsb (String.eqb attr)
              (cls_members (cls self) ++ Resource.Resource_members) = true ->
      Resource.getattr self' attr = Ok (Resource.AMember attr)).
Proof.
  intros Hs Ha Hin. cbv zeta.
  assert (Hc : cls (set_attributes (JObj (Dict.set attr j a)) self) = cls self)
    by now destruct self.
  assert (Hi : instance_dict (set_attributes (JObj (Dict.set attr j a)) self)
               = instance_dict self) by now destruct self.
  split; [|split; [|split; [|split]]].
  - unfold Resource.__setattr__. unfold structural_for_write in Hs. rewrite Hs.
    unfold mbind, mget, mlift, mmodify. rewrite Ha. simpl. now rewrite Hin.
  - now destruct self.
  - now destruct self.
  - intros Ho. pose proof (lookup_fails_not_structural _ _ _ Ho) as Hr.
    unfold Resource.getattr.
    rewrite (object_getattribute_frame _ self attr Hr Hc Hi), Ho.
    unfold Resource.__getattr__. unfold structural_for_read in Hr. rewrite Hr.
    replace (attributes (set_attributes (JObj (Dict.set attr j a)) self))
      with (JObj (Dict.set attr j a)) by now destruct self.
    simpl. unfold Dict.has. now rewrite !get_set_eq.
  - intros Hr Hd Hm. unfold Resource.getattr.
    rewrite (object_getattribute_frame _ self attr Hr Hc Hi).
    unfold Resource.object_getattribute.
    unfold structural_for_read in Hr. simpl in Hr.
    repeat match type of Hr with
           | (String.eqb attr ?n || _) = false =>
               apply orb_false_iff in Hr as [? Hr]
           end.
    repeat match goal with
           | H : String.eqb attr _ = false |- _ => rewrite H; clear H
           end.
    now rewrite Hd, Hm.
Qed.

Lemma X5_attribute_write_then_read_witness :
  Resource.getattr
    (set_attributes (JObj (Dict.set "name" (JStr "Billy")
                                    [("name", JStr "child 1")]))
                    Examples.child) "name"
  = Ok (Resource.AValue (VJson (JStr "Billy"))).
Proof.
  apply (proj1 (proj2 (proj2 (proj2
           (X5_attribute_write_then_read
              Examples.reg 3 Examples.child "name" (JStr "Billy")
              [("name", JStr "child 1")] eq_refl eq_refl eq_refl))))).
  reflexivity.
Defined.

(** X6.  Assigning to a null or singular relationship replaces its
    descriptor by the bare [{'data': identifier}] of the normalised value and
    puts the value in the related cache.  The descriptor's links go with
    the old descriptor: a later [change] of that relationship, like any
    edit through its [self] link, raises KeyError('links') and sends
    nothing. *)
Theorem X6_singular_assignment_drops_links
        (reg : registry) (transport : list request -> request -> result json)
        (depth : nat) (self : resource) (attr : string) (value : item)
        (v : resource) (d : json) :
  structural_for_write attr = false ->
  Py.contains attr (attributes self) = Ok false ->
  Dict.get attr (relationships self) = Some d ->
  null_or_singular d ->
  Resource.as_resource reg depth value = IRes v ->
  let out := Resource.__setattr__ reg depth attr value self in
  fst out = Ok tt
  /\ Dict.get attr (relationships (snd out)) = Some (Resource.as_relationship v)
  /\ Dict.get attr (related (snd out)) = Some (VRes v)
  /\ attributes (snd out) = attributes self
  /\ (forall method x log,
         Resource._edit_relationship transport method attr x (snd out) log
         = (Raise (KeyError "links"), snd out, log))
  /\ (forall depth' w log,
         Resource.change reg transport depth' attr (IRes w) (snd out) log
         = (Raise (KeyError "links"), snd out, log)).
Proof.
  intros Hs Ha Hd Hsing Hv. cbv zeta.
  assert (E : Resource.__setattr__ reg depth attr value self
              = (Ok tt, Resource.set_r attr (VRes v)
                          (Resource.set_R attr (Resource.as_relationship v) self))).
  { unfold Resource.__setattr__. unfold structural_for_write in Hs. rewrite Hs.
    unfold mbind, mget, mlift, mmodify. rewrite Ha. simpl. rewrite Hd.
    destruct Hsing as [Hn|Hc].
    - rewrite Hn. simpl. now rewrite Hv.
    - destruct (Py.is_none d); simpl.
      + now rewrite Hv.
      + rewrite Hc. simpl. now rewrite Hv. }
  rewrite E. cbn [fst snd].
  assert (HR : Dict.get attr
                 (relationships
                    (Resource.set_r attr (VRes v)
                       (Resource.set_R attr (Resource.as_relationship v) self)))
               = Some (Resource.as_relationship v)).
  { rewrite relationships_set_r, relationships_set_R. apply get_set_eq. }
  assert (Hedit : forall method x log,
             Resource._edit_relationship
               transport method attr x
               (Resource.set_r attr (VRes v)
                  (Resource.set_R attr (Resource.as_relationship v) self)) log
             = (Raise (KeyError "links"),
                Resource.set_r attr (VRes v)
                  (Resource.set_R attr (Resource.as_relationship v) self), log)).
  { intros method x log.
    unfold Resource._edit_relationship, obind, oget, olift. now rewrite HR. }
  split; [reflexivity|]. split; [exact HR|]. split.
  { rewrite related_set_r. apply get_set_eq. }
  split; [now destruct self|]. split; [exact Hedit|].
  intros depth' w log. unfold Resource.change. simpl. unfold obind.
  now rewrite Hedit.
Qed.

Lemma X6_singular_assignment_drops_links_witness :
  Resource.change Examples.reg Examples.transport 3 "parent"
                  (IRes Examples.full_parent)
                  (snd (Resource.__setattr__ Examples.reg 3 "parent"
                                             (IRes Examples.full_parent)
                                             Examples.child)) []
  = (Raise (KeyError "links"),
     snd (Resource.__setattr__ Examples.reg 3 "parent"
                               (IRes Examples.full_parent) Examples.child),
     []).
Proof.
  apply (proj2 (proj2 (proj2 (proj2 (proj2
           (X6_singular_assignment_drops_links
              Examples.reg Examples.transport 3 Examples.child "parent"
              (IRes Examples.full_parent) Examples.full_parent _
              eq_refl eq_refl eq_refl (or_intror eq_refl) eq_refl)))))).
Defined.

(** ** Changing a singular relationship *)

Lemma related_set_R_eq k v s :
  related (Resource.set_R k v s) = related s.
Proof. now destruct s. Qed.

(** X7.  [change] sends one PATCH with the identifier of the normalised
    value to the relationship's [self] link.  If the Transport raises,
    the instance is as it was.  If it answers, the descriptor has the new
    identifier under 'data' and still has its links, and the related cache
    holds the value, or keeps the instance it held when that one already
    equals the value. *)
Theorem X7_change_propagates
        (reg : registry) (transport : list request -> request -> result json)
        (depth : nat) (self : resource) (field : string) (value : item)
        (v cached : resource) (d : dict json) (lnks u : json)
        (log : list request) :
  Resource.as_resource reg depth value = IRes v ->
  Dict.get field (relationships self) = Some (JObj d) ->
  Dict.get "links" d = Some lnks ->
  Py.getitem lnks "self" = Ok u ->
  Dict.get field (related self) = Some (VRes cached) ->
  let rq := edit_request PATCH u (Resource.as_resource_identifier v) in
  let out := Resource.change reg transport depth field value self log in
  snd out = log ++ [rq]
  /\ (forall e, transport log rq = Raise e -> out = (Raise e, self, log ++ [rq]))
  /\ (forall body,
         transport log rq = Ok body ->
         let self' := snd (fst out) in
         fst (fst out) = Ok tt
         /\ Dict.get field (relationships self')
            = Some (JObj (Dict.set "data" (Resource.as_resource_identifier v) d))
         /\ Dict.get "links"
                     (Dict.set "data" (Resource.as_resource_identifier v) d)
            = Some lnks
         /\ (Dict.get field (related self') = Some (VRes v)
             \/ (Dict.get field (related self') = Some (VRes cached)
                 /\ Resource.__eq__ reg depth cached (IRes v) = Ok true))).
Proof.
  intros Hv Hd Hl Hu Hc. cbv zeta.
  unfold Resource.change. rewrite Hv.
  unfold Resource._edit_relationship, Resource._jsonapi_request, obind, oget,
    olift, omodify, oret, oraise.
  rewrite Hd. simpl. rewrite Hl, Hu.
  fold (edit_request PATCH u (Resource.as_resource_identifier v)).
  destruct (transport log (edit_request PATCH u (Resource.as_resource_identifier v)))
    as [body|e] eqn:T.
  - rewrite Hd. simpl. rewrite Hc.
    unfold Resource.differs, Resource.__eq__, Resource.identifier_of.
    cbn [Resource.as_resource rbind].
    split.
    + now destruct (Py.eq _ _).
    + split; [discriminate|]. intros body' _.
      destruct (Py.eq (Resource.as_resource_identifier cached)
                      (Resource.as_resource_identifier v)) eqn:Heq; simpl.
      * split; [reflexivity|]. split; [apply get_set_eq|].
        split; [now rewrite get_set_ne by discriminate|].
        right. split; [exact Hc|reflexivity].
      * split; [reflexivity|].
        rewrite ?relationships_set_r, ?relationships_set_R, ?related_set_r.
        split; [apply get_set_eq|].
        split; [now rewrite get_set_ne by discriminate|].
        left. apply get_set_eq.
  - split; [reflexivity|]. split.
    + intros e' [= <-]. reflexivity.
    + discriminate.
Qed.


Lemma X7_change_propagates_witness :
  snd (Resource.change Examples.reg Examples.transport 3 "parent"
                       (IRes (bare Examples.Parent (JStr "2")))
                       Examples.child [])
  = [] ++ [edit_request PATCH (JStr "/children/1/relationships/parent")
                        (Resource.as_resource_identifier
                           (bare Examples.Parent (JStr "2")))].
Proof.
  apply (proj1 (X7_change_propagates
                  Examples.reg Examples.transport 3 Examples.child "parent"
                  (IRes (bare Examples.Parent (JStr "2")))
                  (bare Examples.Parent (JStr "2")) Examples.bare_parent
                  _ _ _ [] eq_refl eq_refl eq_refl eq_refl eq_refl)).
Defined.

(** ** Creating and deleting *)

Lemma save_new_log reg transport depth fields self log :
  Py.truth (id self) = false ->
  snd (Resource.save reg transport depth fields self log)
  = log ++ [create_request self].
Proof.
  intros Hid.
  unfold Resource.save, Resource._save_new, Resource._jsonapi_request,
    obind, oget, olift, oraise, omethod.
  rewrite Hid. fold (create_request self).
  destruct (transport log (create_request self)) as [body|]; [|reflexivity].
  destruct (Py.getitem body "data") as [data|]; [|reflexivity].
  destruct (Resource.reconcile_related _ _ _ _ _); [|reflexivity].
  destruct data; try reflexivity.
  destruct (overwrite_kwargs _ _ _); [|reflexivity].
  now destruct (Resource._overwrite _ _ _).
Qed.

Lemma full_payload_no_id self :
  Dict.get "id" (Resource.full_payload
                   self [("type", json_of_option (TYPE (cls self)))]) = None
  /\ Dict.get "type" (Resource.full_payload
                        self [("type", json_of_option (TYPE (cls self)))])
     = Some (json_of_option (TYPE (cls self))).
Proof.
  unfold Resource.full_payload.
  destruct (Py.truth (attributes self)), (relationships self); now cbn.
Qed.

(** X8.  [save] on an instance whose id is falsy (None, but also the empty
    string or 0) creates: whatever field names it was given, it sends one
    POST to the collection of the instance's TYPE, with a resource object
    that has the type, no id, and all the attributes and relationships
    that are set. *)
Theorem X8_save_without_id_creates
        (reg : registry) (transport : list request -> request -> result json)
        (depth : nat) (fields : list string) (self : resource)
        (log : list request) :
  Py.truth (id self) = false ->
  let payload := Resource.full_payload
                   self [("type", json_of_option (TYPE (cls self)))] in
  snd (Resource.save reg transport depth fields self log)
  = log ++ [{| rq_method := POST; rq_url := CollectionUrl (TYPE (cls self));
               rq_json := Some (JObj [("data", JObj payload)]);
               rq_params := None; rq_bulk := false |}]
  /\ Dict.get "id" payload = None
  /\ Dict.get "type" payload = Some (json_of_option (TYPE (cls self)))
  /\ (forall a, attributes self = JObj a ->
                forall f, In f (transmitted_fields payload)
                          <-> In f (Dict.keys a ++ Dict.keys (relationships self))).
Proof.
  intros Hid. cbv zeta. split; [now apply save_new_log|].
  destruct (full_payload_no_id self) as [H1 H2].
  split; [exact H1|]. split; [exact H2|].
  intros a Ha f. unfold Resource.full_payload. rewrite Ha.
  destruct a as [|[k v] a], (relationships self) as [|[k' v'] R];
    cbn; reflexivity.
Qed.

Lemma X8_save_without_id_creates_witness :
  snd (Resource.save Examples.reg Examples.transport 3 ["name"]
                     (set_id (JStr "") Examples.child) [])
  = [] ++ [{| rq_method := POST; rq_url := CollectionUrl (Some "children");
              rq_json :=
                Some (JObj [("data",
                             JObj (Resource.full_payload
                                     (set_id (JStr "") Examples.child)
                                     [("type", JStr "children")]))]);
              rq_params := None; rq_bulk := false |}].
Proof.
  apply (proj1 (X8_save_without_id_creates
                  Examples.reg Examples.transport 3 ["name"]
                  (set_id (JStr "") Examples.child) [] eq_refl)).
Defined.

(** X9.  [delete] sends one DELETE to the instance's URL.  If the
    Transport raises, the instance keeps its id; if it answers, the id is
    None and nothing else has changed, so that a later [save] sends a POST
    and creates the record again. *)
Theorem X9_delete_clears_id
        (reg : registry) (transport : list request -> request -> result json)
        (self : resource) (log : list request) (u : url) :
  Resource._get_url self = Ok u ->
  (forall e, transport log (delete_request u) = Raise e ->
             Resource.delete transport self log
             = (Raise e, self, log ++ [delete_request u]))
  /\ (forall body,
         transport log (delete_request u) = Ok body ->
         Resource.delete transport self log
         = (Ok tt, set_id JNull self, log ++ [delete_request u])
         /\ attributes (set_id JNull self) = attributes self
         /\ relationships (set_id JNull self) = relationships self
         /\ related (set_id JNull self) = related self
         /\ forall depth fields log',
             snd (Resource.save reg transport depth fields
                                (set_id JNull self) log')
             = log' ++ [create_request (set_id JNull self)]).
Proof.
  intros Hu.
  unfold Resource.delete, Resource._jsonapi_request, obind, oget, olift, omodify.
  rewrite Hu. fold (delete_request u). split.
  - intros e ->. reflexivity.
  - intros body ->. split; [reflexivity|].
    repeat split; try now destruct self.
    intros depth fields log'. apply save_new_log. now destruct self.
Qed.

Lemma X9_delete_clears_id_witness :
  Resource.delete Examples.transport Examples.child []
  = (Ok tt, set_id JNull Examples.child,
     [] ++ [delete_request (ItemUrl (Some "children") (JStr "1"))]).
Proof.
  apply (proj1 (proj2 (X9_delete_clears_id
                         Examples.reg Examples.transport Examples.child []
                         (ItemUrl (Some "children") (JStr "1")) eq_refl)
                      (JObj [("data", Examples.child1)]) eq_refl)).
Defined.

(** ** What [save] does to the related cache *)

Lemma get_del {V} k k' (d : dict V) :
  Dict.get k (Dict.del k' d)
  = if String.eqb k k' then None else Dict.get k d.
Proof.
  induction d as [|[k0 v0] t IH]; simpl.
  - now destruct (String.eqb k k').
  - destruct (String.eqb k' k0) eqn:E0.
    + apply String.eqb_eq in E0. subst k0. rewrite IH.
      now destruct (String.eqb k k').
    + simpl. rewrite IH. destruct (String.eqb k k') eqn:E; [|reflexivity].
      apply String.eqb_eq in E. subst k'. now rewrite E0.
Qed.

Lemma keys_del {V} k (d : dict V) f :
  In f (Dict.keys (Dict.del k d)) -> In f (Dict.keys d).
Proof.
  unfold Dict.keys. induction d as [|[k0 v0] t IH]; simpl; [tauto|].
  destruct (String.eqb k k0); simpl; tauto.
Qed.

Lemma nodup_keys_del {V} k (d : dict V) :
  NoDup (Dict.keys d) -> NoDup (Dict.keys (Dict.del k d)).
Proof.
  unfold Dict.keys. induction d as [|[k0 v0] t IH]; simpl; intros H; [exact H|].
  apply NoDup_cons in H as [Hn Ht].
  destruct (String.eqb k k0); simpl; [auto|].
  apply NoDup_cons. split; [|auto].
  intros Hin. apply Hn, list_elem_of_In. apply list_elem_of_In in Hin.
  exact (keys_del k t k0 Hin).
Qed.

Lemma get_none_not_key {V} k (d : dict V) :
  ~ In k (Dict.keys d) -> Dict.get k d = None.
Proof.
  intros H. destruct (Dict.get k d) eqn:E; [|reflexivity].
  exfalso. apply H, has_keys. unfold Dict.has. now rewrite E.
Qed.

(* d.update(other), read back *)
Lemma get_update {V} k (d other : dict V) :
  NoDup (Dict.keys other) ->
  Dict.get k (Dict.update d other)
  = match Dict.get k other with
    | Some v => Some v
    | None => Dict.get k d
    end.
Proof.
  unfold Dict.update. revert d.
  induction other as [|[k0 v0] t IH]; intros d H; simpl; [reflexivity|].
  apply NoDup_cons in H as [Hn Ht]. rewrite (IH _ Ht). cbn [fst snd].
  destruct (String.eqb k k0) eqn:E.
  - apply String.eqb_eq in E. subst k0.
    rewrite (get_none_not_key k t), get_set_eq; [reflexivity|].
    intros Hin. apply Hn, list_elem_of_In, Hin.
  - destruct (Dict.get k t); [reflexivity|].
    apply String.eqb_neq in E. now apply get_set_ne.
Qed.

Lemma reconcile_nodup reg depth data entries :
  forall acc rel',
    Resource.reconcile_related reg depth data entries acc = Ok rel' ->
    NoDup (Dict.keys acc) -> NoDup (Dict.keys rel').
Proof.
  induction entries as [|[n0 v0] rest IH]; intros acc rel'; simpl.
  - now intros [= <-].
  - destruct v0 as [j|c|q]; [| |apply IH];
      (destruct (negb (Py.eq _ _)); [|apply IH]);
      (destruct (negb (Py.is_none _));
       [|intros H Hn; apply (IH _ _ H); now apply nodup_keys_del]);
      (match goal with
       | |- rbind ?c _ = _ -> _ => destruct c; simpl; [|discriminate]
       end);
      (destruct (Resource.new1 reg depth _); simpl; [|discriminate]);
      intros H Hn; apply (IH _ _ H); now apply nodup_keys_set.
Qed.

Lemma reconcile_entry reg depth data entries :
  NoDup (Dict.keys entries) ->
  forall acc rel',
    Resource.reconcile_related reg depth data entries acc = Ok rel' ->
    forall name,
      reconciled (Resource.new1 reg depth) data name
                 (Dict.get name entries) (Dict.get name acc)
                 (Dict.get name rel').
Proof.
  induction entries as [|[n0 v0] rest IH]; intros Hnd acc rel'.
  - simpl. intros [= <-] name. reflexivity.
  - unfold Dict.keys in Hnd. simpl in Hnd.
    apply NoDup_cons in Hnd as [Hfresh Hnd].
    assert (Hrest : Dict.get n0 rest = None).
    { apply get_none_not_key. intros Hin. apply Hfresh, list_elem_of_In, Hin. }
    (* how the rest of the loop treats this entry and the others *)
    assert (Step : forall acc',
               Resource.reconcile_related reg depth data rest acc' = Ok rel' ->
               (forall name, name <> n0 ->
                             Dict.get name acc' = Dict.get name acc) ->
               reconciled (Resource.new1 reg depth) data n0 (Some v0)
                          (Dict.get n0 acc) (Dict.get n0 acc') ->
               forall name,
                 reconciled (Resource.new1 reg depth) data name
                            (Dict.get name ((n0, v0) :: rest))
                            (Dict.get name acc) (Dict.get name rel')).
    { intros acc' Hrec Hother Hown name.
      pose proof (IH Hnd acc' rel' Hrec name) as Hname.
      change (Dict.get name ((n0, v0) :: rest))
        with (if String.eqb name n0 then Some v0 else Dict.get name rest).
      destruct (String.eqb name n0) eqn:E.
      - apply String.eqb_eq in E. subst name.
        rewrite Hrest in Hname. simpl in Hname. now rewrite Hname.
      - apply String.eqb_neq in E. now rewrite <- (Hother name E). }
    cbn [Resource.reconcile_related].
    destruct v0 as [j|c|q].
    + fold (response_descriptor data n0). fold (response_id data n0).
      destruct (Py.eq JNull (response_id data n0)) eqn:Heq; cbn [negb].
      * intros H. apply (Step acc H); [reflexivity|].
        unfold reconciled, cached_id. now rewrite Heq.
      * destruct (Py.is_none (response_id data n0)) eqn:Hn; cbn [negb].
        -- intros H. apply (Step _ H).
           ++ intros name Hne. rewrite get_del.
              apply String.eqb_neq in Hne. now rewrite Hne.
           ++ unfold reconciled, cached_id. rewrite Heq, Hn, get_del.
              now rewrite String.eqb_refl.
        -- destruct (response_descriptor data n0) as [d|] eqn:Hd; simpl;
             [|discriminate].
           destruct (Resource.new1 reg depth d) as [res|] eqn:Hres; simpl;
             [|discriminate].
           intros H. apply (Step _ H).
           ++ intros name Hne. now apply get_set_ne.
           ++ unfold reconciled, cached_id. rewrite Heq, Hn, get_set_eq.
              exists d, res. auto.
    + fold (response_descriptor data n0). fold (response_id data n0).
      destruct (Py.eq (id c) (response_id data n0)) eqn:Heq; cbn [negb].
      * intros H. apply (Step acc H); [reflexivity|].
        unfold reconciled, cached_id. now rewrite Heq.
      * destruct (Py.is_none (response_id data n0)) eqn:Hn; cbn [negb].
        -- intros H. apply (Step _ H).
           ++ intros name Hne. rewrite get_del.
              apply String.eqb_neq in Hne. now rewrite Hne.
           ++ unfold reconciled, cached_id. rewrite Heq, Hn, get_del.
              now rewrite String.eqb_refl.
        -- destruct (response_descriptor data n0) as [d|] eqn:Hd; simpl;
             [|discriminate].
           destruct (Resource.new1 reg depth d) as [res|] eqn:Hres; simpl;
             [|discriminate].
           intros H. apply (Step _ H).
           ++ intros name Hne. now apply get_set_ne.
           ++ unfold reconciled, cached_id. rewrite Heq, Hn, get_set_eq.
              exists d, res. auto.
    + intros H. apply (Step acc H); reflexivity.
Qed.

Lemma overwrite_kwargs_keeps_related passed d :
  In "related" passed ->
  forall acc args,
    overwrite_kwargs passed d acc = Ok args -> o_related args = o_related acc.
Proof.
  intros Hin. induction d as [|[k v] t IH]; intros acc args; simpl.
  - now intros [= <-].
  - destruct (existsb (String.eqb k) passed) eqn:Hp; [discriminate|].
    assert (Hk : String.eqb k "related" = false).
    { destruct (String.eqb k "related") eqn:E; [|reflexivity].
      apply String.eqb_eq in E. subst k.
      assert (existsb (String.eqb "related") passed = true).
      { apply existsb_exists. exists "related". split; [assumption|].
        apply String.eqb_refl. }
      congruence. }
    rewrite Hk.
    repeat match goal with
           | |- (if String.eqb k ?n then _ else _) = _ -> _ =>
               destruct (String.eqb k n) eqn:?
           end;
      try discriminate;
      intros H; apply IH in H; exact H.
Qed.

(* the last statement of _overwrite: self.r.update(related) *)
Lemma overwrite_updates_related new1 a rel s u s' :
  o_related a = Some rel ->
  Resource._overwrite new1 a s = (Ok u, s') ->
  exists r0, related s' = Dict.update r0 rel.
Proof.
  intros Hrel E.
  assert (T : triple (fun _ => True) (Resource._overwrite new1 a)
                     (fun _ st => exists r0, related st = Dict.update r0 rel)).
  { unfold Resource._overwrite. rewrite Hrel.
    repeat (eapply triple_bind;
            [first [ apply (triple_modify _ (fun _ => True)); auto
                   | apply (store_relationships_frame (fun _ => True)); auto
                   | apply (link_related_frame (fun _ => True)); auto
                   | apply (link_included_frame (fun _ => True)); auto ]
            |intros ?; cbv beta]).
    apply triple_modify. intros st _. exists (related st). now destruct st. }
  exact (T s u s' I E).
Qed.

(* a successful save, step by step *)
Lemma save_steps reg transport depth fields self log s' log' :
  Resource.save reg transport depth fields self log = (Ok tt, s', log') ->
  exists rq body d rel' args,
    log' = log ++ [rq]
    /\ transport log rq = Ok body
    /\ Py.getitem body "data" = Ok (JObj d)
    /\ Resource.reconcile_related reg depth (JObj d) (related self)
                                  (related self) = Ok rel'
    /\ o_related args = Some rel'
    /\ Resource._overwrite (Resource.new1 reg depth) args self = (Ok tt, s').
Proof.
  unfold Resource.save, obind, oget, olift, oraise, omethod.
  destruct (Py.truth (id self));
    [unfold Resource._save_existing, Resource._jsonapi_request, obind, oget,
       olift;
     destruct (Resource.existing_payload self fields); [|discriminate];
     destruct (Resource._get_url self); [|discriminate]
    |unfold Resource._save_new, Resource._jsonapi_request, obind, oget];
    (match goal with
     | |- context [transport log ?r] =>
         destruct (transport log r) as [body|] eqn:T; [|discriminate];
         destruct (Py.getitem body "data") as [data|] eqn:D; [|discriminate];
         destruct (Resource.reconcile_related reg depth data (related self)
                                              (related self))
           as [rel'|] eqn:R; [|discriminate];
         destruct data as [| | | | |d]; try discriminate;
         destruct (overwrite_kwargs ["related"] d _) as [args|] eqn:A;
           [|discriminate];
         destruct (Resource._overwrite (Resource.new1 reg depth) args self)
           as [[[]|] s1] eqn:O; [|discriminate];
         intros [= <- <-];
         exists r, body, d, rel', args; repeat split; auto;
         now rewrite (overwrite_kwargs_keeps_related
                        ["related"] d (or_introl eq_refl) _ _ A)
     end).
Qed.

(** X10.  A [save] that returns reconciles the related cache with the
    response, and does so with the one request of the save.  An entry
    that is a Queryset, or whose id the response repeats under
    relationships[name].data.id, is kept as it is, fetched fields and all;
    an entry whose id the response changed to another non-null id is
    replaced by the instance [new] builds from the descriptor of the
    response. *)
Theorem X10_save_reconciles_related_cache
        (reg : registry) (transport : list request -> request -> result json)
        (depth : nat) (fields : list string) (self s' : resource)
        (log log' : list request) :
  NoDup (Dict.keys (related self)) ->
  Resource.save reg transport depth fields self log = (Ok tt, s', log') ->
  exists rq body data,
    log' = log ++ [rq]
    /\ transport log rq = Ok body
    /\ Py.getitem body "data" = Ok data
    /\ forall name v,
        Dict.get name (related self) = Some v ->
        ((Resource.is_plural_fetched (Some v) = true
          \/ Py.eq (cached_id v) (response_id data name) = true) ->
         Dict.get name (related s') = Some v)
        /\ (Resource.is_plural_fetched (Some v) = false ->
            Py.eq (cached_id v) (response_id data name) = false ->
            Py.is_none (response_id data name) = false ->
            exists d res,
              response_descriptor data name = Ok d
              /\ Resource.new1 reg depth d = Ok res
              /\ Dict.get name (related s') = Some (VRes res)).
Proof.
  intros Hnd Hsave.
  destruct (save_steps _ _ _ _ _ _ _ _ Hsave)
    as [rq [body [d [rel' [args [Hlog [Ht [Hd [Hrec [Hrel Hov]]]]]]]]]].
  exists rq, body, (JObj d). repeat split; auto.
  - intros Hkept.
    destruct (overwrite_updates_related _ _ _ _ _ _ Hrel Hov) as [r0 Hr0].
    pose proof (reconcile_entry reg depth (JObj d) (related self) Hnd
                                _ _ Hrec name) as Hname.
    rewrite H in Hname. unfold reconciled in Hname.
    rewrite Hr0, get_update by (eapply reconcile_nodup; eauto).
    destruct v as [j|c|q].
    + destruct Hkept as [Hq|He]; [discriminate|].
      rewrite He in Hname. now rewrite Hname.
    + destruct Hkept as [Hq|He]; [discriminate|].
      rewrite He in Hname. now rewrite Hname.
    + now rewrite Hname.
  - intros Hq He Hn.
    destruct (overwrite_updates_related _ _ _ _ _ _ Hrel Hov) as [r0 Hr0].
    pose proof (reconcile_entry reg depth (JObj d) (related self) Hnd
                                _ _ Hrec name) as Hname.
    rewrite H in Hname. unfold reconciled in Hname.
    rewrite Hr0, get_update by (eapply reconcile_nodup; eauto).
    destruct v as [j|c|q]; [| |discriminate];
      rewrite He, Hn in Hname; destruct Hname as [d0 [res [H1 [H2 H3]]]];
        exists d0, res; rewrite H3; auto.
Qed.

Lemma X10_save_reconciles_related_cache_witness :
  exists rq body data,
    snd (Resource.save Examples.reg Examples.transport 3 [] Examples.child [])
    = [] ++ [rq]
    /\ Examples.transport [] rq = Ok body
    /\ Py.getitem body "data" = Ok data
    /\ forall name v,
        Dict.get name (related Examples.child) = Some v ->
        ((Resource.is_plural_fetched (Some v) = true
          \/ Py.eq (cached_id v) (response_id data name) = true) ->
         Dict.get name
                  (related
                     (snd (fst (Resource.save Examples.reg Examples.transport 3
                                              [] Examples.child []))))
         = Some v)
        /\ (Resource.is_plural_fetched (Some v) = false ->
            Py.eq (cached_id v) (response_id data name) = false ->
            Py.is_none (response_id data name) = false ->
            exists d res,
              response_descriptor data name = Ok d
              /\ Resource.new1 Examples.reg 3 d = Ok res
              /\ Dict.get name
                          (related
                             (snd (fst (Resource.save
                                          Examples.reg Examples.transport 3
                                          [] Examples.child []))))
                 = Some (VRes res)).
Proof.
  apply (X10_save_reconciles_related_cache
           Examples.reg Examples.transport 3 [] Examples.child).
  - apply NoDup_singleton.
  - reflexivity.
Defined.


(** ** How many requests [fetch] may issue *)

Lemma reload_log_any reg transport depth include self log :
  exists rqs,
    snd (Resource.reload reg transport depth include self log) = log ++ rqs
    /\ length rqs <= 1
    /\ Forall (fun rq => rq_method rq = GET) rqs.
Proof.
  destruct (Resource._get_url self) as [u|e] eqn:Hu.
  - destruct (reload_log reg transport depth include self log u Hu)
      as [rq [Hl [Hm _]]].
    exists [rq]. split; [exact Hl|]. split; [simpl; lia|].
    constructor; [exact Hm|constructor].
  - exists []. split; [|split; [simpl; lia|constructor]].
    unfold Resource.reload, obind, oget, olift. rewrite Hu.
    now rewrite app_nil_r.
Qed.

Lemma fetch_one_log reg transport depth force name self log :
  exists rqs,
    snd (Resource.fetch_one reg transport depth force name self log)
    = log ++ rqs
    /\ length rqs <= 1
    /\ Forall (fun rq => rq_method rq = GET) rqs.
Proof.
  assert (Nothing : forall (r : result unit) (s : resource),
             exists rqs, snd (r, s, log) = log ++ rqs
                         /\ length rqs <= 1
                         /\ Forall (fun rq => rq_method rq = GET) rqs).
  { intros r s. exists []. simpl. rewrite app_nil_r.
    split; [reflexivity|]. split; [lia|constructor]. }
  unfold Resource.fetch_one, obind, oget, oret, olift, oraise, omodify.
  destruct (Dict.get name (relationships self)) as [d|]; [|apply Nothing].
  destruct (Py.is_none d); [apply Nothing|].
  destruct (_ && negb force); [apply Nothing|].
  destruct (Py.contains "data" d) as [[|]|]; [| |apply Nothing].
  - unfold Resource.reload_related.
    destruct (Dict.get name (related self)) as [[j|rel|q]|];
      try apply Nothing.
    destruct (reload_log_any reg transport depth None rel log)
      as [rqs [Hl Hb]].
    exists rqs. split; [|exact Hb].
    now destruct (Resource.reload reg transport depth None rel log)
      as [[res rel'] log'].
  - destruct (Py.getitem d "links") as [l|]; [|apply Nothing].
    destruct (Py.getitem l "related"); apply Nothing.
Qed.

Lemma fetch_one_relationships reg transport depth force name self log :
  relationships
    (snd (fst (Resource.fetch_one reg transport depth force name self log)))
  = relationships self.
Proof.
  unfold Resource.fetch_one, obind, oget, oret, olift, oraise, omodify.
  destruct (Dict.get name (relationships self)) as [d|]; [|reflexivity].
  destruct (Py.is_none d); [reflexivity|].
  destruct (_ && negb force); [reflexivity|].
  destruct (Py.contains "data" d) as [[|]|]; [| |reflexivity].
  - unfold Resource.reload_related.
    destruct (Dict.get name (related self)) as [[j|rel|q]|]; try reflexivity.
    destruct (Resource.reload reg transport depth None rel log)
      as [[res rel'] log'].
    cbn [fst snd]. apply relationships_set_r.
  - destruct (Py.getitem d "links") as [l|]; [|reflexivity].
    destruct (Py.getitem l "related"); [|reflexivity].
    cbn [fst snd]. apply relationships_set_r.
Qed.

Lemma fetch_relationships reg transport depth force names :
  forall self log,
    relationships
      (snd (fst (Resource.fetch reg transport depth names force self log)))
    = relationships self.
Proof.
  unfold Resource.fetch.
  induction names as [|name rest IH]; intros self log; [reflexivity|].
  cbn [ofor]. unfold obind at 1.
  pose proof (fetch_one_relationships reg transport depth force name self log)
    as H1.
  destruct (Resource.fetch_one reg transport depth force name self log)
    as [[[u|e] s1] log1]; cbn [fst snd] in H1.
  - now rewrite IH.
  - exact H1.
Qed.

Lemma ofor_app {X} (pre post : list X) (body : X -> op unit) self log :
  ofor (pre ++ post) body self log
  = match ofor pre body self log with
    | (Ok _, s1, log1) => ofor post body s1 log1
    | (Raise e, s1, log1) => (Raise e, s1, log1)
    end.
Proof.
  revert self log. induction pre as [|x pre IH]; intros self log.
  - reflexivity.
  - cbn [app ofor]. unfold obind.
    destruct (body x self log) as [[[u|e] s1] log1]; [apply IH|reflexivity].
Qed.

(** X11.  [fetch] issues GET requests only, at most one for each name it
    is given, and it stops at the first name that is not a key of the
    relationships: the names before it are fetched as if the list ended
    there, then the ValueError is raised, and the names after it are never
    looked at.  When the unknown name comes first, the ValueError is raised
    at once, with the instance untouched and nothing sent. *)
Theorem X11_fetch_requests_bounded
        (reg : registry) (transport : list request -> request -> result json)
        (depth : nat) (force : bool) (names : list string) (self : resource)
        (log : list request) :
  (exists rqs,
      snd (Resource.fetch reg transport depth names force self log)
      = log ++ rqs
      /\ length rqs <= length names
      /\ Forall (fun rq => rq_method rq = GET) rqs)
  /\ (forall known name rest,
         names = known ++ name :: rest ->
         Dict.get name (relationships self) = None ->
         Resource.fetch reg transport depth names force self log
         = match Resource.fetch reg transport depth known force self log with
           | (Ok _, s1, log1) =>
               (Raise (ValueError_no_relationship name), s1, log1)
           | (Raise e, s1, log1) => (Raise e, s1, log1)
           end)
  /\ (forall name rest,
         names = name :: rest ->
         Dict.get name (relationships self) = None ->
         Resource.fetch reg transport depth names force self log
         = (Raise (ValueError_no_relationship name), self, log)).
Proof.
  assert (Unknown : forall name s l,
             Dict.get name (relationships s) = None ->
             Resource.fetch_one reg transport depth force name s l
             = (Raise (ValueError_no_relationship name), s, l)).
  { intros name s l Hn.
    unfold Resource.fetch_one, obind, oget, oraise. now rewrite Hn. }
  split; [|split].
  - unfold Resource.fetch. revert self log.
    induction names as [|name rest IH]; intros self log; simpl.
    + exists []. rewrite app_nil_r. split; [reflexivity|].
      split; [simpl; lia|constructor].
    + unfold obind.
      destruct (fetch_one_log reg transport depth force name self log)
        as [rqs1 [H1 [Hb1 Hg1]]].
      destruct (Resource.fetch_one reg transport depth force name self log)
        as [[[u|e] s1] log1]; simpl in H1; subst log1.
      * destruct (IH s1 (log ++ rqs1)) as [rqs2 [H2 [Hb2 Hg2]]].
        exists (rqs1 ++ rqs2). rewrite H2, app_assoc.
        split; [reflexivity|]. split.
        -- rewrite length_app. lia.
        -- apply Forall_app. auto.
      * exists rqs1. split; [reflexivity|]. split; [lia|exact Hg1].
  - intros known name rest -> Hn.
    pose proof (fetch_relationships reg transport depth force known self log)
      as Hk.
    unfold Resource.fetch in *. rewrite ofor_app.
    destruct (ofor known (Resource.fetch_one reg transport depth force)
                   self log)
      as [[[u|e] s1] log1]; [|reflexivity].
    cbn [fst snd] in Hk. cbn [ofor]. unfold obind at 1.
    rewrite Unknown by (now rewrite Hk). reflexivity.
  - intros name rest -> Hn. unfold Resource.fetch. cbn [ofor].
    unfold obind at 1. now rewrite Unknown.
Qed.

Lemma X11_fetch_requests_bounded_witness :
  Resource.fetch Examples.reg Examples.transport 3
                 ["parent"; "sibling"; "parent"] true Examples.child []
  = match Resource.fetch Examples.reg Examples.transport 3 ["parent"] true
                         Examples.child [] with
    | (Ok _, s1, log1) => (Raise (ValueError_no_relationship "sibling"), s1, log1)
    | (Raise e, s1, log1) => (Raise e, s1, log1)
    end.
Proof.
  apply (proj1 (proj2 (X11_fetch_requests_bounded
                         Examples.reg Examples.transport 3 true
                         ["parent"; "sibling"; "parent"] Examples.child []))
               ["parent"] "sibling" ["parent"] eq_refl eq_refl).
Defined.

(** ** [create] *)




(** ** Bulk actions *)

Lemma bulk_create_payload_ok reg depth cls items payload :
  Resource.bulk_create_payload reg depth cls items = Ok payload ->
  length payload = length items /\ Forall (entry_of cls None) payload.
Proof.
  revert payload. induction items as [|item rest IH]; intros payload; simpl.
  - intros [= <-]. split; [reflexivity|constructor].
  - destruct (Resource._extract_from_item item) as [[[a r] i]|]; simpl;
      [|discriminate].
    destruct (negb (Py.is_none i)); [discriminate|].
    set (e0 := [("type", json_of_option (TYPE cls))]).
    set (e1 := if negb (Py.is_none a) then Dict.set "attributes" a e0 else e0).
    assert (H1 : Dict.get "type" e1 = Some (json_of_option (TYPE cls))
                 /\ Dict.get "id" e1 = None).
    { unfold e1. destruct (negb (Py.is_none a)); now cbn. }
    assert (K : forall e2,
               (if negb (Py.is_none r)
                then try! entries := Resource.dict_items r in
                     try! rels := Resource.as_relationships reg depth entries in
                     Ok (Dict.set "relationships" (JObj rels) e1)
                else Ok e1) = Ok e2 ->
               entry_of cls None (JObj e2)).
    { intros e2. destruct (negb (Py.is_none r)).
      - destruct (Resource.dict_items r) as [entries|]; simpl; [|discriminate].
        destruct (Resource.as_relationships reg depth entries) as [rels|];
          simpl; [|discriminate].
        intros [= <-]. exists (Dict.set "relationships" (JObj rels) e1).
        split; [reflexivity|].
        rewrite !get_set_ne by discriminate. exact H1.
      - intros [= <-]. exists e1. split; [reflexivity|exact H1]. }
    destruct (if negb (Py.is_none r) then _ else _) as [e2|]; simpl;
      [|discriminate].
    destruct (Resource.bulk_create_payload reg depth cls rest) as [others|];
      simpl; [|discriminate].
    intros [= <-]. destruct (IH others eq_refl) as [Hl Hf].
    split; [simpl; now rewrite Hl|].
    constructor; [now apply K|exact Hf].
Qed.

Lemma bulk_create_payload_id reg depth cls items item a r i :
  In item items ->
  Resource._extract_from_item item = Ok (a, r, i) ->
  i <> JNull ->
  exists e, Resource.bulk_create_payload reg depth cls items = Raise e.
Proof.
  intros Hin He Hi. induction items as [|x rest IH]; [destruct Hin|].
  simpl.
  destruct (Resource._extract_from_item x) as [[[a' r'] i']|e'] eqn:Hx; simpl;
    [|now exists e'].
  destruct (Py.is_none i') eqn:N; simpl; [|now exists ValueError_id_supplied].
  destruct (if negb (Py.is_none r') then _ else _) as [e2|e']; simpl;
    [|now exists e'].
  destruct Hin as [->|Hin].
  - rewrite He in Hx. injection Hx as <- <- <-.
    now apply is_none_true in N.
  - destruct (IH Hin) as [e Hr]. rewrite Hr. now exists e.
Qed.

(** X13.  [bulk_create] sends everything or nothing.  When it returns, it
    has sent exactly one request, a bulk POST to the collection of the
    class with one resource object per item, in order of count, each of
    the TYPE of the class and without an 'id'.  When some item carries an
    id, the call fails and no request is sent, wherever the item stands in
    the list. *)
Theorem X13_bulk_create_all_or_nothing
        (reg : registry) (transport : list request -> request -> result json)
        (depth : nat) (cls : klass) (items : list item) (log : list request) :
  (forall q log',
      Resource.bulk_create reg transport depth cls items log = (Ok q, log') ->
      exists payload,
        log' = log ++ [bulk_request POST cls payload]
        /\ length payload = length items
        /\ Forall (entry_of cls None) payload)
  /\ (forall item a r i,
         In item items ->
         Resource._extract_from_item item = Ok (a, r, i) ->
         i <> JNull ->
         exists e,
           Resource.bulk_create reg transport depth cls items log
           = (Raise e, log)).
Proof.
  split.
  - intros q log'. unfold Resource.bulk_create.
    destruct (Resource.bulk_create_payload reg depth cls items)
      as [payload|] eqn:Hp; [|discriminate].
    fold (bulk_request POST cls payload).
    destruct (transport log _); [|discriminate].
    intros [= _ <-]. exists payload. split; [reflexivity|].
    now apply (bulk_create_payload_ok reg depth).
  - intros item a r i Hin He Hi.
    destruct (bulk_create_payload_id reg depth cls items item a r i Hin He Hi)
      as [e Hr].
    exists e. unfold Resource.bulk_create. now rewrite Hr.
Qed.

Lemma X13_bulk_create_all_or_nothing_witness :
  exists e,
    Resource.bulk_create Examples.reg Examples.transport 3 Examples.Child
                         [IJson (JObj [("attributes",
                                        JObj [("name", JStr "child 2")])]);
                          IRes Examples.child] []
    = (Raise e, []).
Proof.
  apply (proj2 (X13_bulk_create_all_or_nothing
                  Examples.reg Examples.transport 3 Examples.Child
                  [IJson (JObj [("attributes",
                                 JObj [("name", JStr "child 2")])]);
                   IRes Examples.child] [])
               (IRes Examples.child) (attributes Examples.child)
               (JObj (relationships Examples.child)) (JStr "1"));
    [right; left; reflexivity | reflexivity | discriminate].
Defined.

Lemma extract_bare_mapping it :
  bare_mapping it -> Resource._extract_from_item it = Ok (JNull, JNull, JNull).
Proof.
  intros [d [-> [Ha [Hr Hi]]]]. cbn. now rewrite Ha, Hr, Hi.
Qed.

(** X14.  A dictionary item is read through its 'attributes',
    'relationships' and 'id' keys only.  A dictionary with none of these
    keys, such as a plain dictionary of attribute values, therefore
    contributes nothing but the type: [bulk_create] sends one object
    holding only the TYPE for each such item, and [bulk_update] rejects the
    list for its missing id without sending anything. *)
Theorem X14_bare_mappings_carry_no_fields
        (reg : registry) (transport : list request -> request -> result json)
        (depth : nat) (cls : klass) (items : list item) (log : list request) :
  Forall bare_mapping items ->
  Resource.bulk_create_payload reg depth cls items
  = Ok (map (fun _ => JObj [("type", json_of_option (TYPE cls))]) items)
  /\ (items <> [] ->
      forall fields,
        Resource.bulk_update reg transport depth cls items fields log
        = (Raise ValueError_id_not_supplied, log)).
Proof.
  intros H. split.
  - induction H as [|it rest Hb _ IH]; [reflexivity|].
    simpl. rewrite (extract_bare_mapping it Hb). cbn. now rewrite IH.
  - intros Hne fields. destruct H as [|it rest Hb _]; [congruence|].
    unfold Resource.bulk_update. simpl.
    now rewrite (extract_bare_mapping it Hb).
Qed.

Lemma X14_bare_mappings_carry_no_fields_witness :
  Resource.bulk_create_payload
    Examples.reg 3 Examples.Child
    [IJson (JObj [("username", JStr "username1")]);
     IJson (JObj [("username", JStr "username2")])]
  = Ok [JObj [("type", JStr "children")]; JObj [("type", JStr "children")]].
Proof.
  refine (proj1 (X14_bare_mappings_carry_no_fields
                   Examples.reg Examples.transport 3 Examples.Child
                   [IJson (JObj [("username", JStr "username1")]);
                    IJson (JObj [("username", JStr "username2")])] [] _)).
  repeat constructor;
    eexists; (split; [reflexivity|]); repeat split; reflexivity.
Defined.

Lemma restrict_within fields x y :
  Resource.restrict fields x = Ok y -> within fields y.
Proof.
  unfold Resource.restrict.
  destruct (Resource.dict_items x) as [entries|]; simpl; [|discriminate].
  intros [= <-]. right. eexists. split; [reflexivity|].
  intros k Hk. unfold Dict.keys in Hk. apply in_map_iff in Hk.
  destruct Hk as [[k' v] [<- Hin]]. apply filter_In in Hin as [_ Hf].
  apply existsb_exists in Hf as [f [Hf E]]. simpl in E.
  apply String.eqb_eq in E. now subst.
Qed.

Lemma as_relationships_keys reg depth entries rels :
  Resource.as_relationships reg depth entries = Ok rels ->
  Dict.keys rels = Dict.keys entries.
Proof.
  revert rels. induction entries as [|[k v] rest IH]; intros rels; simpl.
  - now intros [= <-].
  - destruct (Resource.relationship_of reg depth (IJson v)); simpl;
      [|discriminate].
    destruct (Resource.as_relationships reg depth rest) as [others|]; simpl;
      [|discriminate].
    intros [= <-]. simpl. now rewrite (IH others eq_refl).
Qed.

Lemma bulk_update_entry reg depth cls fields i a r e :
  within fields a -> within fields r ->
  (let entry := [("type", json_of_option (TYPE cls)); ("id", i)] in
   let entry := if Py.truth a then Dict.set "attributes" a entry else entry in
   if Py.truth r then
     try! entries := Resource.dict_items r in
     try! rels := Resource.as_relationships reg depth entries in
     Ok (Dict.set "relationships" (JObj rels) entry)
   else Ok entry) = Ok e ->
  entry_of cls (Some i) (JObj e) /\ incl (transmitted_fields e) fields.
Proof.
  intros Ha Hr. cbv zeta.
  set (e0 := [("type", json_of_option (TYPE cls)); ("id", i)]).
  set (e1 := if Py.truth a then Dict.set "attributes" a e0 else e0).
  assert (H1 : Dict.get "type" e1 = Some (json_of_option (TYPE cls))
               /\ Dict.get "id" e1 = Some i
               /\ Dict.get "relationships" e1 = None
               /\ incl (section_keys "attributes" e1) fields).
  { unfold e1. destruct (Py.truth a) eqn:T.
    - repeat split; try reflexivity.
      unfold section_keys. cbn.
      destruct Ha as [->|[d [-> Hd]]]; [discriminate|exact Hd].
    - repeat split; try reflexivity. intros k []. }
  destruct H1 as [Ht [Hi [Hn Hk]]].
  destruct (Py.truth r) eqn:T.
  - destruct Hr as [->|[d [-> Hd]]]; [discriminate|]. cbn [Resource.dict_items rbind].
    destruct (Resource.as_relationships reg depth d) as [rels|] eqn:Hrels;
      simpl; [|discriminate].
    intros [= <-]. split.
    + eexists. split; [reflexivity|].
      rewrite !get_set_ne by discriminate. now split.
    + unfold transmitted_fields, section_keys in *.
      rewrite get_set_ne by discriminate. rewrite get_set_eq.
      rewrite (as_relationships_keys _ _ _ _ Hrels).
      now apply incl_app.
  - intros [= <-]. split.
    + eexists. split; [reflexivity|]. now split.
    + unfold transmitted_fields. unfold section_keys at 2. rewrite Hn.
      rewrite app_nil_r. exact Hk.
Qed.

Lemma bulk_update_payload_ok reg depth cls f fs items payload :
  Resource.bulk_update_payload reg depth cls (Some (f :: fs)) items
  = Ok payload ->
  length payload = length items
  /\ Forall (fun e => exists d i,
                 e = JObj d /\ i <> JNull /\ entry_of cls (Some i) e
                 /\ incl (transmitted_fields d) (f :: fs)) payload.
Proof.
  revert payload. induction items as [|item rest IH]; intros payload.
  - intros [= <-]. split; [reflexivity|constructor].
  - cbn [Resource.bulk_update_payload].
    destruct (Resource._extract_from_item item) as [[[a r] i]|];
      cbn [rbind fst snd]; [|discriminate].
    destruct (Py.is_none i) eqn:N; [discriminate|].
    cbn [andb].
    assert (Ra : forall x y,
               (if negb (Py.is_none x)
                then Resource.restrict (f :: fs) x else Ok x) = Ok y ->
               within (f :: fs) y).
    { intros x y. destruct (Py.is_none x) eqn:Nx; cbn [negb].
      - intros [= <-]. left. now apply is_none_true.
      - apply restrict_within. }
    destruct (if negb (Py.is_none a) then _ else _) as [a'|] eqn:Ea;
      cbn [rbind]; [|discriminate].
    destruct (if negb (Py.is_none r) then _ else _) as [r'|] eqn:Er;
      cbn [rbind]; [|discriminate].
    pose proof (bulk_update_entry reg depth cls (f :: fs) i a' r') as K.
    cbv zeta in K.
    destruct (if Py.truth r' then _ else _) as [e|] eqn:Ee; cbn [rbind];
      [|discriminate].
    destruct (Resource.bulk_update_payload reg depth cls (Some (f :: fs)) rest)
      as [others|]; cbn [rbind]; [|discriminate].
    intros [= <-]. destruct (IH others eq_refl) as [Hl Hf].
    split; [simpl; now rewrite Hl|].
    constructor; [|exact Hf].
    destruct (K e (Ra _ _ Ea) (Ra _ _ Er) eq_refl) as [He Hin].
    exists e, i. repeat split; auto.
    intros ->. discriminate.
Qed.

(** X15.  [bulk_update] filters with its [fields] argument, or with the
    EDITABLE of the class when the argument is None.  When that list is
    not empty and the call returns, it has sent exactly one request, a bulk
    PATCH to the collection of the class with one resource object per
    item; each object carries the TYPE of the class and an id that is not
    None, and transmits, in its attributes and relationships together, no
    field outside the list. *)
Theorem X15_bulk_update_transmits_chosen_fields
        (reg : registry) (transport : list request -> request -> result json)
        (depth : nat) (cls : klass) (items : list item)
        (fields : option (list string)) (f : string) (fs : list string)
        (log log' : list request) (q : queryset) :
  bulk_fields cls fields = Some (f :: fs) ->
  Resource.bulk_update reg transport depth cls items fields log
  = (Ok q, log') ->
  exists payload,
    log' = log ++ [bulk_request PATCH cls payload]
    /\ length payload = length items
    /\ Forall (fun e => exists d i,
                   e = JObj d /\ i <> JNull /\ entry_of cls (Some i) e
                   /\ incl (transmitted_fields d) (f :: fs)) payload.
Proof.
  intros Hf. unfold Resource.bulk_update. cbv zeta.
  change (match fields with None => EDITABLE cls | Some f0 => Some f0 end)
    with (bulk_fields cls fields).
  rewrite Hf.
  destruct (Resource.bulk_update_payload reg depth cls (Some (f :: fs)) items)
    as [payload|] eqn:Hp; [|discriminate].
  fold (bulk_request PATCH cls payload).
  destruct (transport log _); [|discriminate].
  intros [= _ <-]. exists payload. split; [reflexivity|].
  now apply (bulk_update_payload_ok reg depth).
Qed.

Lemma X15_bulk_update_transmits_chosen_fields_witness :
  exists payload,
    [bulk_request PATCH Examples.Child
                  [JObj [("type", JStr "children"); ("id", JStr "1");
                         ("attributes", JObj [("name", JStr "child 1")])]]]
    = [] ++ [bulk_request PATCH Examples.Child payload]
    /\ length payload = length [IRes Examples.child]
    /\ Forall (fun e => exists d i,
                   e = JObj d /\ i <> JNull
                   /\ entry_of Examples.Child (Some i) e
                   /\ incl (transmitted_fields d) ["name"]) payload.
Proof.
  apply (X15_bulk_update_transmits_chosen_fields
           Examples.reg Examples.transport 3 Examples.Child
           [IRes Examples.child] (Some ["name"]) "name" [] []
           [bulk_request PATCH Examples.Child
                         [JObj [("type", JStr "children"); ("id", JStr "1");
                                ("attributes",
                                 JObj [("name", JStr "child 1")])]]]
           (Queryset_from_data (JObj [("data", Examples.child1)])));
    reflexivity.
Defined.

(** ** [get] *)

Lemma init_bare new1 cls i :
  Resource.__init__ new1 cls JNull
                    {| a_id := i; a_attributes := JNull;
                       a_relationships := RelsJson JNull; a_links := JNull;
                       a_related := None |} JNull
  = Ok (bare cls i).
Proof. reflexivity. Qed.

Lemma reload_sends reg transport depth include self log u :
  Resource._get_url self = Ok u ->
  snd (Resource.reload reg transport depth include self log)
  = log ++ [reload_request u include].
Proof.
  intros Hu.
  unfold Resource.reload, Resource._jsonapi_request, obind, oget, olift,
    oraise, omethod.
  rewrite Hu. fold (reload_request u include).
  destruct (transport log (reload_request u include)) as [body|];
    [|reflexivity].
  destruct (Py.get body "included"); [|reflexivity].
  destruct (Py.getitem body "data") as [data|]; [|reflexivity].
  destruct data; try reflexivity.
  destruct (overwrite_kwargs _ _ _); [|reflexivity].
  now destruct (Resource._overwrite _ _ _).
Qed.

(** X16.  [get] builds a bare instance and reloads it: whatever the
    server answers, it sends exactly one GET, to the item URL made of a
    TYPE and the id it was given, with the [include] names as parameter.
    On a class with a TYPE the [type] keyword plays no part: the URL uses
    the TYPE of the class and a returned instance is of that class.  On
    the generic class a type name selects the registered class, and a name
    that is not registered gives the generic class, whose TYPE is None. *)
Theorem X16_get_sends_one_request
        (reg : registry) (transport : list request -> request -> result json)
        (depth : nat) (klass : klass) (id type : json)
        (include : option (list string)) (log : list request) :
  (TYPE klass <> None ->
   snd (Resource.get reg transport depth klass id type include log)
   = log ++ [reload_request (ItemUrl (TYPE klass) id) include]
   /\ forall r log',
       Resource.get reg transport depth klass id type include log
       = (Ok r, log') ->
       cls r = klass)
  /\ (TYPE klass = None ->
      forall t, type = JStr t -> depth <> 0 ->
      snd (Resource.get reg transport depth klass id type include log)
      = log ++ [reload_request
                  (ItemUrl (TYPE (default Resource_class (reg !! t))) id)
                  include]).
Proof.
  assert (K : forall k,
             snd (match Resource.reload reg transport depth include (bare k id)
                                        log with
                  | (Ok _, instance', log') => (Ok instance', log')
                  | (Raise e, _, log') => (Raise e, log')
                  end)
             = log ++ [reload_request (ItemUrl (TYPE k) id) include]).
  { intros k.
    pose proof (reload_sends reg transport depth include (bare k id) log
                             (ItemUrl (TYPE k) id) eq_refl) as L.
    now destruct (Resource.reload _ _ _ _ _ _) as [[[?|?] ?] ?]. }
  split.
  - intros HT. unfold Resource.get.
    destruct (TYPE klass) as [t|] eqn:Ht; [|congruence].
    rewrite andb_false_r, init_bare. rewrite <- Ht. split; [apply K|].
    intros r log'.
    destruct (Resource.reload _ _ _ _ _ _) as [[[u|e] s'] l'] eqn:R;
      [|discriminate].
    intros [= <- _]. now apply reload_cls in R.
  - intros HT t -> Hd. unfold Resource.get. rewrite HT. cbn [Py.is_none negb andb].
    destruct depth as [|depth']; [congruence|].
    cbn [Resource.new Py.is_none negb Resource.registry_get rbind init_kwargs
         String.eqb Ascii.eqb Bool.eqb no_args a_attributes a_relationships
         a_links a_related].
    rewrite init_bare. apply K.
Qed.

Lemma X16_get_sends_one_request_witness :
  snd (Resource.get Examples.reg Examples.transport 3 Resource_class
                    (JStr "1") (JStr "grandparents") (Some ["parent"]) [])
  = [] ++ [reload_request (ItemUrl None (JStr "1")) (Some ["parent"])].
Proof.
  apply (proj2 (X16_get_sends_one_request
                  Examples.reg Examples.transport 3 Resource_class
                  (JStr "1") (JStr "grandparents") (Some ["parent"]) [])
               eq_refl "grandparents" eq_refl).
  discriminate.
Defined.

(** ** [__copy__] *)

Lemma set_relationships_set_R X k v s :
  set_relationships X (Resource.set_R k v s) = set_relationships X s.
Proof. now destruct s. Qed.

Lemma store_objs d :
  forall s,
    Resource.store_relationships (RelsObjs d) s
    = (Ok tt,
       set_relationships (Dict.update (relationships s) (descriptors d)) s).
Proof.
  unfold Resource.store_relationships.
  induction d as [|[k it] t IH]; intros s.
  - now destruct s.
  - cbn [mfor]. unfold mbind.
    assert (E : (match snd (k, it) with
                 | IRes value =>
                     mmodify (Resource.set_R (fst (k, it))
                                             (Resource.as_relationship value))
                 | IJson value => mmodify (Resource.set_R (fst (k, it)) value)
                 end) s
                = (Ok tt, Resource.set_R k (descriptor_of it) s)).
    { now destruct it. }
    rewrite E, IH, set_relationships_set_R. reflexivity.
Qed.

Lemma overwrite_relationships new1 a (P : dict json -> Prop) :
  (forall s u s',
      relationships s = [] ->
      Resource.store_relationships (o_relationships a) s = (Ok u, s') ->
      P (relationships s')) ->
  triple (fun _ => True) (Resource._overwrite new1 a)
         (fun _ s => P (relationships s)).
Proof.
  intros Hstore. unfold Resource._overwrite.
  set (Q := fun s => P (relationships s)).
  eapply triple_bind.
  { apply (triple_modify _ (fun _ => True)). auto. }
  intros ?; cbv beta.
  eapply triple_bind.
  { apply (triple_modify _ (fun _ => True)). auto. }
  intros ?; cbv beta.
  eapply triple_bind.
  { apply (triple_modify _ (fun s => relationships s = [])).
    now intros [? ? ? ? ? ? ?]. }
  intros ?; cbv beta.
  eapply triple_bind.
  { intros s u s' Hs E. exact (Hstore s u s' Hs E). }
  intros ?; cbv beta. fold Q.
  eapply triple_bind.
  { apply (triple_modify _ Q). unfold Q. now intros [? ? ? ? ? ? ?]. }
  intros ?; cbv beta.
  eapply triple_bind.
  { apply (triple_modify _ Q). unfold Q. now intros [? ? ? ? ? ? ?]. }
  intros ?; cbv beta.
  eapply triple_bind.
  { apply (link_related_frame Q). unfold Q. now intros ? ? [? ? ? ? ? ? ?]. }
  intros ?; cbv beta.
  eapply triple_bind.
  { apply (link_included_frame Q). unfold Q. now intros ? ? [? ? ? ? ? ? ?]. }
  intros ?; cbv beta.
  destruct (o_related a).
  - apply (triple_modify Q Q). unfold Q. now intros [? ? ? ? ? ? ?].
  - apply triple_skip. auto.
Qed.

Lemma related_as_relationships_ok entries rels :
  Resource.related_as_relationships entries = Ok rels ->
  Dict.keys (descriptors rels) = Dict.keys entries
  /\ forall name,
      Dict.get name (descriptors rels)
      = match Dict.get name entries with
        | Some (VRes r) => Some (Resource.as_relationship r)
        | Some (VJson j) => Some j
        | _ => None
        end.
Proof.
  revert rels. induction entries as [|[k v] t IH]; intros rels; simpl.
  - intros [= <-]. split; [reflexivity|]. intros name. reflexivity.
  - destruct (Resource.related_as_relationships t) as [others|]; simpl;
      [|discriminate].
    destruct (IH others eq_refl) as [Hk Hg].
    destruct v as [j|r|q]; [| |discriminate];
      intros [= <-]; (split; [simpl; now rewrite Hk|]);
      intros name; simpl; destruct (String.eqb name k); auto.
Qed.

(** X17.  A copy is built from the related cache, not from the
    relationships: when [__copy__] returns, the copy has the class, the id,
    the attributes and the links of the original, and every entry of the
    original's cache; but its relationships are exactly the cached names,
    each with the descriptor rebuilt from the cached instance (the type
    and the id, without links), or None for a cached None.  A relationship
    of the original that has no cache entry, such as a plural one that was
    never fetched, is absent from the copy. *)
Theorem X17_copy_rebuilds_relationships_from_cache
        (reg : registry) (depth : nat) (self c : resource) :
  NoDup (Dict.keys (related self)) ->
  Resource.__copy__ reg depth self = Ok c ->
  (cls c = cls self /\ id c = id self
   /\ attributes c = or_empty (attributes self)
   /\ links c = or_empty (links self))
  /\ (forall name v,
         Dict.get name (related self) = Some v ->
         Dict.get name (related c) = Some v)
  /\ (forall name r,
         Dict.get name (related self) = Some (VRes r) ->
         Dict.get name (relationships c) = Some (Resource.as_relationship r))
  /\ (forall name j,
         Dict.get name (related self) = Some (VJson j) ->
         Dict.get name (relationships c) = Some j)
  /\ (forall name,
         Dict.get name (related self) = None ->
         Dict.get name (relationships c) = None).
Proof.
  intros Hnd. unfold Resource.__copy__.
  destruct (Resource.related_as_relationships (related self)) as [rels|]
    eqn:Hrels; simpl; [|discriminate].
  destruct (related_as_relationships_ok _ _ Hrels) as [Hk Hg].
  unfold Resource.__init__.
  cbn [Py.is_none negb andb a_id a_attributes a_relationships a_links
       a_related].
  set (args := {| o_id := _ |}).
  destruct (Resource._overwrite (Resource.new1 reg depth) args
                                (Resource.blank (cls self)))
    as [[u|e] s'] eqn:E; [|discriminate].
  intros [= <-].
  destruct (overwrite_fields _ args (cls self) [] (Resource.blank (cls self))
                             u s' (conj eq_refl eq_refl) E)
    as [[Hc _] [Hid [Ha Hl]]].
  split; [repeat split; assumption|].
  destruct (overwrite_updates_related _ args (related self) _ u s' eq_refl E)
    as [r0 Hr0].
  split.
  { intros name v Hv. rewrite Hr0, get_update by exact Hnd. now rewrite Hv. }
  assert (R : forall name,
             Dict.get name (relationships s')
             = Dict.get name (descriptors rels)).
  { apply (overwrite_relationships
             (Resource.new1 reg depth) args
             (fun R => forall name,
                  Dict.get name R = Dict.get name (descriptors rels))
             ) with (s := Resource.blank (cls self)) (a := u); [|exact I|exact E].
    intros s0 u0 s1 Hs0. cbn [args o_relationships]. rewrite store_objs.
    intros [= _ <-] name.
    assert (Hrel : relationships
                     (set_relationships
                        (Dict.update (relationships s0) (descriptors rels)) s0)
                   = Dict.update (relationships s0) (descriptors rels)).
    { now destruct s0. }
    rewrite Hrel, get_update, Hs0 by (rewrite Hk; exact Hnd).
    now destruct (Dict.get name (descriptors rels)). }
  repeat split; intros name; [intros r H|intros j H|intros H];
    rewrite R, Hg, H; reflexivity.
Qed.

Lemma X17_copy_rebuilds_relationships_from_cache_witness :
  Dict.get "parent"
           (relationships
              (mkResource Examples.Child (JStr "1")
                          (JObj [("name", JStr "child 1")])
                          [("parent", Resource.as_relationship
                                        Examples.bare_parent)]
                          [("parent", VRes Examples.bare_parent)]
                          (JObj []) []))
  = Some (Resource.as_relationship Examples.bare_parent).
Proof.
  refine (proj1 (proj2 (proj2 (X17_copy_rebuilds_relationships_from_cache
                                 Examples.reg 3 Examples.child _ _ _)))
                "parent" Examples.bare_parent eq_refl).
  - apply NoDup_singleton.
  - reflexivity.
Defined.

(** ** [bulk_delete] *)

Lemma identifiers_of_instances reg depth rs :
  Resource.identifiers reg depth (map IRes rs)
  = Ok (map Resource.as_resource_identifier rs).
Proof.
  induction rs as [|r rs IH]; [reflexivity|].
  cbn [map Resource.identifiers]. rewrite IH. reflexivity.
Qed.

Lemma identifiers_length reg depth items payload :
  Resource.identifiers reg depth items = Ok payload ->
  length payload = length items.
Proof.
  revert payload. induction items as [|x t IH]; intros payload; simpl.
  - now intros [= <-].
  - destruct (Resource.identifier_of reg depth x); simpl; [|discriminate].
    destruct (Resource.identifiers reg depth t) as [others|]; simpl;
      [|discriminate].
    intros [= <-]. simpl. now rewrite (IH others eq_refl).
Qed.

(** X18.  [bulk_delete] sends at most one request, a bulk DELETE to the
    collection of the class it is called on, whose data are the resource
    identifiers of the items, one per item.  For Resource instances the
    request is always sent, and each identifier carries the TYPE of the
    instance's own class and its id, whatever the class the method was
    called on; an item that cannot be made a Resource makes the call fail
    before anything is sent. *)
Theorem X18_bulk_delete_sends_identifiers
        (reg : registry) (transport : list request -> request -> result json)
        (depth : nat) (cls : klass) (items : list item) (log : list request) :
  (forall rs,
      items = map IRes rs ->
      snd (Resource.bulk_delete reg transport depth cls items log)
      = log ++ [bulk_request DELETE cls
                             (map Resource.as_resource_identifier rs)])
  /\ (forall log',
         Resource.bulk_delete reg transport depth cls items log = (Ok tt, log')
         -> exists payload,
           Resource.identifiers reg depth items = Ok payload
           /\ length payload = length items
           /\ log' = log ++ [bulk_request DELETE cls payload])
  /\ (forall e,
         Resource.identifiers reg depth items = Raise e ->
         Resource.bulk_delete reg transport depth cls items log
         = (Raise e, log)).
Proof.
  unfold Resource.bulk_delete. split; [|split].
  - intros rs ->. rewrite identifiers_of_instances.
    fold (bulk_request DELETE cls (map Resource.as_resource_identifier rs)).
    now destruct (transport log _).
  - intros log'.
    destruct (Resource.identifiers reg depth items) as [payload|] eqn:Hp;
      [|discriminate].
    fold (bulk_request DELETE cls payload).
    destruct (transport log _); [|discriminate].
    intros [= <-]. exists payload. split; [reflexivity|].
    split; [now apply (identifiers_length reg depth)|reflexivity].
  - intros e ->. reflexivity.
Qed.

Lemma X18_bulk_delete_sends_identifiers_witness :
  snd (Resource.bulk_delete Examples.reg Examples.transport 3 Examples.Child
                            (map IRes [Examples.child; Examples.bare_parent])
                            [])
  = [] ++ [bulk_request DELETE Examples.Child
                        (map Resource.as_resource_identifier
                             [Examples.child; Examples.bare_parent])].
Proof.
  apply (proj1 (X18_bulk_delete_sends_identifiers
                  Examples.reg Examples.transport 3 Examples.Child
                  (map IRes [Examples.child; Examples.bare_parent]) [])
               [Examples.child; Examples.bare_parent] eq_refl).
Defined.
